(** * Validation and triage of uploaded blobs (function_app.py)

    A shallow embedding of the blob-triggered function of the upload portal:
    the rule table, the five format validators, the blob move and the report
    persistence, and the orchestrator [process_uploaded_file] that ties them
    together.

    Python values are modelled as the code uses them: [bytes] as a list of
    bytes, [str] objects that hold decoded file content as lists of code
    points, names and messages as strings, the report dictionary as a record
    with one field per key, and the [metadata] dictionary as an insertion
    ordered association list.  The run is written in a state-and-exception
    monad whose state holds the report object (shared by the orchestrator and
    the validators, which mutate it in place) and the outside world (object
    store, log, clock, trace of library calls). *)

From Stdlib Require Import ZArith NArith List String Ascii Lia Bool.
From Stdlib.Strings Require Import Byte.
From Stdlib Require Import DecimalString.
From stdpp Require Import gmap strings list.

Import ListNotations.
Set Warnings "-register-all".
Local Open Scope string_scope.
Local Open Scope list_scope.
Local Open Scope N_scope.

(** ** Bytes and text *)

(** A Python [bytes] object. *)
Definition bytes := list byte.

(** [len(content)] *)
Definition len_bytes (content : bytes) : N := N.of_nat (length content).

(** A Python [str] holding decoded content: its code points. *)
Definition text := list N.

Definition len_text (t : text) : N := N.of_nat (length t).

(** [text.count('\n')] *)
Definition count_newlines (t : text) : N :=
  N.of_nat (length (filter (fun c => c = 10) t)).

Module Codec.

(** [content.decode('latin-1')]: every byte is its own code point; the
    codec never fails. *)
Definition decode_latin1 (content : bytes) : text := map Byte.to_N content.

Definition is_cont (b : N) : bool := (128 <=? b) && (b <=? 191).

Definition cont (b : N) : N := b - 128.

(** [content.decode('utf-8')] with the default strict error handler, on the
    byte values: well-formed sequences only (no overlong forms, no
    surrogates, nothing above U+10FFFF); [None] stands for
    UnicodeDecodeError. *)
Fixpoint decode_utf8_N (bs : list N) : option text :=
  match bs with
  | [] => Some []
  | b0 :: r0 =>
    if b0 <? 128 then cons b0 <$> decode_utf8_N r0
    else if (194 <=? b0) && (b0 <=? 223) then
      match r0 with
      | b1 :: r1 =>
        if is_cont b1
        then cons ((b0 - 192) * 64 + cont b1) <$> decode_utf8_N r1
        else None
      | _ => None
      end
    else if (224 <=? b0) && (b0 <=? 239) then
      match r0 with
      | b1 :: b2 :: r2 =>
        let lo := if b0 =? 224 then 160 else 128 in
        let hi := if b0 =? 237 then 159 else 191 in
        if (lo <=? b1) && (b1 <=? hi) && is_cont b2
        then cons ((b0 - 224) * 4096 + cont b1 * 64 + cont b2)
               <$> decode_utf8_N r2
        else None
      | _ => None
      end
    else if (240 <=? b0) && (b0 <=? 244) then
      match r0 with
      | b1 :: b2 :: b3 :: r3 =>
        let lo := if b0 =? 240 then 144 else 128 in
        let hi := if b0 =? 244 then 143 else 191 in
        if (lo <=? b1) && (b1 <=? hi) && is_cont b2 && is_cont b3
        then cons ((b0 - 240) * 262144 + cont b1 * 4096
                   + cont b2 * 64 + cont b3)
               <$> decode_utf8_N r3
        else None
      | _ => None
      end
    else None
  end.

Definition decode_utf8 (content : bytes) : option text :=
  decode_utf8_N (map Byte.to_N content).

End Codec.

(** ** Python string operations used on names *)

Module PyStr.

Definition of_char (c : ascii) : string := String c EmptyString.

(** The double quote character. *)
Definition dquote : ascii := ascii_of_N 34.

(** [c in s] for a one-character [c]. *)
Fixpoint contains_char (c : ascii) (s : string) : bool :=
  match s with
  | EmptyString => false
  | String d s' => if Ascii.eqb c d then true else contains_char c s'
  end.

(** [s.split(sep)] for a one-character separator: never empty. *)
Fixpoint split (sep : ascii) (s : string) : list string :=
  match s with
  | EmptyString => [EmptyString]
  | String c s' =>
    if Ascii.eqb c sep then EmptyString :: split sep s'
    else match split sep s' with
         | [] => [of_char c]
         | p :: ps => String c p :: ps
         end
  end.

(** [s.rsplit(sep, 1)[-1]]: what follows the last separator (the whole
    string when there is none). *)
Definition rsplit1_last (sep : ascii) (s : string) : string :=
  List.last (split sep s) s.

Definition lower_char (c : ascii) : ascii :=
  let n := N_of_ascii c in
  if (65 <=? n) && (n <=? 90) then ascii_of_N (n + 32) else c.

(** [s.lower()] on ASCII text: A-Z are lower-cased, every other byte is
    left as it is.  ([str.lower] also lower-cases the capitals outside
    ASCII, which this function leaves alone; what is proved about the value
    of a lower-cased name is stated for ASCII names.) *)
Fixpoint lower (s : string) : string :=
  match s with
  | EmptyString => EmptyString
  | String c s' => String (lower_char c) (lower s')
  end.

Fixpoint replace_from (old new : string) (skip : nat) (s : string) : string :=
  match s with
  | EmptyString => EmptyString
  | String c s' =>
    match skip with
    | S k => replace_from old new k s'
    | O =>
      if String.prefix old s
      then new +:+ replace_from old new (String.length old - 1) s'
      else String c (replace_from old new 0 s')
    end
  end.

(** [s.replace(old, new)] for a non-empty [old]: every non-overlapping
    occurrence, left to right. *)
Definition replace (old new s : string) : string := replace_from old new 0 s.

Definition escape_char (quote : ascii) (c : ascii) : string :=
  let n := N_of_ascii c in
  if Ascii.eqb c "\"%char then "\\"
  else if Ascii.eqb c quote then String "\"%char (of_char c)
  else if n =? 10 then "\n"
  else if n =? 13 then "\r"
  else if n =? 9 then "\t"
  else if (n <? 32) || (n =? 127) then
    "\x" +:+ of_char (ascii_of_N (let d := n / 16 in if d <? 10 then 48 + d else 87 + d))
         +:+ of_char (ascii_of_N (let d := n mod 16 in if d <? 10 then 48 + d else 87 + d))
  else of_char c.

Fixpoint escape (quote : ascii) (s : string) : string :=
  match s with
  | EmptyString => EmptyString
  | String c s' => escape_char quote c +:+ escape quote s'
  end.

(** [repr(s)]: single quotes unless the string has a single quote and no
    double quote; backslash, the quote and control characters escaped.
    Bytes above 127 (printable non-ASCII text) are kept. *)
Definition repr (s : string) : string :=
  let q := if contains_char "'"%char s && negb (contains_char dquote s)
           then dquote else "'"%char in
  of_char q +:+ escape q s +:+ of_char q.

End PyStr.

(** ** Number formatting *)

Module Fmt.

(** [str(n)] for a non-negative integer. *)
Definition str_N (n : N) : string := NilZero.string_of_uint (N.to_uint n).

(** [str(z)] *)
Definition str_Z (z : Z) : string := NilZero.string_of_int (Z.to_int z).

(** Digits least significant first; a comma before every fourth one. *)
Fixpoint commas_rev (ds : list ascii) (k : nat) : list ascii :=
  match ds with
  | [] => []
  | d :: ds' =>
    match k with
    | O => ","%char :: d :: commas_rev ds' 2
    | S k' => d :: commas_rev ds' k'
    end
  end.

(** [f'{n:,}'] *)
Definition str_N_commas (n : N) : string :=
  string_of_list_ascii
    (rev (commas_rev (rev (list_ascii_of_string (str_N n))) 3)).

(** [num / den] rounded to an integer, ties to even. *)
Definition round_half_even (num den : N) : N :=
  let q := num / den in
  let r := num mod den in
  if 2 * r <? den then q
  else if den <? 2 * r then q + 1
  else if N.even q then q else q + 1.

(** A float that [round(x, 2)] returned, as its count of hundredths; [FNaN]
    for the not-a-number pandas gives for the mean of nothing. *)
Inductive PyFloat :=
| FHundredths (h : Z)
| FNaN.

(** One mebibyte, [1024 * 1024]. *)
Definition MiB : N := 1024 * 1024.

(** [round(n / (1024 * 1024), 2)].  The quotient of an integer below 2^53
    by a power of two is exact in binary64, and [round] rounds the exact
    value, ties to even. *)
Definition round2_mb (n : N) : PyFloat :=
  FHundredths (Z.of_N (round_half_even (n * 100) MiB)).

(** [f'{n / (1024 * 1024):.1f}'], same remark. *)
Definition fmt1_mb (n : N) : string :=
  let t := round_half_even (n * 10) MiB in
  str_N (t / 10) +:+ "." +:+ str_N (t mod 10).

End Fmt.
Export Fmt(PyFloat, FHundredths, FNaN).

(** ** Python values held in the report's metadata *)

Inductive PyVal :=
| VNone
| VBool (b : bool)
| VInt (z : Z)
| VFloat (f : PyFloat)
| VStr (s : string)
| VObj (type_name : string) (repr : string)
| VList (l : list PyVal)
| VDict (d : list (PyVal * PyVal)).

(** A dictionary with string keys, in insertion order. *)
Definition PyDict := list (string * PyVal).

Definition VStrs (l : list string) : PyVal := VList (map VStr l).

Definition VCount (n : N) : PyVal := VInt (Z.of_N n).

(** Column labels of a data frame: text for delimited files; a spreadsheet
    header cell may also hold an integer, or a date, which pandas keeps as a
    Python object ([datetime.datetime], [Timestamp]). *)
Inductive Label :=
| LStr (s : string)
| LInt (z : Z)
| LObj (type_name : string) (repr : string).

#[global] Instance Label_eq_dec : EqDecision Label.
Proof. solve_decision. Defined.

Definition val_of_label (l : Label) : PyVal :=
  match l with
  | LStr s => VStr s
  | LInt z => VInt z
  | LObj t r => VObj t r
  end.

(** [repr(label)] *)
Definition repr_label (l : Label) : string :=
  match l with
  | LStr s => PyStr.repr s
  | LInt z => Fmt.str_Z z
  | LObj _ r => r
  end.

Definition join_comma (l : list string) : string :=
  String.concat ", " l.

(** [repr] of a list, as an f-string prints it. *)
Definition repr_list (items : list string) : string :=
  "[" +:+ join_comma items +:+ "]".

(** [l[:n]] *)
Definition slice_to {A} (n : nat) (l : list A) : list A := take n l.
Arguments slice_to : simpl never.

(** [index[index.duplicated()].tolist()]: the entries that repeat an earlier
    one (pandas marks every occurrence but the first). *)
Fixpoint duplicated_from (seen : list Label) (cols : list Label) : list Label :=
  match cols with
  | [] => []
  | c :: cols' =>
    if bool_decide (c ∈ seen) then c :: duplicated_from seen cols'
    else duplicated_from (c :: seen) cols'
  end.

Definition duplicated (cols : list Label) : list Label := duplicated_from [] cols.

(** [d[k] = v] on a dictionary keyed by labels: an existing key keeps its
    place. *)
Fixpoint label_dict_set (k : Label) (v : PyVal) (d : list (Label * PyVal))
  : list (Label * PyVal) :=
  match d with
  | [] => [(k, v)]
  | (k', v') :: d' =>
    if bool_decide (k' = k) then (k', v) :: d'
    else (k', v') :: label_dict_set k v d'
  end.

(** [d[k] = v] on a dictionary keyed by strings. *)
Fixpoint dict_set (k : string) (v : PyVal) (d : PyDict) : PyDict :=
  match d with
  | [] => [(k, v)]
  | (k', v') :: d' =>
    if bool_decide (k' = k) then (k', v) :: d'
    else (k', v') :: dict_set k v d'
  end.

(** [d.get(k)] *)
Fixpoint dict_get (k : string) (d : PyDict) : option PyVal :=
  match d with
  | [] => None
  | (k', v) :: d' => if bool_decide (k' = k) then Some v else dict_get k d'
  end.

(** ** Exceptions *)

Inductive ExcClass :=
| UnicodeDecodeError
| ParserError
| JSONDecodeError
| TypeError
| OtherException.

(** A raised exception: its class, as far as the handlers tell classes
    apart, and [str(e)]. *)
Record Exc := mkExc { exc_class : ExcClass; exc_str : string }.

Inductive Res (A : Type) :=
| Ok (a : A)
| Raise (e : Exc).
Arguments Ok {A} a.
Arguments Raise {A} e.

(** ** What the libraries return *)

(** A [DataFrame], by what the validators observe of it. *)
Record DataFrame := mkDataFrame {
  df_rows : N;                    (* df.shape[0] *)
  df_columns : list Label;        (* df.columns.tolist() *)
  df_dtypes : list string;        (* str(dtype), column by column *)
  df_empty_rows : N;              (* df.isnull().all(axis=1).sum() *)
  df_null_percentage : PyFloat;   (* round(df.isnull().mean().mean() * 100, 2) *)
  df_memory_usage_mb : PyFloat;   (* round(df.memory_usage(deep=True).sum() / (1024 * 1024), 2) *)
}.

(** [df.shape[1]] *)
Definition df_cols (df : DataFrame) : N := N.of_nat (length (df_columns df)).

(** [{col: str(dtype) for col, dtype in df.dtypes.items()}] *)
Definition dtypes_dict (df : DataFrame) : PyVal :=
  VDict (map (fun kv => (val_of_label kv.1, kv.2))
           (fold_left (fun d kv => label_dict_set kv.1 (VStr kv.2) d)
              (zip (df_columns df) (df_dtypes df)) [])).

(** An open workbook, [pd.ExcelFile]: its sheet names and what reading each
    sheet gives. *)
Record ExcelFile := mkExcelFile {
  sheet_names : list string;
  parse : string -> Res DataFrame;
}.

(** An element of a decoded JSON array. *)
Inductive JsonItem :=
| ItemObject (keys : list string)
| ItemOther.

(** The top level of a decoded JSON document. *)
Inductive JsonData :=
| JArray (items : list JsonItem)
| JObject (keys : list string)
| JOther.

(** pandas and json, as the validators call them. *)
Record Libs := mkLibs {
  pd_read_csv : bytes -> string -> option N -> Res DataFrame;
  pd_ExcelFile : bytes -> Res ExcelFile;
  pd_read_parquet : bytes -> Res DataFrame;
  json_loads : text -> Res JsonData;
}.

(** ** Configuration *)

Definition STAGING_CONTAINER : string := "staging".
Definition REJECTED_CONTAINER : string := "rejected".
Definition NOTIFICATIONS_CONTAINER : string := "notifications".
Definition UPLOADS_CONTAINER : string := "uploads-clientes".

Record CsvRules := { csv_max_rows : N; csv_max_columns : N; required_encoding : list string }.
Record XlsxRules := { xlsx_max_rows : N; xlsx_max_columns : N; max_sheets : N }.
Record SizeRules := { max_size_mb : N }.

Record ValidationRules := {
  rules_csv : CsvRules;
  rules_xlsx : XlsxRules;
  rules_json : SizeRules;
  rules_parquet : SizeRules;
  rules_txt : SizeRules;
}.

Definition VALIDATION_RULES : ValidationRules := {|
  rules_csv := {| csv_max_rows := 10000000; csv_max_columns := 500;
                  required_encoding := ["utf-8"; "latin-1"; "iso-8859-1"] |};
  rules_xlsx := {| xlsx_max_rows := 1048576; xlsx_max_columns := 500; max_sheets := 50 |};
  rules_json := {| max_size_mb := 200 |};
  rules_parquet := {| max_size_mb := 500 |};
  rules_txt := {| max_size_mb := 100 |};
|}.

(** [len(content) / (1024 * 1024) > limit].  The float on the left is the
    exact quotient for every length below 2^53 (and at least 2^33 beyond),
    and Python compares a float with an integer by value, so the test is the
    integer one. *)
Definition size_mb_exceeds (content : bytes) (limit_mb : N) : bool :=
  limit_mb * Fmt.MiB <? len_bytes content.

(** ** The validation report *)

(** A reading of the UTC clock: [isoformat()] and [strftime('%Y/%m/%d')]. *)
Record DateTime := mkDateTime { isoformat : string; ymd : string }.

(** The [validation_result] dictionary, one field per key. *)
Record Report := mkReport {
  blob_name : string;
  client : string;
  filename : string;
  extension : string;
  size_bytes : N;
  size_mb : PyFloat;
  timestamp : string;
  valid : bool;
  errors : list string;
  warnings : list string;
  metadata : PyDict;
}.

Definition set_valid (b : bool) (r : Report) : Report :=
  mkReport (blob_name r) (client r) (filename r) (extension r) (size_bytes r)
    (size_mb r) (timestamp r) b (errors r) (warnings r) (metadata r).

Definition set_timestamp (t : string) (r : Report) : Report :=
  mkReport (blob_name r) (client r) (filename r) (extension r) (size_bytes r)
    (size_mb r) t (valid r) (errors r) (warnings r) (metadata r).

(** [result['errors'].append(msg)] *)
Definition append_error (msg : string) (r : Report) : Report :=
  mkReport (blob_name r) (client r) (filename r) (extension r) (size_bytes r)
    (size_mb r) (timestamp r) (valid r) (errors r ++ [msg]) (warnings r) (metadata r).

(** [result['warnings'].append(msg)] *)
Definition append_warning (msg : string) (r : Report) : Report :=
  mkReport (blob_name r) (client r) (filename r) (extension r) (size_bytes r)
    (size_mb r) (timestamp r) (valid r) (errors r) (warnings r ++ [msg]) (metadata r).

(** [result['metadata'] = d] *)
Definition set_metadata (d : PyDict) (r : Report) : Report :=
  mkReport (blob_name r) (client r) (filename r) (extension r) (size_bytes r)
    (size_mb r) (timestamp r) (valid r) (errors r) (warnings r) d.

(** ** json.dumps *)

Module Json.

Definition type_name (v : PyVal) : string :=
  match v with
  | VNone => "NoneType" | VBool _ => "bool" | VInt _ => "int"
  | VFloat _ => "float" | VStr _ => "str" | VObj t _ => t
  | VList _ => "list" | VDict _ => "dict"
  end.

Definition key_error (k : PyVal) : option string :=
  match k with
  | VNone | VBool _ | VInt _ | VFloat _ | VStr _ => None
  | _ => Some ("keys must be str, int, float, bool or None, not " +:+ type_name k)
  end.

(** The message of the TypeError that [json.dumps(v)] raises, if it does:
    the first value, in output order, that the encoder has no form for. *)
Fixpoint dumps_error (v : PyVal) : option string :=
  match v with
  | VObj t _ => Some ("Object of type " +:+ t +:+ " is not JSON serializable")
  | VList l =>
    (fix go (l : list PyVal) : option string :=
       match l with
       | [] => None
       | x :: l' => match dumps_error x with Some e => Some e | None => go l' end
       end) l
  | VDict d =>
    (fix go (d : list (PyVal * PyVal)) : option string :=
       match d with
       | [] => None
       | (k, x) :: d' =>
         match key_error k with
         | Some e => Some e
         | None => match dumps_error x with Some e => Some e | None => go d' end
         end
       end) d
  | _ => None
  end.

(** [json.dumps(result, ...)] on a report: every key but [metadata] holds
    a string, number, boolean or list of strings. *)
Definition dumps_report_error (r : Report) : option string :=
  dumps_error (VDict (map (fun kv => (VStr kv.1, kv.2)) (metadata r))).

End Json.

(** ** The outside world *)

(** A stored blob: the raw upload, or the UTF-8 JSON text of a report,
    identified by the report it serialises. *)
Inductive BlobData :=
| RawBytes (content : bytes)
| ReportJson (r : Report).

Record Blob := mkBlob { blob_data : BlobData; blob_metadata : list (string * string) }.

Inductive LogLevel := INFO | WARNING | ERROR.

Inductive LogEntry :=
| Log (level : LogLevel) (msg : string)
| LogDemoReport (r : Report).   (* "[DEMO] Relatório: " and the JSON text *)

(** The trace of a run: the calls into pandas, json and the codecs, and the
    entries into [move_blob] and [save_validation_report], recorded in the
    order they are made.  The code keeps no such list; it is there to state
    what was and was not called. *)
Inductive Call :=
| CallBlobRead
| CallReadCsv (enc : string) (nrows : option N)
| CallExcelFile
| CallReadExcel (sheet : string)
| CallDecode (enc : string)
| CallJsonLoads
| CallReadParquet
| CallMoveBlob (destination_container : string)
| CallSaveReport (r : Report).

Inductive StoreOp :=
| OpConnect
| OpCreateContainer (container : string)
| OpUpload (container name : string)
| OpDelete (container name : string).

Record World := mkWorld {
  store : gmap string (gmap string Blob);
  clock_reads : N;
  log : list LogEntry;
  calls : list Call;
}.

(** What a run is given from outside and does not change. *)
Record Env := mkEnv {
  CONNECTION_STRING : option string;   (* os.environ.get('AzureWebJobsStorage') *)
  clock : N -> DateTime;               (* the UTC clock at its successive readings *)
  fault : StoreOp -> option Exc;       (* a store operation that fails on its own *)
  encode_error : Report -> option Exc; (* what .encode('utf-8') raises on the JSON text
                                          of a report: the UnicodeEncodeError of a lone
                                          surrogate in one of its strings *)
}.

(** [if not CONNECTION_STRING]: unset or empty. *)
Definition demo_mode (env : Env) : bool :=
  match CONNECTION_STRING env with
  | None => true
  | Some s => bool_decide (s = "")
  end.

(** ** The monad of a run *)

(** The report object and the world.  The validators receive the report
    object itself and change it in place, so what they did before raising
    is still there in the handler. *)
Record St := mkSt { report : Report; world : World }.

Definition M (A : Type) : Type := St -> Res A * St.

Definition ret {A} (a : A) : M A := fun s => (Ok a, s).

Definition bind {A B} (m : M A) (k : A -> M B) : M B :=
  fun s => match m s with
           | (Ok a, s') => k a s'
           | (Raise e, s') => (Raise e, s')
           end.

Definition raise {A} (e : Exc) : M A := fun s => (Raise e, s).

(** [try: m  except <classes accepted by handles>: h e] *)
Definition try_except {A} (m : M A) (handles : Exc -> bool) (h : Exc -> M A) : M A :=
  fun s => match m s with
           | (Ok a, s') => (Ok a, s')
           | (Raise e, s') => if handles e then h e s' else (Raise e, s')
           end.

(** [except Exception] *)
Definition any_exception (e : Exc) : bool := true.

Definition is_class (c : ExcClass) (e : Exc) : bool :=
  match exc_class e, c with
  | UnicodeDecodeError, UnicodeDecodeError
  | ParserError, ParserError
  | JSONDecodeError, JSONDecodeError
  | TypeError, TypeError
  | OtherException, OtherException => true
  | _, _ => false
  end.

Notation "'let*' x ':=' m 'in' k" := (bind m (fun x => k))
  (at level 10, x name, m at level 100, k at level 200).
Notation "m ';;' k" := (bind m (fun _ => k))
  (at level 100, k at level 200, right associativity).

Definition lift {A} (r : Res A) : M A := fun s => (r, s).

Definition get_report : M Report := fun s => (Ok (report s), s).

Definition modify_report (f : Report -> Report) : M unit :=
  fun s => (Ok tt, mkSt (f (report s)) (world s)).

Definition get_world : M World := fun s => (Ok (world s), s).

Definition modify_world (f : World -> World) : M unit :=
  fun s => (Ok tt, mkSt (report s) (f (world s))).

Definition record_call (c : Call) : M unit :=
  modify_world (fun w => mkWorld (store w) (clock_reads w) (log w) (calls w ++ [c])).

Definition logging (level : LogLevel) (msg : string) : M unit :=
  modify_world (fun w => mkWorld (store w) (clock_reads w) (log w ++ [Log level msg]) (calls w)).

Definition logging_entry (e : LogEntry) : M unit :=
  modify_world (fun w => mkWorld (store w) (clock_reads w) (log w ++ [e]) (calls w)).

Definition set_store (st : gmap string (gmap string Blob)) : M unit :=
  modify_world (fun w => mkWorld st (clock_reads w) (log w) (calls w)).

(** [if b: m] *)
Definition when (b : bool) (m : M unit) : M unit := if b then m else ret tt.

(** A double quote inside a message. *)
Definition dq : string := PyStr.of_char PyStr.dquote.

(** ** The validators *)

Section Validators.

Variable lib : Libs.

Definition call_read_csv (content : bytes) (enc : string) (nrows : option N)
  : M DataFrame :=
  record_call (CallReadCsv enc nrows);;
  lift (pd_read_csv lib content enc nrows).

Definition call_decode_utf8 (content : bytes) : M text :=
  record_call (CallDecode "utf-8");;
  match Codec.decode_utf8 content with
  | Some t => ret t
  | None => raise (mkExc UnicodeDecodeError "'utf-8' codec can't decode bytes")
  end.

Definition call_decode_latin1 (content : bytes) : M text :=
  record_call (CallDecode "latin-1");;
  ret (Codec.decode_latin1 content).

Definition call_json_loads (t : text) : M JsonData :=
  record_call CallJsonLoads;;
  lift (json_loads lib t).

(** The loop over [rules['required_encoding']]: the first encoding whose
    five-row parse succeeds; a UnicodeDecodeError or ParserError moves on
    to the next one, any other exception leaves the loop and the
    validator. *)
Fixpoint detect_encoding (content : bytes) (encs : list string)
  : M (option (string * DataFrame)) :=
  match encs with
  | [] => ret None
  | enc :: rest =>
    try_except
      (let* df := call_read_csv content enc (Some 5) in
       ret (Some (enc, df)))
      (fun e => is_class UnicodeDecodeError e || is_class ParserError e)
      (fun _ => detect_encoding content rest)
  end.

Definition validate_csv (content : bytes) : M unit :=
  let rules := rules_csv VALIDATION_RULES in
  let* found := detect_encoding content (required_encoding rules) in
  match found with
  | None =>
    modify_report (append_error
      "Não foi possível ler o CSV com encodings suportados (UTF-8, Latin-1)")
  | Some (encoding_used, _) =>
    let* full :=
      try_except
        (let* df := call_read_csv content encoding_used None in ret (Some df))
        any_exception
        (fun e =>
           modify_report (append_error ("Erro ao parsear CSV: " +:+ exc_str e));;
           ret None) in
    match full with
    | None => ret tt
    | Some df_full =>
      let rows := df_rows df_full in
      let cols := df_cols df_full in
      when (csv_max_rows rules <? rows)
        (modify_report (append_error
           ("CSV excede limite de " +:+ Fmt.str_N_commas (csv_max_rows rules)
            +:+ " linhas (" +:+ Fmt.str_N_commas rows +:+ " encontradas)")));;
      when (csv_max_columns rules <? cols)
        (modify_report (append_error
           ("CSV excede limite de " +:+ Fmt.str_N (csv_max_columns rules)
            +:+ " colunas (" +:+ Fmt.str_N cols +:+ " encontradas)")));;
      let duplicated_cols := duplicated (df_columns df_full) in
      when (negb (bool_decide (duplicated_cols = [])))
        (modify_report (append_warning
           ("Colunas duplicadas encontradas: "
            +:+ repr_list (map repr_label (slice_to 5 duplicated_cols)))));;
      let empty_rows := df_empty_rows df_full in
      when (0 <? empty_rows)
        (modify_report (append_warning
           (Fmt.str_N empty_rows +:+ " linhas completamente vazias encontradas")));;
      modify_report (set_metadata
        [ ("encoding", VStr encoding_used);
          ("rows", VCount rows);
          ("columns", VCount cols);
          ("column_names", VList (map val_of_label (slice_to 50 (df_columns df_full))));
          ("dtypes", dtypes_dict df_full);
          ("null_percentage", VFloat (df_null_percentage df_full));
          ("memory_usage_mb", VFloat (df_memory_usage_mb df_full)) ])
    end
  end.

(** [sheets_info[sheet] = {...}] *)
Definition sheet_info (df : DataFrame) : PyVal :=
  VDict [ (VStr "rows", VCount (df_rows df));
          (VStr "columns", VCount (df_cols df));
          (VStr "column_names", VList (map val_of_label (slice_to 20 (df_columns df)))) ].

(** The loop over the sheets, with its two local accumulators.  A sheet
    whose read raises adds a warning and leaves both as they were. *)
Fixpoint read_sheets (xls : ExcelFile) (sheets : list string)
    (total_rows : N) (sheets_info : PyDict) : M (N * PyDict) :=
  match sheets with
  | [] => ret (total_rows, sheets_info)
  | sheet :: rest =>
    let* acc :=
      try_except
        (record_call (CallReadExcel sheet);;
         let* df := lift (parse xls sheet) in
         let rows := df_rows df in
         let cols := df_cols df in
         when (xlsx_max_columns (rules_xlsx VALIDATION_RULES) <? cols)
           (modify_report (append_error
              ("Aba " +:+ dq +:+ sheet +:+ dq +:+ " excede "
               +:+ Fmt.str_N (xlsx_max_columns (rules_xlsx VALIDATION_RULES))
               +:+ " colunas (" +:+ Fmt.str_N cols +:+ ")")));;
         ret (total_rows + rows, dict_set sheet (sheet_info df) sheets_info))
        any_exception
        (fun e =>
           modify_report (append_warning
             ("Erro ao ler aba " +:+ dq +:+ sheet +:+ dq +:+ ": " +:+ exc_str e));;
           ret (total_rows, sheets_info)) in
    read_sheets xls rest acc.1 acc.2
  end.

Definition validate_excel (content : bytes) : M unit :=
  let rules := rules_xlsx VALIDATION_RULES in
  let* opened :=
    try_except
      (record_call CallExcelFile;;
       let* xls := lift (pd_ExcelFile lib content) in ret (Some xls))
      any_exception
      (fun e =>
         modify_report (append_error
           ("Arquivo Excel corrompido ou ilegível: " +:+ exc_str e));;
         ret None) in
  match opened with
  | None => ret tt
  | Some xls =>
    let names := sheet_names xls in
    let count := N.of_nat (length names) in
    if max_sheets rules <? count then
      modify_report (append_error
        ("Excel excede limite de " +:+ Fmt.str_N (max_sheets rules)
         +:+ " abas (" +:+ Fmt.str_N count +:+ " encontradas)"))
    else
      let* acc := read_sheets xls names 0 [] in
      let total_rows := acc.1 in
      let sheets_info := acc.2 in
      when (xlsx_max_rows rules <? total_rows)
        (modify_report (append_error
           ("Total de linhas (" +:+ Fmt.str_N_commas total_rows
            +:+ ") excede o limite (" +:+ Fmt.str_N_commas (xlsx_max_rows rules)
            +:+ ")")));;
      modify_report (set_metadata
        [ ("sheet_count", VCount count);
          ("sheet_names", VStrs names);
          ("total_rows", VCount total_rows);
          ("sheets_detail", VDict (map (fun kv => (VStr kv.1, kv.2)) sheets_info)) ])
  end.

(** [list(data[0].keys())[:20] if data and isinstance(data[0], dict) else []] *)
Definition sample_keys (items : list JsonItem) : list string :=
  match items with
  | ItemObject keys :: _ => slice_to 20 keys
  | _ => []
  end.

Definition validate_json (content : bytes) : M unit :=
  let rules := rules_json VALIDATION_RULES in
  if size_mb_exceeds content (max_size_mb rules) then
    modify_report (append_error
      ("JSON excede limite de " +:+ Fmt.str_N (max_size_mb rules) +:+ "MB ("
       +:+ Fmt.fmt1_mb (len_bytes content) +:+ "MB)"))
  else
    let* loaded :=
      try_except
        (let* t := call_decode_utf8 content in
         let* data := call_json_loads t in
         ret (Some data))
        (fun e => is_class UnicodeDecodeError e || is_class JSONDecodeError e)
        (fun e =>
           if is_class UnicodeDecodeError e then
             try_except
               (let* t := call_decode_latin1 content in
                let* data := call_json_loads t in
                ret (Some data))
               any_exception
               (fun e' =>
                  modify_report (append_error
                    ("Encoding não suportado: " +:+ exc_str e'));;
                  ret None)
           else
             modify_report (append_error ("JSON inválido: " +:+ exc_str e));;
             ret None) in
    match loaded with
    | None => ret tt
    | Some (JArray items) =>
      modify_report (set_metadata
        [ ("type", VStr "array");
          ("record_count", VCount (N.of_nat (length items)));
          ("sample_keys", VStrs (sample_keys items)) ])
    | Some (JObject keys) =>
      modify_report (set_metadata
        [ ("type", VStr "object");
          ("top_level_keys", VStrs (slice_to 20 keys)) ])
    | Some JOther => ret tt
    end.

Definition validate_parquet (content : bytes) : M unit :=
  let rules := rules_parquet VALIDATION_RULES in
  if size_mb_exceeds content (max_size_mb rules) then
    modify_report (append_error
      ("Parquet excede limite de " +:+ Fmt.str_N (max_size_mb rules) +:+ "MB ("
       +:+ Fmt.fmt1_mb (len_bytes content) +:+ "MB)"))
  else
    try_except
      (record_call CallReadParquet;;
       let* df := lift (pd_read_parquet lib content) in
       modify_report (set_metadata
         [ ("rows", VCount (df_rows df));
           ("columns", VCount (df_cols df));
           ("column_names", VList (map val_of_label (slice_to 50 (df_columns df))));
           ("dtypes", dtypes_dict df) ]))
      any_exception
      (fun e =>
         modify_report (append_error
           ("Parquet inválido ou corrompido: " +:+ exc_str e))).

Definition validate_txt (content : bytes) : M unit :=
  let rules := rules_txt VALIDATION_RULES in
  if size_mb_exceeds content (max_size_mb rules) then
    modify_report (append_error
      ("TXT excede limite de " +:+ Fmt.str_N (max_size_mb rules) +:+ "MB ("
       +:+ Fmt.fmt1_mb (len_bytes content) +:+ "MB)"))
  else
    let* decoded :=
      try_except
        (let* t := call_decode_utf8 content in ret (Some t))
        (is_class UnicodeDecodeError)
        (fun _ =>
           try_except
             (let* t := call_decode_latin1 content in ret (Some t))
             any_exception
             (fun _ =>
                modify_report (append_error "Encoding não suportado");;
                ret None)) in
    match decoded with
    | None => ret tt
    | Some t =>
      let lines := count_newlines t + 1 in
      modify_report (set_metadata
        [ ("lines", VCount lines);
          ("characters", VCount (len_text t));
          ("encoding", VStr "utf-8") ])
    end.

End Validators.

(** ** Blob operations *)

Section BlobOperations.

Variable env : Env.

(** [datetime.now(timezone.utc)] *)
Definition utc_now : M DateTime :=
  fun s =>
    let w := world s in
    (Ok (clock env (clock_reads w)),
     mkSt (report s) (mkWorld (store w) (clock_reads w + 1) (log w) (calls w))).

Definition injected (op : StoreOp) : M unit :=
  match fault env op with
  | Some e => raise e
  | None => ret tt
  end.

(** [BlobServiceClient.from_connection_string(CONNECTION_STRING)] *)
Definition from_connection_string : M unit := injected OpConnect.

(** [service.create_container(c)]: raises when the container exists. *)
Definition create_container (c : string) : M unit :=
  injected (OpCreateContainer c);;
  let* w := get_world in
  match store w !! c with
  | Some _ => raise (mkExc OtherException "The specified container already exists.")
  | None => set_store (<[c := ∅]> (store w))
  end.

(** [blob_client.upload_blob(data, overwrite=True, metadata=tags)] *)
Definition upload_blob (c name : string) (data : BlobData)
    (tags : list (string * string)) : M unit :=
  injected (OpUpload c name);;
  let* w := get_world in
  match store w !! c with
  | None => raise (mkExc OtherException "The specified container does not exist.")
  | Some blobs => set_store (<[c := <[name := mkBlob data tags]> blobs]> (store w))
  end.

(** [blob_client.delete_blob()] *)
Definition delete_blob (c name : string) : M unit :=
  injected (OpDelete c name);;
  let* w := get_world in
  match store w !! c with
  | None => raise (mkExc OtherException "The specified container does not exist.")
  | Some blobs =>
    match blobs !! name with
    | None => raise (mkExc OtherException "The specified blob does not exist.")
    | Some _ => set_store (<[c := delete name blobs]> (store w))
    end
  end.

(** [json.dumps(result, indent=2, ensure_ascii=False)], for its exception. *)
Definition json_dumps (result : Report) : M unit :=
  match Json.dumps_report_error result with
  | Some msg => raise (mkExc TypeError msg)
  | None => ret tt
  end.

(** [.encode('utf-8')] on the text that [json.dumps] returned, for its
    exception. *)
Definition encode_utf8 (result : Report) : M unit :=
  match encode_error env result with
  | Some e => raise e
  | None => ret tt
  end.

Definition move_blob (content : bytes) (original_path destination_container : string)
    (metadata : Report) : M unit :=
  record_call (CallMoveBlob destination_container);;
  if demo_mode env then
    logging INFO ("[DEMO] Simulando move para " +:+ destination_container
                  +:+ "/" +:+ original_path)
  else
    try_except
      (from_connection_string;;
       try_except (create_container destination_container)
         any_exception (fun _ => ret tt);;
       let dest_blob_name := PyStr.replace "uploads-clientes/" "" original_path in
       let* now := utc_now in
       upload_blob destination_container dest_blob_name (RawBytes content)
         [ ("validation_status", if valid metadata then "valid" else "rejected");
           ("validated_at", isoformat now);
           ("original_path", original_path) ];;
       let original_container := "uploads-clientes" in
       delete_blob original_container
         (PyStr.replace (original_container +:+ "/") "" original_path);;
       logging INFO ("Blob movido: " +:+ original_path +:+ " → "
                     +:+ destination_container +:+ "/" +:+ dest_blob_name))
      any_exception
      (fun e => logging ERROR ("Erro ao mover blob: " +:+ exc_str e)).

Definition save_validation_report (result : Report) : M unit :=
  record_call (CallSaveReport result);;
  if demo_mode env then
    json_dumps result;;
    logging_entry (LogDemoReport result)
  else
    try_except
      (from_connection_string;;
       try_except (create_container NOTIFICATIONS_CONTAINER)
         any_exception (fun _ => ret tt);;
       let* now := utc_now in
       let report_name := client result +:+ "/" +:+ ymd now +:+ "/"
                          +:+ filename result +:+ "_report.json" in
       json_dumps result;;
       encode_utf8 result;;
       upload_blob NOTIFICATIONS_CONTAINER report_name (ReportJson result) [];;
       logging INFO ("Relatório salvo: " +:+ report_name))
      any_exception
      (fun e => logging ERROR ("Erro ao salvar relatório: " +:+ exc_str e)).

End BlobOperations.

(** ** The trigger *)

(** The [func.InputStream] handed to the function. *)
Record InputStream := mkInputStream {
  stream_name : string;      (* blob.name *)
  stream_length : option N;  (* blob.length: an int, or None (what the worker gives
                                for a blob of no bytes) *)
  stream_read : Res bytes;   (* blob.read() *)
}.

Section Main.

Variable lib : Libs.
Variable env : Env.

(** The branch on the extension. *)
Definition dispatch (extension : string) (content : bytes) : M unit :=
  if bool_decide (extension = "csv") then validate_csv lib content
  else if bool_decide (extension = "xlsx") || bool_decide (extension = "xls")
  then validate_excel lib content
  else if bool_decide (extension = "json") then validate_json lib content
  else if bool_decide (extension = "parquet") then validate_parquet lib content
  else if bool_decide (extension = "txt") then validate_txt content
  else modify_report (append_error ("Extensão não suportada: ." +:+ extension)).

(** [blob.read()] and the validator for the extension. *)
Definition validate (blob : InputStream) : M bytes :=
  let* content := (record_call CallBlobRead;; lift (stream_read blob)) in
  let* r := get_report in
  dispatch (extension r) content;;
  ret content.

(** The decision and the move. *)
Definition decide_destination (content : bytes) (blob_name : string) : M unit :=
  let* r := get_report in
  if bool_decide (errors r = []) then
    modify_report (set_valid true);;
    let* r' := get_report in
    move_blob env content blob_name STAGING_CONTAINER r';;
    logging INFO ("[OK] Arquivo válido, movido para staging: " +:+ blob_name)
  else
    move_blob env content blob_name REJECTED_CONTAINER r;;
    logging WARNING ("[REJEITADO] " +:+ blob_name +:+ ": "
                     +:+ repr_list (map PyStr.repr (errors r))).

(** The report as it is created, before the [try], when [blob.length] is the
    number [blob_length]. *)
Definition initial_report (blob : InputStream) (blob_length : N) (now : DateTime)
  : Report :=
  let blob_name := stream_name blob in
  let parts := PyStr.split "/" (PyStr.replace "uploads-clientes/" "" blob_name) in
  let client_prefix := List.hd "unknown" parts in
  let filename := List.last parts "unknown" in
  let extension :=
    if PyStr.contains_char "." filename
    then PyStr.lower (PyStr.rsplit1_last "." filename) else "" in
  {| blob_name := blob_name;
     client := client_prefix;
     filename := filename;
     extension := extension;
     size_bytes := blob_length;
     size_mb := Fmt.round2_mb blob_length;
     timestamp := isoformat now;
     valid := false;
     errors := [];
     warnings := [];
     metadata := [] |}.

(** The body of the [try] and its handler. *)
Definition process_body (blob : InputStream) : M unit :=
  try_except
    (let* content := validate blob in
     decide_destination content (stream_name blob);;
     let* r := get_report in
     save_validation_report env r)
    any_exception
    (fun e =>
       logging ERROR ("[ERRO] Falha ao processar " +:+ stream_name blob +:+ ": "
                      +:+ exc_str e);;
       modify_report (append_error ("Erro interno: " +:+ exc_str e));;
       let* r := get_report in
       save_validation_report env r).

(** [f'{blob_length}'] *)
Definition str_length (blob_length : option N) : string :=
  match blob_length with
  | Some n => Fmt.str_N n
  | None => "None"
  end.

(** No [validation_result]: every key empty. *)
Definition no_report : Report :=
  mkReport "" "" "" "" 0 FNaN "" false [] [] [].

(** The function.  The report is built before the [try]: when [blob.length]
    is None the division [blob_length / (1024 * 1024)] raises TypeError
    there, before the clock is read; nothing is read, moved or saved, and
    [validation_result] is never bound (the state then holds [no_report]). *)
Definition process_uploaded_file (blob : InputStream) (w : World) : Res unit * St :=
  let w1 := mkWorld (store w) (clock_reads w)
              (log w ++ [Log INFO ("[TRIGGER] Novo arquivo detectado: "
                                   +:+ stream_name blob +:+ " ("
                                   +:+ str_length (stream_length blob) +:+ " bytes)")])
              (calls w) in
  match stream_length blob with
  | None =>
    (Raise (mkExc TypeError "unsupported operand type(s) for /: 'NoneType' and 'int'"),
     mkSt no_report w1)
  | Some blob_length =>
    let now := clock env (clock_reads w1) in
    let w2 := mkWorld (store w1) (clock_reads w1 + 1) (log w1) (calls w1) in
    process_body blob (mkSt (initial_report blob blob_length now) w2)
  end.

End Main.

(** ** The second copy of the function (azure-function/function_app.py)

    Its spreadsheet validator reads the first sheet only, and a failure to
    read it is an error. *)

Module AzureFunction.

Section Validators.

Variable lib : Libs.

(** [pd.read_excel(xls, sheet_name=0)] *)
Definition read_first_sheet (xls : ExcelFile) : M DataFrame :=
  match sheet_names xls with
  | [] => raise (mkExc OtherException "Worksheet index 0 is invalid, 0 worksheets found")
  | sheet :: _ => record_call (CallReadExcel sheet);; lift (parse xls sheet)
  end.

Definition validate_excel (content : bytes) : M (option DataFrame) :=
  let rules := rules_xlsx VALIDATION_RULES in
  let* opened :=
    try_except
      (record_call CallExcelFile;;
       let* xls := lift (pd_ExcelFile lib content) in ret (Some xls))
      any_exception
      (fun e =>
         modify_report (append_error ("Excel corrompido: " +:+ exc_str e));;
         ret None) in
  match opened with
  | None => ret None
  | Some xls =>
    let sheets := sheet_names xls in
    let count := N.of_nat (length sheets) in
    if max_sheets rules <? count then
      modify_report (append_error
        ("Excede " +:+ Fmt.str_N (max_sheets rules) +:+ " abas ("
         +:+ Fmt.str_N count +:+ ")"));;
      ret None
    else
      let* first :=
        try_except
          (let* df := read_first_sheet xls in ret (Some df))
          any_exception
          (fun e =>
             modify_report (append_error
               ("Erro ao ler primeira aba: " +:+ exc_str e));;
             ret None) in
      match first with
      | None => ret None
      | Some df =>
        let rows := df_rows df in
        let cols := df_cols df in
        when (xlsx_max_rows rules <? rows)
          (modify_report (append_error
             ("Excede " +:+ Fmt.str_N_commas (xlsx_max_rows rules) +:+ " linhas ("
              +:+ Fmt.str_N_commas rows +:+ ")")));;
        when (xlsx_max_columns rules <? cols)
          (modify_report (append_error
             ("Excede " +:+ Fmt.str_N (xlsx_max_columns rules) +:+ " colunas ("
              +:+ Fmt.str_N cols +:+ ")")));;
        modify_report (set_metadata
          [ ("sheet_count", VCount count);
            ("sheet_names", VStrs sheets);
            ("rows", VCount rows);
            ("columns", VCount cols);
            ("column_names", VList (map val_of_label (slice_to 50 (df_columns df)))) ]);;
        ret (Some df)
      end
  end.

End Validators.

End AzureFunction.


(** * The upload portal (app.py)

    The helpers that decide which files the portal accepts and where it
    stores them. *)

Module Backend.

Definition AZURE_CONTAINER : string := "uploads-clientes".

Definition ALLOWED_EXTENSIONS : list string :=
  ["csv"; "xlsx"; "xls"; "json"; "txt"; "parquet"].

(** [500 * 1024 * 1024] *)
Definition MAX_FILE_SIZE : N := 500 * 1024 * 1024.

(** ['.' in filename and filename.rsplit('.', 1)[1].lower() in
    ALLOWED_EXTENSIONS] *)
Definition allowed_file (filename : string) : bool :=
  PyStr.contains_char "." filename
  && bool_decide (PyStr.lower (PyStr.rsplit1_last "." filename) ∈ ALLOWED_EXTENSIONS).

(** The fields of [datetime.now(timezone.utc)] that the path uses. *)
Record Date := mkDate { year : N; month : N; day : N }.

(** [f'{n:02d}'] *)
Definition pad2 (n : N) : string :=
  if n <? 10 then "0" +:+ Fmt.str_N n else Fmt.str_N n.

(** [generate_blob_path], given the clock reading and [uuid.uuid4().hex[:8]]. *)
Definition generate_blob_path (now : Date) (unique_id : string)
    (client_prefix original_filename : string) : string :=
  let safe_name := PyStr.replace " " "_" original_filename in
  client_prefix +:+ "/" +:+ Fmt.str_N (year now) +:+ "/" +:+ pad2 (month now) +:+ "/"
  +:+ pad2 (day now) +:+ "/" +:+ unique_id +:+ "_" +:+ safe_name.

(** [len(file_content) > MAX_FILE_SIZE] *)
Definition too_large (file_content : bytes) : bool :=
  MAX_FILE_SIZE <? len_bytes file_content.

End Backend.

(** * The load into the database (azure-function/function_app.py)

    [load_dataframe_to_staging] sends the rows of a validated frame to the
    table staging_data in batches, records the count in upload_files and
    commits. *)

Module AzureFunctionDb.

Definition SQL_BATCH_SIZE : nat := 1000.

(** An index label of the frame, by what [idx + 1] gives. *)
Inductive IndexLabel :=
| IxInt (z : Z)              (* an integer: the default index counts from 0 *)
| IxNumber (next : string)   (* another number (a float label): [idx + 1] is a
                                number, given here by its repr *)
| IxOther (e : Exc).         (* a string, a timestamp, a tuple: [idx + 1] raises
                                TypeError *)

(** The value bound to row_number. *)
Inductive RowNumber :=
| RowInt (z : Z)
| RowNumberOther (repr : string).

(** [idx + 1] *)
Definition plus_one (idx : IndexLabel) : Res RowNumber :=
  match idx with
  | IxInt z => Ok (RowInt (z + 1))
  | IxNumber next => Ok (RowNumberOther next)
  | IxOther e => Raise e
  end.

(** A tuple of the INSERT: upload_file_id, client_id, row_number,
    row_data. *)
Record StagingRow := mkStagingRow {
  sr_upload_file_id : Z;
  sr_client_id : Z;
  sr_row_number : RowNumber;
  sr_row_data : string;
}.

(** One connection, by what the function does with it: the batches that
    [executemany] accepted, the UPDATE of upload_files, whether [commit]
    and [close] returned; and the log. *)
Record Db := mkDb {
  inserted : list (list StagingRow);
  rows_loaded : option (Z * N);     (* id and rows_loaded of the UPDATE *)
  committed : bool;
  closed : bool;
  db_log : list LogEntry;
}.

Inductive DbOp :=
| DbConnect
| DbExecuteMany (nth : nat)         (* the call after [nth] accepted ones *)
| DbExecute
| DbCommit
| DbClose.

(** A computation on the connection that may raise. *)
Definition DbM (A : Type) : Type := Db -> Res A * Db.

Definition db_ret {A} (a : A) : DbM A := fun db => (Ok a, db).

Definition db_bind {A B} (m : DbM A) (k : A -> DbM B) : DbM B :=
  fun db => match m db with
            | (Ok a, db') => k a db'
            | (Raise e, db') => (Raise e, db')
            end.

Notation "'let+' x ':=' m 'in' k" := (db_bind m (fun x => k))
  (at level 10, x name, m at level 100, k at level 200).

Definition db_lift {A} (r : Res A) : DbM A := fun db => (r, db).

Section Loading.

(** The operations that fail on their own. *)
Variable db_fault : DbOp -> option Exc.

Definition db_injected (op : DbOp) : DbM unit :=
  fun db => match db_fault op with
            | Some e => (Raise e, db)
            | None => (Ok tt, db)
            end.

(** [get_sql_connection()] *)
Definition get_sql_connection : DbM unit := db_injected DbConnect.

(** [cursor.executemany("INSERT INTO staging_data ...", batch)] *)
Definition executemany (batch : list StagingRow) : DbM unit :=
  fun db =>
    match db_fault (DbExecuteMany (length (inserted db))) with
    | Some e => (Raise e, db)
    | None =>
      (Ok tt, mkDb (inserted db ++ [batch]) (rows_loaded db) (committed db) (closed db)
                (db_log db))
    end.

(** [cursor.execute("UPDATE upload_files SET upload_status = 'loaded',
    rows_loaded = ? ... WHERE id = ?", (total_rows, upload_file_id))] *)
Definition execute_update (total_rows : N) (upload_file_id : Z) : DbM unit :=
  fun db =>
    match db_fault DbExecute with
    | Some e => (Raise e, db)
    | None =>
      (Ok tt, mkDb (inserted db) (Some (upload_file_id, total_rows)) (committed db)
                (closed db) (db_log db))
    end.

(** [conn.commit()] *)
Definition commit : DbM unit :=
  fun db =>
    match db_fault DbCommit with
    | Some e => (Raise e, db)
    | None => (Ok tt, mkDb (inserted db) (rows_loaded db) true (closed db) (db_log db))
    end.

(** [conn.close()] *)
Definition close : DbM unit :=
  fun db =>
    match db_fault DbClose with
    | Some e => (Raise e, db)
    | None => (Ok tt, mkDb (inserted db) (rows_loaded db) (committed db) true (db_log db))
    end.

Definition db_logging (level : LogLevel) (msg : string) : DbM unit :=
  fun db =>
    (Ok tt, mkDb (inserted db) (rows_loaded db) (committed db) (closed db)
              (db_log db ++ [Log level msg])).

(** The loop over [df.iterrows()], with its two local variables: a row
    comes as its index label and what [row.to_json(force_ascii=False)]
    gives. *)
Fixpoint load_rows (upload_file_id client_id : Z) (rows : list (IndexLabel * Res string))
    (batch : list StagingRow) (total_rows : N) : DbM (list StagingRow * N) :=
  match rows with
  | [] => db_ret (batch, total_rows)
  | (idx, row) :: rest =>
    let+ row_data := db_lift row in
    let+ row_number := db_lift (plus_one idx) in
    let batch := batch ++ [mkStagingRow upload_file_id client_id row_number row_data] in
    if (SQL_BATCH_SIZE <=? length batch)%nat then
      let+ _ := executemany batch in
      load_rows upload_file_id client_id rest [] (total_rows + N.of_nat (length batch))
    else
      load_rows upload_file_id client_id rest batch total_rows
  end.

Definition load_dataframe_to_staging (rows : list (IndexLabel * Res string))
    (upload_file_id client_id : Z) : Db -> N * Db :=
  fun db =>
    let body :=
      let+ _ := get_sql_connection in
      let+ acc := load_rows upload_file_id client_id rows [] 0 in
      let batch := acc.1 in
      let+ total_rows :=
        match batch with
        | [] => db_ret acc.2
        | _ :: _ =>
          let+ _ := executemany batch in
          db_ret (acc.2 + N.of_nat (length batch))
        end in
      let+ _ := execute_update total_rows upload_file_id in
      let+ _ := commit in
      let+ _ := close in
      let+ _ := db_logging INFO ("✓ " +:+ Fmt.str_N total_rows
                                 +:+ " linhas no staging_data (file_id="
                                 +:+ Fmt.str_Z upload_file_id +:+ ")") in
      db_ret total_rows in
    match body db with
    | (Ok total_rows, db') => (total_rows, db')
    | (Raise e, db') =>
      (0, mkDb (inserted db') (rows_loaded db') (committed db') (closed db')
            (db_log db' ++ [Log ERROR ("Erro ao carregar staging: " +:+ exc_str e)]))
    end.

End Loading.

End AzureFunctionDb.
(** * Definitions used in the statements *)

(** ** Size ceilings (JSON, Parquet, plain text) *)

(** The three validators that test the byte length first. *)
Inductive SizedFormat := SizedJson | SizedParquet | SizedTxt.

Definition sized_rules (f : SizedFormat) : SizeRules :=
  match f with
  | SizedJson => rules_json VALIDATION_RULES
  | SizedParquet => rules_parquet VALIDATION_RULES
  | SizedTxt => rules_txt VALIDATION_RULES
  end.

Definition sized_validator (lib : Libs) (f : SizedFormat) : bytes -> M unit :=
  match f with
  | SizedJson => validate_json lib
  | SizedParquet => validate_parquet lib
  | SizedTxt => validate_txt
  end.

Definition sized_label (f : SizedFormat) : string :=
  match f with
  | SizedJson => "JSON"
  | SizedParquet => "Parquet"
  | SizedTxt => "TXT"
  end.

(** The message of the size error. *)
Definition oversize_message (f : SizedFormat) (content : bytes) : string :=
  sized_label f +:+ " excede limite de " +:+ Fmt.str_N (max_size_mb (sized_rules f))
  +:+ "MB (" +:+ Fmt.fmt1_mb (len_bytes content) +:+ "MB)".

(** A plain-text payload of 100 MiB and one byte. *)
Definition one_byte_over_txt : bytes := repeat x00 (N.to_nat (100 * Fmt.MiB + 1)).


(** ** What a step may change *)

(** [m] relates every state to the state it leaves. *)
Definition steps (P : St -> St -> Prop) {A} (m : M A) : Prop :=
  forall s, P s (m s).2.

(** [m] cannot raise. *)
Definition returns {A} (m : M A) : Prop := forall s, exists a, (m s).1 = Ok a.

Definition is_save (c : Call) : bool :=
  match c with CallSaveReport _ => true | _ => false end.

(** The calls of [save_validation_report] made so far. *)
Definition saves (w : World) : list Call := List.filter is_save (calls w).

(** The keys of the report that only the orchestrator writes. *)
Definition identity_of (r : Report) :=
  (blob_name r, client r, filename r, extension r, size_bytes r, size_mb r,
   timestamp r, valid r).

(** The report is the same object with the same content. *)
Definition same_report (s s' : St) : Prop := report s' = report s.

(** What a validator leaves alone: the orchestrator's keys of the report,
    the store, the clock and the log; and it does not call the emitter. *)
Definition validator_frame (s s' : St) : Prop :=
  identity_of (report s') = identity_of (report s)
  /\ store (world s') = store (world s)
  /\ clock_reads (world s') = clock_reads (world s)
  /\ log (world s') = log (world s)
  /\ saves (world s') = saves (world s).

(** ** Inputs used as examples *)

(** One byte that is not UTF-8 (latin-1 for U+00FF). *)
Definition latin1_only : bytes := [xff].

(** Two lines that are not UTF-8: U+00FF, a line feed, and the letter A. *)
Definition latin1_two_lines : bytes := [xff; x0a; x41].

(** The line feeds among the bytes of a payload. *)
Definition lf_bytes (content : bytes) : N :=
  N.of_nat (length (List.filter (fun b => Byte.eqb b x0a) content)).

(** The state a validator is entered in: a fresh report for the named blob
    and a world in which nothing has happened. *)
Definition empty_world : World := mkWorld ∅ 0 [] [].

Definition fresh_report (name : string) (ext : string) (size : N) : Report :=
  mkReport ("uploads-clientes/cli-00123/2024/05/17/" +:+ name) "cli-00123" name ext
    size (Fmt.round2_mb size) "2024-05-17T12:00:00+00:00" false [] [] [].

Definition fresh_state (name ext : string) (size : N) : St :=
  mkSt (fresh_report name ext size) empty_world.

(** The message of the sheet-count error, and the shorter one of the second
    copy. *)
Definition too_many_sheets_message (count : N) : string :=
  "Excel excede limite de " +:+ Fmt.str_N (max_sheets (rules_xlsx VALIDATION_RULES))
  +:+ " abas (" +:+ Fmt.str_N count +:+ " encontradas)".

Definition too_many_sheets_message_2 (count : N) : string :=
  "Excede " +:+ Fmt.str_N (max_sheets (rules_xlsx VALIDATION_RULES))
  +:+ " abas (" +:+ Fmt.str_N count +:+ ")".

(** [len(xls.sheet_names)] *)
Definition sheet_count (xls : ExcelFile) : N := N.of_nat (length (sheet_names xls)).

(** The calls that read a sheet. *)
Definition is_sheet_read (c : Call) : bool :=
  match c with CallReadExcel _ => true | _ => false end.

Definition sheet_reads (w : World) : list Call := List.filter is_sheet_read (calls w).

(** ** The sheet loop, as the specification words it *)

(** The sheets whose read succeeds, in workbook order, with their frames. *)
Fixpoint readable_sheets (xls : ExcelFile) (sheets : list string)
  : list (string * DataFrame) :=
  match sheets with
  | [] => []
  | sheet :: rest =>
    match parse xls sheet with
    | Ok df => (sheet, df) :: readable_sheets xls rest
    | Raise _ => readable_sheets xls rest
    end
  end.

(** One warning for every sheet whose read fails. *)
Fixpoint read_warnings (xls : ExcelFile) (sheets : list string) : list string :=
  match sheets with
  | [] => []
  | sheet :: rest =>
    match parse xls sheet with
    | Ok _ => read_warnings xls rest
    | Raise e =>
      ("Erro ao ler aba " +:+ dq +:+ sheet +:+ dq +:+ ": " +:+ exc_str e)
        :: read_warnings xls rest
    end
  end.

Definition column_error (sheet : string) (cols : N) : string :=
  "Aba " +:+ dq +:+ sheet +:+ dq +:+ " excede "
  +:+ Fmt.str_N (xlsx_max_columns (rules_xlsx VALIDATION_RULES))
  +:+ " colunas (" +:+ Fmt.str_N cols +:+ ")".

(** One error for every readable sheet with too many columns. *)
Fixpoint column_errors (read : list (string * DataFrame)) : list string :=
  match read with
  | [] => []
  | (sheet, df) :: rest =>
    if xlsx_max_columns (rules_xlsx VALIDATION_RULES) <? df_cols df
    then column_error sheet (df_cols df) :: column_errors rest
    else column_errors rest
  end.

(** The rows of the readable sheets, summed. *)
Fixpoint total_rows_of (read : list (string * DataFrame)) : N :=
  match read with
  | [] => 0
  | (_, df) :: rest => df_rows df + total_rows_of rest
  end.

(** The per-sheet details of the readable sheets. *)
Definition sheets_detail_of (read : list (string * DataFrame)) (start : PyDict) : PyDict :=
  fold_left (fun d p => dict_set p.1 (sheet_info p.2) d) read start.

Definition total_rows_error (total_rows : N) : string :=
  "Total de linhas (" +:+ Fmt.str_N_commas total_rows +:+ ") excede o limite ("
  +:+ Fmt.str_N_commas (xlsx_max_rows (rules_xlsx VALIDATION_RULES)) +:+ ")".

(** Reports and worlds with messages or calls added at the end. *)
Definition extend_errors (l : list string) (r : Report) : Report :=
  mkReport (blob_name r) (client r) (filename r) (extension r) (size_bytes r)
    (size_mb r) (timestamp r) (valid r) (errors r ++ l) (warnings r) (metadata r).

Definition extend_warnings (l : list string) (r : Report) : Report :=
  mkReport (blob_name r) (client r) (filename r) (extension r) (size_bytes r)
    (size_mb r) (timestamp r) (valid r) (errors r) (warnings r ++ l) (metadata r).

Definition extend_calls (l : list Call) (w : World) : World :=
  mkWorld (store w) (clock_reads w) (log w) (calls w ++ l).

(** A frame of integers with the given shape and nothing missing. *)
Definition plain_frame (rows : N) (cols : nat) : DataFrame :=
  mkDataFrame rows
    (map (fun i => LStr ("c" +:+ Fmt.str_N (N.of_nat i))) (seq 0 cols))
    (repeat "int64" cols) 0 (FHundredths 0) (FHundredths 0).

(** A workbook given sheet by sheet, each with what reading it gives. *)
Fixpoint parse_in (sheets : list (string * Res DataFrame)) (name : string)
  : Res DataFrame :=
  match sheets with
  | [] => Raise (mkExc OtherException ("Worksheet named '" +:+ name +:+ "' not found"))
  | (n, r) :: rest => if bool_decide (n = name) then r else parse_in rest name
  end.

Definition workbook_of (sheets : list (string * Res DataFrame)) : ExcelFile :=
  mkExcelFile (map fst sheets) (parse_in sheets).

(** Libraries that fail on everything. *)
Definition no_lib : Libs :=
  let fail {A} : Res A := Raise (mkExc OtherException "not a file of this format") in
  mkLibs (fun _ _ _ => fail) (fun _ => fail) (fun _ => fail) (fun _ => fail).

(** Libraries for which every payload is the given workbook. *)
Definition lib_with_workbook (xls : ExcelFile) : Libs :=
  mkLibs (pd_read_csv no_lib) (fun _ => Ok xls) (pd_read_parquet no_lib) (json_loads no_lib).

(** Four sheets: a small one, one that cannot be read, and two with more
    than 500 columns. *)
Definition workbook_mixed : ExcelFile :=
  workbook_of
    [ ("Resumo", Ok (plain_frame 2 3));
      ("Quebrada", Raise (mkExc OtherException "bad sheet xml"));
      ("Larga", Ok (plain_frame 10 501));
      ("Larga2", Ok (plain_frame 5 502)) ].

(** Fifty-one empty sheets. *)
Definition workbook_51 : ExcelFile :=
  workbook_of
    (map (fun i => ("Plan" +:+ Fmt.str_N (N.of_nat i), Ok (plain_frame 0 0))) (seq 1 51)).

(** ** Delimited text *)

Definition csv_rows_error (rows : N) : string :=
  "CSV excede limite de " +:+ Fmt.str_N_commas (csv_max_rows (rules_csv VALIDATION_RULES))
  +:+ " linhas (" +:+ Fmt.str_N_commas rows +:+ " encontradas)".

Definition csv_columns_error (cols : N) : string :=
  "CSV excede limite de " +:+ Fmt.str_N (csv_max_columns (rules_csv VALIDATION_RULES))
  +:+ " colunas (" +:+ Fmt.str_N cols +:+ " encontradas)".

Definition csv_duplicates_warning (dups : list Label) : string :=
  "Colunas duplicadas encontradas: " +:+ repr_list (map repr_label (slice_to 5 dups)).

Definition csv_empty_rows_warning (empty_rows : N) : string :=
  Fmt.str_N empty_rows +:+ " linhas completamente vazias encontradas".

Definition csv_metadata (encoding_used : string) (df : DataFrame) : PyDict :=
  [ ("encoding", VStr encoding_used);
    ("rows", VCount (df_rows df));
    ("columns", VCount (df_cols df));
    ("column_names", VList (map val_of_label (slice_to 50 (df_columns df))));
    ("dtypes", dtypes_dict df);
    ("null_percentage", VFloat (df_null_percentage df));
    ("memory_usage_mb", VFloat (df_memory_usage_mb df)) ].

(** Libraries for which every payload parses, under any encoding and row
    limit, as the given frame. *)
Definition lib_with_csv (df : DataFrame) : Libs :=
  mkLibs (fun _ _ _ => Ok df) (pd_ExcelFile no_lib) (pd_read_parquet no_lib)
    (json_loads no_lib).

(** A frame over both ceilings of delimited text. *)
Definition frame_over_both : DataFrame := plain_frame 10000001 501.

(** The line feed. *)
Definition nl : string := PyStr.of_char (ascii_of_N 10).

(** The bytes of the two-line file with the header [a,a,b] and the row
    [1,2,3]. *)
Definition csv_a_a_b : bytes :=
  list_byte_of_string ("a,a,b" +:+ nl +:+ "1,2,3" +:+ nl).

(** What [pd.read_csv] returns for [csv_a_a_b]: the reader renames a
    repeated header name by appending a counter (its default, and in pandas
    2 its only, treatment of duplicate names), so the columns are a, a.1
    and b; one row of integers, nothing missing, and a memory use that
    rounds to 0.0 MiB. *)
Definition frame_a_a1_b : DataFrame :=
  mkDataFrame 1 [LStr "a"; LStr "a.1"; LStr "b"] ["int64"; "int64"; "int64"] 0
    (FHundredths 0) (FHundredths 0).

(** The frame a reader that kept repeated names would return. *)
Definition frame_a_a_b_unrenamed : DataFrame :=
  mkDataFrame 1 [LStr "a"; LStr "a"; LStr "b"] ["int64"; "int64"; "int64"] 0
    (FHundredths 0) (FHundredths 0).

(** ** The store *)

(** The blob under a name in a container, if both exist. *)
Definition stored_blob (w : World) (container name : string) : option Blob :=
  store w !! container ≫= fun blobs : gmap string Blob => blobs !! name.

(** The path a blob keeps in the destination container. *)
Definition relative_path (original_path : string) : string :=
  PyStr.replace "uploads-clientes/" "" original_path.

(** The tags of a moved blob. *)
Definition move_tags (is_valid : bool) (validated_at original_path : string)
  : list (string * string) :=
  [ ("validation_status", if is_valid then "valid" else "rejected");
    ("validated_at", validated_at);
    ("original_path", original_path) ].

(** A clock that stands at noon of 17 May 2024. *)
Definition noon : N -> DateTime :=
  fun _ => mkDateTime "2024-05-17T12:00:00+00:00" "2024/05/17".

Definition no_fault : StoreOp -> option Exc := fun _ => None.

(** Every upload is refused by the store. *)
Definition uploads_fail : StoreOp -> option Exc :=
  fun op =>
    match op with
    | OpUpload _ _ => Some (mkExc OtherException "Server failed to authenticate the request.")
    | _ => None
    end.

(** No connection string: the demonstration mode. *)
(** Every report encodes. *)
Definition encodes : Report -> option Exc := fun _ => None.

Definition env_demo : Env := mkEnv None noon no_fault encodes.

(** A configured store, with the faults given. *)
Definition env_connected (faults : StoreOp -> option Exc) : Env :=
  mkEnv (Some "UseDevelopmentStorage=true") noon faults encodes.

Definition sample_path : string := "uploads-clientes/cli-00123/2024/05/17/nota.txt".

Definition sample_content : bytes := list_byte_of_string "ola".

(** A world whose upload container holds the sample blob. *)
Definition world_with_sample : World :=
  mkWorld {[ UPLOADS_CONTAINER :=
               {[ relative_path sample_path := mkBlob (RawBytes sample_content) [] ]} ]}
    0 [] [].

(** The trigger's stream for the sample blob. *)
Definition sample_stream : InputStream :=
  mkInputStream sample_path (Some 3) (Ok sample_content).

(** What the specification says of a failed copy, for one call of
    [move_blob]: the exception of the upload reaches the caller. *)
Definition copy_failure_propagates (env : Env) (content : bytes)
    (original_path destination_container : string) (r : Report) (s : St) : Prop :=
  forall e,
    fault env (OpUpload destination_container (relative_path original_path)) = Some e ->
    (move_blob env content original_path destination_container r s).1 = Raise e.

(** ** The decision *)

(** A state in which the [try] of the orchestrator can be entered: the
    report as created at the time [now], and some world. *)
Definition entry_state (blob : InputStream) (blob_length : N) (now : DateTime)
    (w : World) : St :=
  mkSt (initial_report blob blob_length now) w.

(** The container the decision names. *)
Definition destination_for (r : Report) : string :=
  if bool_decide (errors r = []) then STAGING_CONTAINER else REJECTED_CONTAINER.


(** Only the calls matter. *)
Definition same_calls (s s' : St) : Prop := calls (world s') = calls (world s).

(** ** The emitter *)

Definition is_demo_report (e : LogEntry) : bool :=
  match e with LogDemoReport _ => true | _ => false end.

(** A workbook with one sheet whose header row holds a date next to a
    name: pandas keeps the date cell as a [datetime] label. *)
Definition frame_dated : DataFrame :=
  mkDataFrame 3 [LStr "produto"; LObj "datetime" "datetime.datetime(2024, 1, 1, 0, 0)"]
    ["object"; "float64"] 0 (FHundredths 0) (FHundredths 0).

Definition workbook_dated : ExcelFile := workbook_of [("Plan1", Ok frame_dated)].

Definition xlsx_path : string := "uploads-clientes/cli-00123/2024/05/17/livro.xlsx".

(** The first bytes of a zip archive stand for the workbook file. *)
Definition xlsx_content : bytes := [x50; x4b; x03; x04].

Definition xlsx_stream : InputStream :=
  mkInputStream xlsx_path (Some 4) (Ok xlsx_content).

Definition world_with_xlsx : World :=
  mkWorld {[ UPLOADS_CONTAINER :=
               {[ relative_path xlsx_path := mkBlob (RawBytes xlsx_content) [] ]} ]}
    0 [] [].

(** A delimited file with no column (a blank line): pandas raises
    EmptyDataError, which is neither of the two classes the encoding loop
    catches. *)
Definition lib_empty_csv : Libs :=
  mkLibs (fun _ _ _ => Raise (mkExc OtherException "No columns to parse from file"))
    (pd_ExcelFile no_lib) (pd_read_parquet no_lib) (json_loads no_lib).

Definition empty_csv_path : string := "uploads-clientes/cli-00123/2024/05/17/vazio.csv".

(** The file holds one line feed. *)
Definition empty_csv_content : bytes := [x0a].

Definition empty_csv_stream : InputStream :=
  mkInputStream empty_csv_path (Some 1) (Ok empty_csv_content).

Definition world_with_empty_csv : World :=
  mkWorld {[ UPLOADS_CONTAINER :=
               {[ relative_path empty_csv_path := mkBlob (RawBytes empty_csv_content) [] ]} ]}
    0 [] [].

(** The state in which [process_uploaded_file] enters its [try] when
    [blob.length] is the number [blob_length]: the trigger line is logged,
    the clock has been read for the timestamp. *)
Definition trigger_state (env : Env) (blob : InputStream) (blob_length : N) (w : World)
  : St :=
  entry_state blob blob_length (clock env (clock_reads w))
    (mkWorld (store w) (clock_reads w + 1)
       (log w ++ [Log INFO ("[TRIGGER] Novo arquivo detectado: "
                            +:+ stream_name blob +:+ " ("
                            +:+ str_length (stream_length blob) +:+ " bytes)")])
       (calls w)).

(** Whether the save that ends the [try] raises: only the demonstration
    branch lets the TypeError of [json.dumps] out. *)
Definition first_save_raises (lib : Libs) (env : Env) (blob : InputStream)
    (blob_length : N) (w : World) : bool :=
  match validate lib blob (trigger_state env blob blob_length w) with
  | (Ok _, s1) =>
    demo_mode env && bool_decide (Json.dumps_report_error (report s1) <> None)
  | (Raise _, _) => false
  end.

(** ** Two runs *)

(** A report with its timestamp blanked. *)
Definition without_timestamp (r : Report) : Report := set_timestamp "" r.

(** Two states whose reports agree on every key but the timestamp. *)
Definition same_but_timestamp (s1 s2 : St) : Prop :=
  without_timestamp (report s1) = without_timestamp (report s2).

(** A computation whose result and whose effect on the report are the same
    from any two such states, whatever the worlds. *)
Definition deterministic {A} (m : M A) : Prop :=
  forall s1 s2, same_but_timestamp s1 s2 ->
    (m s1).1 = (m s2).1 /\ same_but_timestamp (m s1).2 (m s2).2.

(** An update of the report that does not look at the timestamp. *)
Definition ignores_timestamp (f : Report -> Report) : Prop :=
  forall r1 r2, without_timestamp r1 = without_timestamp r2 ->
    without_timestamp (f r1) = without_timestamp (f r2).

(** ** The report a run ends with *)

(** The report after the decision. *)
Definition decided (r : Report) : Report :=
  if bool_decide (errors r = []) then set_valid true r else r.

(** The report after the handler's append. *)
Definition internal_error (msg : string) (r : Report) : Report :=
  append_error ("Erro interno: " +:+ msg) r.

(** The report a run ends with, from the outcome of the validation stage:
    the decided report, or, when the stage or the first save raised, the
    report of that moment with the internal error added. *)
Definition final_report (lib : Libs) (env : Env) (blob : InputStream)
    (blob_length : N) (w : World) : Report :=
  match validate lib blob (trigger_state env blob blob_length w) with
  | (Ok _, s1) =>
    let r2 := decided (report s1) in
    if demo_mode env then
      match Json.dumps_report_error r2 with
      | Some msg => internal_error msg r2
      | None => r2
      end
    else r2
  | (Raise e, s1) => internal_error (exc_str e) (report s1)
  end.

(** * Definitions used in the further statements *)

(** The blob under a name in a container of a store. *)
Definition blob_at (st : gmap string (gmap string Blob)) (container name : string)
  : option Blob :=
  st !! container ≫= fun blobs : gmap string Blob => blobs !! name.

(** The store accepts the connection, and the container exists or can be
    created. *)
Definition container_ready (env : Env) (w : World) (container : string) : Prop :=
  fault env OpConnect = None
  /\ (fault env (OpCreateContainer container) = None \/ is_Some (store w !! container)).

(** The three steps of the move are refused by nothing. *)
Definition store_accepts_move (env : Env) (w : World) (dest name : string) : Prop :=
  container_ready env w dest
  /\ fault env (OpUpload dest name) = None
  /\ fault env (OpDelete UPLOADS_CONTAINER name) = None.

(** The blob a move writes. *)
Definition moved_blob (env : Env) (w : World) (content : bytes) (r : Report)
    (original_path : string) : Blob :=
  mkBlob (RawBytes content)
    (move_tags (valid r) (isoformat (clock env (clock_reads w))) original_path).

(** Two blobs of the sample store: the upload, and an older file already in
    staging. *)
Definition older_blob : Blob := mkBlob (RawBytes [x01]) [].

Definition world_with_two : World :=
  mkWorld {[ UPLOADS_CONTAINER :=
               {[ relative_path sample_path := mkBlob (RawBytes sample_content) [] ]};
             STAGING_CONTAINER := {[ "cli-00123/antigo.txt" := older_blob ]} ]}
    0 [] [].

(** The store refuses every deletion. *)
Definition deletes_fail : StoreOp -> option Exc :=
  fun op =>
    match op with
    | OpDelete _ _ => Some (mkExc OtherException "The blob is leased.")
    | _ => None
    end.

Definition sample_report : Report := set_valid true (fresh_report "nota.txt" "txt" 3).

(** The name of the report artifact: client, date and file name. *)
Definition report_path (r : Report) (date : string) : string :=
  client r +:+ "/" +:+ date +:+ "/" +:+ filename r +:+ "_report.json".

(** A second report for the same file, from a later run that found an
    error. *)
Definition sample_report_2 : Report :=
  append_error "Extensão não suportada: .txt" (fresh_report "nota.txt" "txt" 3).

(** The metadata is as before. *)
Definition same_metadata (s s' : St) : Prop := metadata (report s') = metadata (report s).

(** A computation that, when it raises, has not written the metadata. *)
Definition raises_before_metadata {A} (m : M A) : Prop :=
  forall s, (exists a, (m s).1 = Ok a) \/ metadata (report (m s).2) = metadata (report s).

(** A computation that raises nothing but exceptions accepted by [handles]. *)
Definition raises_only {A} (handles : Exc -> bool) (m : M A) : Prop :=
  forall s e, (m s).1 = Raise e -> handles e = true.

(** The message of the TypeError that the save ending the [try] raises, if
    it does. *)
Definition first_save_error (lib : Libs) (env : Env) (blob : InputStream)
    (blob_length : N) (w : World) : option string :=
  match validate lib blob (trigger_state env blob blob_length w) with
  | (Ok _, s1) => if demo_mode env then Json.dumps_report_error (report s1) else None
  | (Raise _, _) => None
  end.

(** An upload whose own name starts with the name of the container, next to
    an unrelated blob that has the name the upload is left with when every
    [uploads-clientes/] is removed from the trigger name. *)
Definition nested_path : string := "uploads-clientes/uploads-clientes/2024/05/17/f.txt".

Definition nested_stream : InputStream := mkInputStream nested_path (Some 3) (Ok sample_content).

Definition world_with_nested : World :=
  mkWorld {[ UPLOADS_CONTAINER :=
               {[ "uploads-clientes/2024/05/17/f.txt" := mkBlob (RawBytes sample_content) [];
                  "2024/05/17/f.txt" := older_blob ]} ]}
    0 [] [].

(** A zero-byte upload as the trigger hands it over: [blob.length] is None. *)
Definition zero_byte_path : string := "uploads-clientes/cli-00123/2024/05/17/vazio.txt".

Definition zero_byte_stream : InputStream := mkInputStream zero_byte_path None (Ok []).

Definition world_with_zero_byte : World :=
  mkWorld {[ UPLOADS_CONTAINER := {[ relative_path zero_byte_path := mkBlob (RawBytes []) [] ]} ]}
    0 [] [].

(** No blob outside the notifications container has changed. *)
Definition only_notifications (s s' : St) : Prop :=
  forall c n, c <> NOTIFICATIONS_CONTAINER ->
    blob_at (store (world s')) c n = blob_at (store (world s)) c n.

Definition is_move (c : Call) : bool :=
  match c with CallMoveBlob _ => true | _ => false end.

(** The calls of [move_blob] made so far. *)
Definition moves (w : World) : list Call := List.filter is_move (calls w).

(** The extensions the function has a validator for. *)
Definition supported_extensions : list string :=
  ["csv"; "xlsx"; "xls"; "json"; "parquet"; "txt"].

Definition zip_path : string := "uploads-clientes/cli-00123/2024/05/17/dados.ZIP".

Definition zip_stream : InputStream := mkInputStream zip_path (Some 4) (Ok xlsx_content).

(** ** Stages of a run *)

(** The state in which the handler of [process_uploaded_file] calls the
    emitter: the error line is logged and the internal error appended. *)
Definition handler_state (blob : InputStream) (e : Exc) (s : St) : St :=
  mkSt (internal_error (exc_str e) (report s))
    (mkWorld (store (world s)) (clock_reads (world s))
       (log (world s) ++ [Log ERROR ("[ERRO] Falha ao processar " +:+ stream_name blob
                                     +:+ ": " +:+ exc_str e)])
       (calls (world s))).

(** The extension the function computes from the name of a blob. *)
Definition blob_extension (blob : InputStream) : string :=
  extension (initial_report blob 0 (mkDateTime "" "")).

(** A step that changes no blob other than those [T] names. *)
Definition touches (T : string -> string -> Prop) (s s' : St) : Prop :=
  forall c n,
    blob_at (store (world s')) c n = blob_at (store (world s)) c n \/ T c n.

(** The blobs a move may write or delete. *)
Definition move_targets (path dest : string) (c n : string) : Prop :=
  n = relative_path path /\ (c = dest \/ c = UPLOADS_CONTAINER).

(** The blobs a save may write: a report of the client and file, of any
    date. *)
Definition report_targets (r : Report) (c n : string) : Prop :=
  c = NOTIFICATIONS_CONTAINER /\ exists date, n = report_path r date.

(** The blobs a run on [blob] may change: the blob of the uploads container
    named by the trigger name with every [uploads-clientes/] removed (the
    upload itself when the trigger name holds that prefix once), the blob
    of that name in one of the two destination containers, and the report
    of the file. *)
Definition run_targets (blob : InputStream) (r : Report) (c n : string) : Prop :=
  (n = relative_path (stream_name blob)
   /\ (c = UPLOADS_CONTAINER \/ c = STAGING_CONTAINER \/ c = REJECTED_CONTAINER))
  \/ report_targets r c n.

(** The calls of [move_blob] are as before. *)
Definition same_moves (s s' : St) : Prop := moves (world s') = moves (world s).

(** [json.dumps] accepts the report. *)
Definition serialisable (r : Report) : Prop := Json.dumps_report_error r = None.

(** A step that leaves a report [json.dumps] accepts, when it was given
    one. *)
Definition keeps_serialisable (s s' : St) : Prop :=
  serialisable (report s) -> serialisable (report s').

(** The extensions whose validators copy column labels into the metadata. *)
Definition tabular_extensions : list string := ["csv"; "xlsx"; "xls"; "parquet"].

(** The text [validate_txt] counts: the UTF-8 reading of the bytes, or the
    latin-1 one when they are not UTF-8. *)
Definition text_of (content : bytes) : text :=
  match Codec.decode_utf8 content with
  | Some t => t
  | None => Codec.decode_latin1 content
  end.

Definition txt_metadata (content : bytes) : PyDict :=
  [ ("lines", VCount (count_newlines (text_of content) + 1));
    ("characters", VCount (len_text (text_of content)));
    ("encoding", VStr "utf-8") ].

(** The bytes of a payload that are not UTF-8 continuation bytes: in a
    well-formed UTF-8 text, one per character. *)
Definition leading_bytes (content : bytes) : N :=
  N.of_nat (length (List.filter (fun b => negb (Codec.is_cont (Byte.to_N b))) content)).

(** The number of characters [validate_txt] reports, counted on the bytes:
    the leading bytes when the payload is UTF-8, all the bytes when it has
    to be read as latin-1. *)
Definition characters_of (content : bytes) : N :=
  match Codec.decode_utf8 content with
  | Some _ => leading_bytes content
  | None => len_bytes content
  end.

(** The same two counts on byte values. *)
Definition lf_count (bs : list N) : N :=
  N.of_nat (length (List.filter (fun b => b =? 10) bs)).

Definition leading_count (bs : list N) : N :=
  N.of_nat (length (List.filter (fun b => negb (Codec.is_cont b)) bs)).

(** A connected environment in which the JSON text of every report holds a
    lone surrogate, which [.encode('utf-8')] refuses. *)
Definition env_unencodable : Env :=
  mkEnv (Some "UseDevelopmentStorage=true") noon no_fault
    (fun _ => Some (mkExc OtherException
                      "'utf-8' codec can't encode character '\ud800' in position 214: surrogates not allowed")).

(** [name.isascii()] *)
Definition isascii (name : string) : bool :=
  forallb (fun c => N_of_ascii c <? 128) (list_ascii_of_string name).

(** Two lines of UTF-8 text, the first with a two-byte character: "é", a
    line feed, "A". *)
Definition utf8_two_lines : bytes := [xc3; xa9; x0a; x41].

(** ** Libraries used as examples *)

(** [json.loads] finds no JSON value at the start of the text. *)
Definition lib_not_json : Libs :=
  mkLibs (pd_read_csv no_lib) (pd_ExcelFile no_lib) (pd_read_parquet no_lib)
    (fun _ => Raise (mkExc JSONDecodeError "Expecting value: line 1 column 1 (char 0)")).

(** [json.loads] runs out of stack on a deeply nested document. *)
Definition lib_deep_json : Libs :=
  mkLibs (pd_read_csv no_lib) (pd_ExcelFile no_lib) (pd_read_parquet no_lib)
    (fun _ => Raise (mkExc OtherException
                       "maximum recursion depth exceeded while decoding a JSON array")).

(** The two bytes of an opening and a closing bracket. *)
Definition json_brackets : bytes := list_byte_of_string "[]".

(** ** The encoding loop of delimited text *)

(** The exceptions of the five-row parse that move the loop on to the next
    encoding. *)
Definition moves_on (e : Exc) : bool :=
  is_class UnicodeDecodeError e || is_class ParserError e.

(** The five-row parse under [enc] fails in a way that moves the loop on. *)
Definition sample_unreadable (lib : Libs) (content : bytes) (enc : string) : Prop :=
  exists e, pd_read_csv lib content enc (Some 5) = Raise e /\ moves_on e = true.

(** The five-row parses of the encodings given, as calls. *)
Definition sample_reads (encs : list string) : list Call :=
  map (fun enc => CallReadCsv enc (Some 5)) encs.

Definition csv_unreadable_message : string :=
  "Não foi possível ler o CSV com encodings suportados (UTF-8, Latin-1)".

(** A reader that refuses UTF-8 and accepts everything else as the frame
    given. *)
Definition lib_latin1_csv (df : DataFrame) : Libs :=
  mkLibs
    (fun _ enc _ =>
       if bool_decide (enc = "utf-8")
       then Raise (mkExc UnicodeDecodeError
                     "'utf-8' codec can't decode byte 0xe9 in position 3: invalid continuation byte")
       else Ok df)
    (pd_ExcelFile no_lib) (pd_read_parquet no_lib) (json_loads no_lib).

(** A reader whose tokenizer fails under every encoding. *)
Definition lib_ragged_csv : Libs :=
  mkLibs
    (fun _ _ _ =>
       Raise (mkExc ParserError
                "Error tokenizing data. C error: Expected 2 fields in line 3, saw 5"))
    (pd_ExcelFile no_lib) (pd_read_parquet no_lib) (json_loads no_lib).

(** A reader for a file whose first rows parse and whose sixth line is
    ragged: the five-row parse returns, the full one fails. *)
Definition lib_ragged_later (df5 : DataFrame) : Libs :=
  mkLibs
    (fun _ _ nrows =>
       match nrows with
       | Some _ => Ok df5
       | None =>
         Raise (mkExc ParserError
                  "Error tokenizing data. C error: Expected 2 fields in line 7, saw 3")
       end)
    (pd_ExcelFile no_lib) (pd_read_parquet no_lib) (json_loads no_lib).

(** ** Workbooks *)

(** A workbook of two sheets, neither of which can be read. *)
Definition workbook_unreadable : ExcelFile :=
  workbook_of
    [ ("Plan1", Raise (mkExc OtherException "bad sheet xml"));
      ("Plan2", Raise (mkExc OtherException "bad sheet xml")) ].

(** The messages of the second copy for the first sheet. *)
Definition first_sheet_rows_error (rows : N) : string :=
  "Excede " +:+ Fmt.str_N_commas (xlsx_max_rows (rules_xlsx VALIDATION_RULES))
  +:+ " linhas (" +:+ Fmt.str_N_commas rows +:+ ")".

Definition first_sheet_columns_error (cols : N) : string :=
  "Excede " +:+ Fmt.str_N (xlsx_max_columns (rules_xlsx VALIDATION_RULES))
  +:+ " colunas (" +:+ Fmt.str_N cols +:+ ")".

(** ** Names *)

(** The name under which the trigger hands over a blob that the portal
    stored at [blob_path]: container and path. *)
Definition trigger_name (blob_path : string) : string :=
  Backend.AZURE_CONTAINER +:+ "/" +:+ blob_path.

(** [s] holds no [c]. *)
Definition free_of (c : ascii) (s : string) : Prop := PyStr.contains_char c s = false.

Definition a_date : Backend.Date := Backend.mkDate 2024 5 17.

(** ** The load into the database *)

(** The tuple inserted for a row of the frame, when its text and its
    number can be computed. *)
Definition staging_row (upload_file_id client_id : Z)
    (row : AzureFunctionDb.IndexLabel * Res string) : option AzureFunctionDb.StagingRow :=
  match row.2, AzureFunctionDb.plus_one row.1 with
  | Ok row_data, Ok row_number =>
    Some (AzureFunctionDb.mkStagingRow upload_file_id client_id row_number row_data)
  | _, _ => None
  end.

(** A row with an integer index label whose text is given. *)
Definition int_row (row : Z * string) : AzureFunctionDb.IndexLabel * Res string :=
  (AzureFunctionDb.IxInt row.1, Ok row.2).

(** The tuple inserted for such a row: numbered by its label plus one. *)
Definition int_staging_row (upload_file_id client_id : Z) (row : Z * string)
  : AzureFunctionDb.StagingRow :=
  AzureFunctionDb.mkStagingRow upload_file_id client_id
    (AzureFunctionDb.RowInt (row.1 + 1)) row.2.

(** A connection on which nothing has been done. *)
Definition fresh_db : AzureFunctionDb.Db := AzureFunctionDb.mkDb [] None false false [].

(** A database that accepts everything. *)
Definition db_accepts : AzureFunctionDb.DbOp -> option Exc := fun _ => None.

(** A database whose connection fails to close. *)
Definition close_fails : AzureFunctionDb.DbOp -> option Exc :=
  fun op =>
    match op with
    | AzureFunctionDb.DbClose => Some (mkExc OtherException "Communication link failure")
    | _ => None
    end.

(** The rows of a frame with [n] rows and the default index: labels
    0, 1, ... and a JSON text for each row. *)
Definition numbered_rows (n : nat) : list (Z * string) :=
  map (fun i => (Z.of_nat i, "{}")) (seq 0 n).

(** A frame whose index holds the text of a column (what [read_csv] makes
    of a header shorter than the rows): [idx + 1] raises. *)
Definition text_indexed_rows : list (AzureFunctionDb.IndexLabel * Res string) :=
  [ (AzureFunctionDb.IxOther
       (mkExc TypeError ("can only concatenate str (not " +:+ dq +:+ "int" +:+ dq
                         +:+ ") to str")),
     Ok "{}") ].

(** The batches sent after those the connection already held. *)
Definition new_batches (db db' : AzureFunctionDb.Db) : list (list AzureFunctionDb.StagingRow) :=
  drop (length (AzureFunctionDb.inserted db)) (AzureFunctionDb.inserted db').
(** ** Small checks of the helpers *)

Example split_path :
  PyStr.split "/" "cli-00123/2024/05/17/vendas.CSV"
  = ["cli-00123"; "2024"; "05"; "17"; "vendas.CSV"].
Proof. reflexivity. Qed.

Example replace_prefix :
  PyStr.replace "uploads-clientes/" "" "uploads-clientes/cli-00123/a.csv" = "cli-00123/a.csv".
Proof. reflexivity. Qed.

Example extension_of_name :
  PyStr.lower (PyStr.rsplit1_last "." "vendas.tar.CSV") = "csv".
Proof. reflexivity. Qed.

Example commas_of_max_rows : Fmt.str_N_commas 10000000 = "10,000,000".
Proof. reflexivity. Qed.

Example commas_short : Fmt.str_N_commas 999 = "999".
Proof. reflexivity. Qed.

Example fmt1_one_byte_over : Fmt.fmt1_mb (100 * Fmt.MiB + 1) = "100.0".
Proof. reflexivity. Qed.

Example fmt1_tie_to_even : Fmt.fmt1_mb 262144 = "0.2".
Proof. reflexivity. Qed.

Example repr_plain : PyStr.repr "a" = "'a'".
Proof. reflexivity. Qed.

Example utf8_two_byte : Codec.decode_utf8 [xc3; xa9] = Some [233].
Proof. reflexivity. Qed.

Example utf8_rejects_overlong : Codec.decode_utf8 [xc0; x80] = None.
Proof. reflexivity. Qed.

Example utf8_rejects_surrogate :
  Codec.decode_utf8 [xed; xa0; x80] = None.
Proof. reflexivity. Qed.

Example duplicated_marks_repeats :
  duplicated [LStr "a"; LStr "a"; LStr "b"; LStr "a"] = [LStr "a"; LStr "a"].
Proof. reflexivity. Qed.

(** * Properties *)

(** ** Size ceilings (JSON, Parquet, plain text) *)

Lemma size_mb_exceeds_true content limit :
  limit * Fmt.MiB < len_bytes content -> size_mb_exceeds content limit = true.
Proof. intros H. unfold size_mb_exceeds. by apply N.ltb_lt. Qed.

Lemma size_mb_exceeds_false content limit :
  len_bytes content <= limit * Fmt.MiB -> size_mb_exceeds content limit = false.
Proof. intros H. unfold size_mb_exceeds. apply N.ltb_ge. exact H. Qed.

(** Over the ceiling the validator is one append to the error list. *)
Lemma sized_validator_oversize (lib : Libs) (f : SizedFormat) (content : bytes) (s : St) :
  max_size_mb (sized_rules f) * Fmt.MiB < len_bytes content ->
  sized_validator lib f content s
  = (Ok tt, mkSt (append_error (oversize_message f content) (report s)) (world s)).
Proof.
  intros Hbig.
  destruct f; simpl in Hbig |- *;
    unfold validate_json, validate_parquet, validate_txt; simpl;
    rewrite (size_mb_exceeds_true _ _ Hbig); reflexivity.
Qed.

(** C6: a JSON, Parquet or plain-text payload longer than its ceiling (one
    byte is enough) gets exactly one error and the validator returns at
    once: no decode, load or parse call is made, and the metadata and the
    warnings are what they were. *)
Theorem oversize_rejected_before_decode (lib : Libs) (f : SizedFormat)
    (content : bytes) (s : St) :
  max_size_mb (sized_rules f) * Fmt.MiB < len_bytes content ->
  let out := sized_validator lib f content s in
  out = (Ok tt, mkSt (append_error (oversize_message f content) (report s)) (world s))
  /\ errors (report out.2) = errors (report s) ++ [oversize_message f content]
  /\ metadata (report out.2) = metadata (report s)
  /\ warnings (report out.2) = warnings (report s)
  /\ calls (world out.2) = calls (world s).
Proof.
  intros Hbig out. subst out.
  rewrite (sized_validator_oversize lib f content s Hbig). simpl. auto.
Qed.

Lemma one_byte_over_txt_len : len_bytes one_byte_over_txt = 100 * Fmt.MiB + 1.
Proof.
  unfold one_byte_over_txt, len_bytes. rewrite repeat_length. apply N2Nat.id.
Qed.

Lemma oversize_rejected_before_decode_witness :
  let out := sized_validator no_lib SizedTxt one_byte_over_txt
               (fresh_state "grande.txt" "txt" (100 * Fmt.MiB + 1)) in
  out.1 = Ok tt
  /\ errors (report out.2) = ["TXT excede limite de 100MB (100.0MB)"]
  /\ metadata (report out.2) = []
  /\ calls (world out.2) = [].
Proof.
  pose proof (oversize_rejected_before_decode no_lib SizedTxt one_byte_over_txt
                (fresh_state "grande.txt" "txt" (100 * Fmt.MiB + 1))) as H.
  destruct H as (H1 & H2 & H3 & _ & H5).
  { rewrite one_byte_over_txt_len. reflexivity. }
  split; [rewrite H1; reflexivity|].
  split.
  { rewrite H2. unfold oversize_message. rewrite one_byte_over_txt_len. reflexivity. }
  split; [exact H3 | exact H5].
Defined.

(** ** Frame rules of the monad

    A step relation [P] between the state before and the state after that
    is reflexive and transitive is kept by [ret], [raise], [lift], and by
    [bind], [try_except] and [when] of computations that keep it. *)

Section Frame.

Variable P : St -> St -> Prop.
Hypothesis P_refl : forall s, P s s.
Hypothesis P_trans : forall s1 s2 s3, P s1 s2 -> P s2 s3 -> P s1 s3.

Lemma steps_ret {A} (a : A) : steps P (ret a).
Proof. intros s. apply P_refl. Qed.

Lemma steps_raise {A} (e : Exc) : steps P (@raise A e).
Proof. intros s. apply P_refl. Qed.

Lemma steps_lift {A} (r : Res A) : steps P (lift r).
Proof. intros s. apply P_refl. Qed.

Lemma steps_get_report : steps P get_report.
Proof. intros s. apply P_refl. Qed.

Lemma steps_get_world : steps P get_world.
Proof. intros s. apply P_refl. Qed.

Lemma steps_bind {A B} (m : M A) (k : A -> M B) :
  steps P m -> (forall a, steps P (k a)) -> steps P (bind m k).
Proof.
  intros Hm Hk s. unfold bind. specialize (Hm s).
  destruct (m s) as [[a|e] s1]; simpl in *.
  - eapply P_trans; [exact Hm | apply Hk].
  - exact Hm.
Qed.

Lemma steps_try_except {A} (m : M A) handles (h : Exc -> M A) :
  steps P m -> (forall e, steps P (h e)) -> steps P (try_except m handles h).
Proof.
  intros Hm Hh s. unfold try_except. specialize (Hm s).
  destruct (m s) as [[a|e] s1]; simpl in *.
  - exact Hm.
  - destruct (handles e); simpl.
    + eapply P_trans; [exact Hm | apply Hh].
    + exact Hm.
Qed.

Lemma steps_when (b : bool) (m : M unit) : steps P m -> steps P (when b m).
Proof. intros Hm. destruct b; simpl; [exact Hm | apply steps_ret]. Qed.

End Frame.

(** Decomposes a goal [steps P m] along the structure of [m]; what is left
    are the primitive state changes. *)
Ltac steps_structure refl trans leaf :=
  repeat first
    [ solve [leaf]
    | apply (steps_ret _ refl)
    | apply (steps_raise _ refl)
    | apply (steps_lift _ refl)
    | apply (steps_get_report _ refl)
    | apply (steps_get_world _ refl)
    | apply (steps_bind _ trans); [ | intros ?]
    | apply (steps_try_except _ trans); [ | intros ?]
    | apply (steps_when _ refl)
    | progress cbv beta zeta
    | match goal with
      | |- steps _ (if ?b then _ else _) => destruct b
      | |- steps _ (match ?x with _ => _ end) => destruct x
      end ].

(** ** What the validators and the blob operations leave alone *)

Lemma same_report_refl s : same_report s s.
Proof. reflexivity. Qed.

Lemma same_report_trans s1 s2 s3 :
  same_report s1 s2 -> same_report s2 s3 -> same_report s1 s3.
Proof. unfold same_report. congruence. Qed.

Lemma validator_frame_refl s : validator_frame s s.
Proof. repeat split. Qed.

Lemma validator_frame_trans s1 s2 s3 :
  validator_frame s1 s2 -> validator_frame s2 s3 -> validator_frame s1 s3.
Proof.
  unfold validator_frame. intros (?&?&?&?&?) (?&?&?&?&?). repeat split; congruence.
Qed.

Lemma frame_append_error msg : steps validator_frame (modify_report (append_error msg)).
Proof. intros s. repeat split. Qed.

Lemma frame_append_warning msg : steps validator_frame (modify_report (append_warning msg)).
Proof. intros s. repeat split. Qed.

Lemma frame_set_metadata d : steps validator_frame (modify_report (set_metadata d)).
Proof. intros s. repeat split. Qed.

Lemma frame_record_call c : is_save c = false -> steps validator_frame (record_call c).
Proof.
  intros Hc s. repeat split. unfold saves; simpl.
  rewrite List.filter_app; simpl. rewrite Hc. apply app_nil_r.
Qed.

Create HintDb frame.

#[local] Hint Resolve frame_append_error frame_append_warning frame_set_metadata
  frame_record_call : frame.

Ltac validator_frame_tac :=
  steps_structure validator_frame_refl validator_frame_trans ltac:(auto with frame).

Lemma detect_encoding_frame lib content encs :
  steps validator_frame (detect_encoding lib content encs).
Proof.
  induction encs as [|enc rest IH]; simpl.
  - validator_frame_tac.
  - unfold call_read_csv. validator_frame_tac. 
Qed.

#[local] Hint Resolve detect_encoding_frame : frame.

Lemma validate_csv_frame lib content : steps validator_frame (validate_csv lib content).
Proof. unfold validate_csv, call_read_csv. validator_frame_tac. Qed.

Lemma read_sheets_frame xls sheets total info :
  steps validator_frame (read_sheets xls sheets total info).
Proof.
  revert total info. induction sheets as [|sheet rest IH]; intros total info; simpl.
  - validator_frame_tac.
  - validator_frame_tac.
Qed.

#[local] Hint Resolve read_sheets_frame : frame.

Lemma validate_excel_frame lib content : steps validator_frame (validate_excel lib content).
Proof. unfold validate_excel. validator_frame_tac. Qed.

Lemma validate_json_frame lib content : steps validator_frame (validate_json lib content).
Proof.
  unfold validate_json, call_decode_utf8, call_decode_latin1, call_json_loads.
  validator_frame_tac.
Qed.

Lemma validate_parquet_frame lib content :
  steps validator_frame (validate_parquet lib content).
Proof. unfold validate_parquet. validator_frame_tac. Qed.

Lemma validate_txt_frame content : steps validator_frame (validate_txt content).
Proof.
  unfold validate_txt, call_decode_utf8, call_decode_latin1. validator_frame_tac.
Qed.

#[local] Hint Resolve validate_csv_frame validate_excel_frame validate_json_frame
  validate_parquet_frame validate_txt_frame : frame.

Lemma dispatch_frame lib ext content : steps validator_frame (dispatch lib ext content).
Proof. unfold dispatch. validator_frame_tac. Qed.

(** The blob operations never write to the report. *)

Lemma modify_world_same_report f : steps same_report (modify_world f).
Proof. intros s. reflexivity. Qed.

Lemma utc_now_same_report env : steps same_report (utc_now env).
Proof. intros s. reflexivity. Qed.

Create HintDb same_report.

#[local] Hint Resolve modify_world_same_report utc_now_same_report : same_report.

Ltac same_report_tac :=
  steps_structure same_report_refl same_report_trans ltac:(auto with same_report).

Lemma record_call_same_report c : steps same_report (record_call c).
Proof. unfold record_call. same_report_tac. Qed.

Lemma logging_same_report level msg : steps same_report (logging level msg).
Proof. unfold logging. same_report_tac. Qed.

Lemma logging_entry_same_report e : steps same_report (logging_entry e).
Proof. unfold logging_entry. same_report_tac. Qed.

Lemma set_store_same_report st : steps same_report (set_store st).
Proof. unfold set_store. same_report_tac. Qed.

Lemma injected_same_report env op : steps same_report (injected env op).
Proof. unfold injected. same_report_tac. Qed.

#[local] Hint Resolve record_call_same_report logging_same_report
  logging_entry_same_report set_store_same_report injected_same_report : same_report.

Lemma create_container_same_report env c : steps same_report (create_container env c).
Proof. unfold create_container. same_report_tac. Qed.

Lemma upload_blob_same_report env c name data tags :
  steps same_report (upload_blob env c name data tags).
Proof. unfold upload_blob. same_report_tac. Qed.

Lemma delete_blob_same_report env c name : steps same_report (delete_blob env c name).
Proof. unfold delete_blob. same_report_tac. Qed.

Lemma json_dumps_same_report r : steps same_report (json_dumps r).
Proof. unfold json_dumps. same_report_tac. Qed.

Lemma encode_utf8_same_report env r : steps same_report (encode_utf8 env r).
Proof. unfold encode_utf8. same_report_tac. Qed.

#[local] Hint Resolve create_container_same_report upload_blob_same_report
  delete_blob_same_report json_dumps_same_report encode_utf8_same_report : same_report.

Lemma move_blob_same_report env content path dest r :
  steps same_report (move_blob env content path dest r).
Proof. unfold move_blob, from_connection_string. same_report_tac. Qed.

Lemma save_validation_report_same_report env r :
  steps same_report (save_validation_report env r).
Proof. unfold save_validation_report, from_connection_string. same_report_tac. Qed.

(** ** Computations that cannot raise *)

Lemma returns_ret {A} (a : A) : returns (ret a).
Proof. intros s. by exists a. Qed.

Lemma returns_modify_world f : returns (modify_world f).
Proof. intros s. by exists tt. Qed.

Lemma returns_modify_report f : returns (modify_report f).
Proof. intros s. by exists tt. Qed.

Lemma returns_logging level msg : returns (logging level msg).
Proof. apply returns_modify_world. Qed.

Lemma returns_bind {A B} (m : M A) (k : A -> M B) :
  returns m -> (forall a, returns (k a)) -> returns (bind m k).
Proof.
  intros Hm Hk s. unfold bind. destruct (Hm s) as [a Ha].
  destruct (m s) as [[a'|e] s1]; simpl in Ha; [|discriminate].
  apply Hk.
Qed.

(** [try: m  except Exception: h] returns as soon as the handler does. *)
Lemma returns_try_any {A} (m : M A) (h : Exc -> M A) :
  (forall e, returns (h e)) -> returns (try_except m any_exception h).
Proof.
  intros Hh s. unfold try_except.
  destruct (m s) as [[a|e] s1]; simpl.
  - by exists a.
  - apply Hh.
Qed.

Lemma move_blob_returns env content path dest r :
  returns (move_blob env content path dest r).
Proof.
  unfold move_blob. apply returns_bind; [apply returns_modify_world|intros _].
  destruct (demo_mode env).
  - apply returns_logging.
  - apply returns_try_any. intros e. apply returns_logging.
Qed.

(** Unfolds the updates of the report and of the world. *)
Ltac report_ops :=
  unfold extend_calls, extend_warnings, extend_errors, append_error, append_warning,
    set_metadata, set_valid; simpl.

(** Unfolds the operations of the monad. *)
Ltac run_monad :=
  unfold try_except, bind, when, record_call, logging, logging_entry, set_store,
    modify_world, modify_report, get_report, get_world, lift, raise, ret; simpl.

(** ** Plain text *)

Lemma decode_latin1_length content :
  len_text (Codec.decode_latin1 content) = len_bytes content.
Proof. unfold len_text, len_bytes, Codec.decode_latin1. by rewrite length_map. Qed.

Lemma to_N_line_feed (b : byte) : bool_decide (Byte.to_N b = 10) = Byte.eqb b x0a.
Proof. by destruct b. Qed.

Lemma count_newlines_cons (c : N) (t : text) :
  count_newlines (c :: t) = (if bool_decide (c = 10) then 1 else 0) + count_newlines t.
Proof.
  unfold count_newlines. cbn [filter list_filter].
  destruct (decide (c = 10)) as [Hc|Hc].
  - rewrite bool_decide_eq_true_2 by done. cbn [length].
    rewrite Nat2N.inj_succ, <- N.add_1_l. reflexivity.
  - rewrite bool_decide_eq_false_2 by done. reflexivity.
Qed.

(** The line feeds of the latin-1 text are the bytes 0x0A of the payload. *)
Lemma count_newlines_latin1 (content : bytes) :
  count_newlines (Codec.decode_latin1 content) = lf_bytes content.
Proof.
  unfold Codec.decode_latin1, lf_bytes.
  induction content as [|b content IH]; [reflexivity|].
  cbn [map List.filter]. rewrite count_newlines_cons, IH, to_N_line_feed.
  destruct (Byte.eqb b x0a); simpl; lia.
Qed.

(** C10: a plain-text payload within the size ceiling that is not UTF-8 is
    decoded as latin-1; the metadata then holds the line and character
    counts of the latin-1 text, that is one more than the number of 0x0A
    bytes of the payload and the number of its bytes, and still records the
    encoding as 'utf-8'.  No error is added. *)
Theorem txt_fallback_still_says_utf8 (content : bytes) (s : St) :
  len_bytes content <= max_size_mb (rules_txt VALIDATION_RULES) * Fmt.MiB ->
  Codec.decode_utf8 content = None ->
  let out := validate_txt content s in
  out.1 = Ok tt
  /\ metadata (report out.2) =
       [ ("lines", VCount (count_newlines (Codec.decode_latin1 content) + 1));
         ("characters", VCount (len_text (Codec.decode_latin1 content)));
         ("encoding", VStr "utf-8") ]
  /\ metadata (report out.2) =
       [ ("lines", VCount (lf_bytes content + 1));
         ("characters", VCount (len_bytes content));
         ("encoding", VStr "utf-8") ]
  /\ len_text (Codec.decode_latin1 content) = len_bytes content
  /\ errors (report out.2) = errors (report s)
  /\ warnings (report out.2) = warnings (report s)
  /\ calls (world out.2) = calls (world s) ++ [CallDecode "utf-8"; CallDecode "latin-1"].
Proof.
  intros Hsize Hutf out. subst out.
  unfold validate_txt. rewrite (size_mb_exceeds_false _ _ Hsize).
  unfold call_decode_utf8, call_decode_latin1. rewrite Hutf.
  unfold try_except, bind, record_call, modify_world, modify_report, raise, ret; simpl.
  split_and!; try reflexivity.
  - by rewrite count_newlines_latin1, decode_latin1_length.
  - apply decode_latin1_length.
  - by rewrite <- app_assoc.
Qed.

Lemma txt_fallback_still_says_utf8_witness :
  let out := validate_txt latin1_two_lines (fresh_state "nota.txt" "txt" 3) in
  out.1 = Ok tt
  /\ metadata (report out.2) =
       [ ("lines", VCount 2); ("characters", VCount 3); ("encoding", VStr "utf-8") ]
  /\ errors (report out.2) = [].
Proof.
  pose proof (txt_fallback_still_says_utf8 latin1_two_lines
                (fresh_state "nota.txt" "txt" 3)) as H.
  simpl in H. destruct H as (H1 & _ & H2 & _ & H4 & _);
    [vm_compute; discriminate | reflexivity |].
  repeat split; assumption.
Defined.

(** ** Spreadsheets *)

Lemma sheet_reads_app w l :
  List.filter is_sheet_read (calls w ++ l) = sheet_reads w ++ List.filter is_sheet_read l.
Proof. unfold sheet_reads. apply List.filter_app. Qed.

(** Over the sheet ceiling both copies of the validator stop after opening
    the workbook, with one error added. *)
Lemma validate_excel_too_many_sheets (lib : Libs) (content : bytes) (xls : ExcelFile)
    (s : St) :
  pd_ExcelFile lib content = Ok xls ->
  max_sheets (rules_xlsx VALIDATION_RULES) < sheet_count xls ->
  validate_excel lib content s
  = (Ok tt, mkSt (append_error (too_many_sheets_message (sheet_count xls)) (report s))
              (extend_calls [CallExcelFile] (world s)))
  /\ AzureFunction.validate_excel lib content s
    = (Ok None, mkSt (append_error (too_many_sheets_message_2 (sheet_count xls)) (report s))
                  (extend_calls [CallExcelFile] (world s))).
Proof.
  intros Hopen Hmany.
  apply N.ltb_lt in Hmany. unfold sheet_count in *.
  unfold validate_excel, AzureFunction.validate_excel.
  unfold try_except, bind, record_call, modify_world, modify_report, lift, ret; simpl.
  rewrite Hopen; simpl. simpl in Hmany. rewrite Hmany; simpl.
  split; reflexivity.
Qed.

(** C3: a workbook with more sheets than the ceiling gets exactly one error,
    which names the count, and the validator returns without reading a
    sheet: the only library call is the opening of the workbook, and the
    metadata (so any [sheets_detail]) and the warnings are what they were.
    Both copies of the function behave so. *)
Theorem too_many_sheets_reads_none (lib : Libs) (content : bytes) (xls : ExcelFile)
    (s : St) :
  pd_ExcelFile lib content = Ok xls ->
  max_sheets (rules_xlsx VALIDATION_RULES) < sheet_count xls ->
  let out := validate_excel lib content s in
  let out2 := AzureFunction.validate_excel lib content s in
  (out.1 = Ok tt
   /\ errors (report out.2) = errors (report s) ++ [too_many_sheets_message (sheet_count xls)]
   /\ metadata (report out.2) = metadata (report s)
   /\ warnings (report out.2) = warnings (report s)
   /\ calls (world out.2) = calls (world s) ++ [CallExcelFile]
   /\ sheet_reads (world out.2) = sheet_reads (world s))
  /\
  (out2.1 = Ok None
   /\ errors (report out2.2) = errors (report s) ++ [too_many_sheets_message_2 (sheet_count xls)]
   /\ metadata (report out2.2) = metadata (report s)
   /\ warnings (report out2.2) = warnings (report s)
   /\ calls (world out2.2) = calls (world s) ++ [CallExcelFile]
   /\ sheet_reads (world out2.2) = sheet_reads (world s)).
Proof.
  intros Hopen Hmany out out2. subst out out2.
  destruct (validate_excel_too_many_sheets lib content xls s Hopen Hmany) as [-> ->].
  unfold sheet_reads; simpl. rewrite List.filter_app; simpl. rewrite app_nil_r.
  repeat split.
Qed.

Lemma read_sheets_spec (xls : ExcelFile) (sheets : list string) (total : N)
    (info : PyDict) (s : St) :
  let read := readable_sheets xls sheets in
  read_sheets xls sheets total info s =
    (Ok (total + total_rows_of read, sheets_detail_of read info),
     mkSt (extend_warnings (read_warnings xls sheets)
             (extend_errors (column_errors read) (report s)))
          (extend_calls (map CallReadExcel sheets) (world s))).
Proof.
  revert total info s.
  induction sheets as [|sheet rest IH]; intros total info [r w].
  - simpl. unfold ret, extend_warnings, extend_errors, extend_calls; simpl.
    destruct r, w; simpl. by rewrite N.add_0_r, !app_nil_r.
  - simpl. unfold bind at 1. unfold try_except, bind, record_call, modify_world, lift.
    simpl. destruct (parse xls sheet) as [df|e]; simpl.
    + fold (column_error sheet (df_cols df)).
      change (xlsx_max_columns (rules_xlsx VALIDATION_RULES)) with 500.
      destruct (500 <? df_cols df) eqn:Hc; simpl; rewrite IH; simpl;
        unfold extend_warnings, extend_errors, extend_calls; simpl;
        rewrite <- ?app_assoc, N.add_assoc; reflexivity.
    + rewrite IH; simpl.
      unfold extend_warnings, extend_errors, extend_calls; simpl.
      rewrite <- ?app_assoc. reflexivity.
Qed.

Lemma too_many_sheets_reads_none_witness :
  let out := validate_excel (lib_with_workbook workbook_51) []
               (fresh_state "livro.xlsx" "xlsx" 0) in
  out.1 = Ok tt
  /\ errors (report out.2) = ["Excel excede limite de 50 abas (51 encontradas)"]
  /\ metadata (report out.2) = []
  /\ sheet_reads (world out.2) = [].
Proof.
  pose proof (too_many_sheets_reads_none (lib_with_workbook workbook_51) []
                workbook_51 (fresh_state "livro.xlsx" "xlsx" 0)) as H.
  destruct H as [(H1 & H2 & H3 & _ & _ & H6) _]; [reflexivity | reflexivity |].
  repeat split; assumption.
Defined.

(** C4: within the sheet ceiling every sheet is read, in workbook order.  A
    sheet whose read fails adds one warning and counts for nothing; every
    readable sheet with more columns than the ceiling adds its own error;
    the row total of the readable sheets is compared with the row ceiling
    once, after the last sheet, so that error comes after the column
    errors.  The metadata holds the counts of the readable sheets. *)
Theorem sheets_are_checked_one_by_one (lib : Libs) (content : bytes)
    (xls : ExcelFile) (s : St) :
  pd_ExcelFile lib content = Ok xls ->
  sheet_count xls <= max_sheets (rules_xlsx VALIDATION_RULES) ->
  let out := validate_excel lib content s in
  let read := readable_sheets xls (sheet_names xls) in
  let total_rows := total_rows_of read in
  out.1 = Ok tt
  /\ calls (world out.2)
     = calls (world s) ++ CallExcelFile :: map CallReadExcel (sheet_names xls)
  /\ warnings (report out.2) = warnings (report s) ++ read_warnings xls (sheet_names xls)
  /\ errors (report out.2)
     = errors (report s) ++ column_errors read
       ++ (if xlsx_max_rows (rules_xlsx VALIDATION_RULES) <? total_rows
           then [total_rows_error total_rows] else [])
  /\ metadata (report out.2)
     = [ ("sheet_count", VCount (sheet_count xls));
         ("sheet_names", VStrs (sheet_names xls));
         ("total_rows", VCount total_rows);
         ("sheets_detail",
          VDict (map (fun kv => (VStr kv.1, kv.2)) (sheets_detail_of read []))) ].
Proof.
  intros Hopen Hfew out read total_rows.
  assert (Hout : out =
    (Ok tt,
     mkSt (set_metadata
             [ ("sheet_count", VCount (sheet_count xls));
               ("sheet_names", VStrs (sheet_names xls));
               ("total_rows", VCount total_rows);
               ("sheets_detail",
                VDict (map (fun kv => (VStr kv.1, kv.2)) (sheets_detail_of read []))) ]
             (extend_errors
                (if xlsx_max_rows (rules_xlsx VALIDATION_RULES) <? total_rows
                 then [total_rows_error total_rows] else [])
                (extend_warnings (read_warnings xls (sheet_names xls))
                   (extend_errors (column_errors read) (report s)))))
          (extend_calls (CallExcelFile :: map CallReadExcel (sheet_names xls))
             (world s)))).
  { subst out read total_rows.
    apply N.ltb_ge in Hfew. unfold sheet_count in *.
    unfold validate_excel.
    unfold try_except at 1. unfold bind at 1. unfold bind at 1.
    unfold record_call, modify_world, lift, ret; simpl.
    rewrite Hopen; simpl. simpl in Hfew. rewrite Hfew.
    unfold bind at 1. rewrite read_sheets_spec. simpl. rewrite N.add_0_l.
    destruct (1048576 <? total_rows_of (readable_sheets xls (sheet_names xls)));
      unfold bind, when, modify_report, ret, extend_calls, extend_errors,
        extend_warnings, append_error, set_metadata; simpl;
      rewrite <- ?app_assoc, ?app_nil_r; reflexivity. }
  rewrite Hout. simpl. rewrite <- app_assoc. repeat split.
Qed.

Lemma sheets_are_checked_one_by_one_witness :
  let out := validate_excel (lib_with_workbook workbook_mixed) []
               (fresh_state "livro.xlsx" "xlsx" 0) in
  out.1 = Ok tt
  /\ calls (world out.2)
     = [CallExcelFile; CallReadExcel "Resumo"; CallReadExcel "Quebrada";
        CallReadExcel "Larga"; CallReadExcel "Larga2"]
  /\ warnings (report out.2) = ["Erro ao ler aba " +:+ dq +:+ "Quebrada" +:+ dq +:+ ": bad sheet xml"]
  /\ errors (report out.2)
     = [ "Aba " +:+ dq +:+ "Larga" +:+ dq +:+ " excede 500 colunas (501)";
         "Aba " +:+ dq +:+ "Larga2" +:+ dq +:+ " excede 500 colunas (502)" ]
  /\ dict_get "total_rows" (metadata (report out.2)) = Some (VInt 17).
Proof.
  pose proof (sheets_are_checked_one_by_one (lib_with_workbook workbook_mixed) []
                workbook_mixed (fresh_state "livro.xlsx" "xlsx" 0)) as H.
  destruct H as (H1 & H2 & H3 & H4 & H5); [reflexivity | vm_compute; discriminate |].
  split; [exact H1|]. split; [exact H2|]. split; [exact H3|]. split; [exact H4|].
  rewrite H5. reflexivity.
Defined.

(** ** Delimited text *)

Lemma detect_encoding_same_report lib content encs :
  steps same_report (detect_encoding lib content encs).
Proof.
  induction encs as [|enc rest IH]; simpl.
  - same_report_tac.
  - unfold call_read_csv. same_report_tac.
Qed.

(** What [validate_csv] does once an encoding is found and the full parse
    succeeds. *)
Lemma validate_csv_parsed (lib : Libs) (content : bytes) (enc : string)
    (df5 df : DataFrame) (s : St) :
  (detect_encoding lib content (required_encoding (rules_csv VALIDATION_RULES)) s).1
    = Ok (Some (enc, df5)) ->
  pd_read_csv lib content enc None = Ok df ->
  let out := validate_csv lib content s in
  out.1 = Ok tt
  /\ errors (report out.2)
     = errors (report s)
       ++ (if csv_max_rows (rules_csv VALIDATION_RULES) <? df_rows df
           then [csv_rows_error (df_rows df)] else [])
       ++ (if csv_max_columns (rules_csv VALIDATION_RULES) <? df_cols df
           then [csv_columns_error (df_cols df)] else [])
  /\ warnings (report out.2)
     = warnings (report s)
       ++ (if bool_decide (duplicated (df_columns df) = []) then []
           else [csv_duplicates_warning (duplicated (df_columns df))])
       ++ (if 0 <? df_empty_rows df
           then [csv_empty_rows_warning (df_empty_rows df)] else [])
  /\ metadata (report out.2) = csv_metadata enc df.
Proof.
  intros Hdetect Hfull out.
  set (E := (if csv_max_rows (rules_csv VALIDATION_RULES) <? df_rows df
             then [csv_rows_error (df_rows df)] else [])
            ++ (if csv_max_columns (rules_csv VALIDATION_RULES) <? df_cols df
                then [csv_columns_error (df_cols df)] else [])).
  set (W := (if bool_decide (duplicated (df_columns df) = []) then []
             else [csv_duplicates_warning (duplicated (df_columns df))])
            ++ (if 0 <? df_empty_rows df
                then [csv_empty_rows_warning (df_empty_rows df)] else [])).
  assert (Hout : out =
    (Ok tt,
     mkSt (set_metadata (csv_metadata enc df)
             (extend_warnings W (extend_errors E (report s))))
          (extend_calls [CallReadCsv enc None]
             (world (detect_encoding lib content
                       (required_encoding (rules_csv VALIDATION_RULES)) s).2)))).
  { subst out E W. unfold validate_csv. unfold bind at 1.
    pose proof (detect_encoding_same_report lib content
                  (required_encoding (rules_csv VALIDATION_RULES)) s) as Hsame.
    unfold same_report in Hsame.
    destruct (detect_encoding lib content _ s) as [res s1].
    simpl in Hdetect, Hsame. subst res.
    unfold call_read_csv, try_except, bind, record_call, modify_world, lift, ret; simpl.
    rewrite Hfull; simpl.
    unfold csv_rows_error, csv_columns_error, csv_duplicates_warning,
      csv_empty_rows_warning, csv_metadata, when, modify_report, ret; simpl.
    destruct (10000000 <? df_rows df), (500 <? df_cols df),
      (bool_decide (duplicated (df_columns df) = [])), (0 <? df_empty_rows df);
      simpl; rewrite ?Hsame; report_ops; rewrite <- ?app_assoc, ?app_nil_r;
      reflexivity. }
  rewrite Hout. simpl. subst E W. rewrite <- ?app_assoc. tauto.
Qed.

(** C5: on a delimited-text file that parses, the row count and the column
    count are each compared with their ceiling, the second whatever the
    first gave: the errors added are the row error when the rows exceed,
    followed by the column error when the columns exceed, so a file over
    both ceilings gets both. *)
Theorem csv_limits_checked_independently (lib : Libs) (content : bytes)
    (enc : string) (df5 df : DataFrame) (s : St) :
  (detect_encoding lib content (required_encoding (rules_csv VALIDATION_RULES)) s).1
    = Ok (Some (enc, df5)) ->
  pd_read_csv lib content enc None = Ok df ->
  let out := validate_csv lib content s in
  let rows_over := csv_max_rows (rules_csv VALIDATION_RULES) <? df_rows df in
  let cols_over := csv_max_columns (rules_csv VALIDATION_RULES) <? df_cols df in
  out.1 = Ok tt
  /\ errors (report out.2)
     = errors (report s)
       ++ (if rows_over then [csv_rows_error (df_rows df)] else [])
       ++ (if cols_over then [csv_columns_error (df_cols df)] else [])
  /\ (rows_over = true -> cols_over = true ->
      errors (report out.2)
      = errors (report s) ++ [csv_rows_error (df_rows df); csv_columns_error (df_cols df)]).
Proof.
  intros Hdetect Hfull out rows_over cols_over.
  destruct (validate_csv_parsed lib content enc df5 df s Hdetect Hfull)
    as (Hok & Herr & _).
  split; [exact Hok|]. split; [exact Herr|].
  intros Hr Hc. subst out. rewrite Herr. subst rows_over cols_over.
  rewrite Hr, Hc. reflexivity.
Qed.

Lemma csv_limits_checked_independently_witness :
  let out := validate_csv (lib_with_csv frame_over_both) []
               (fresh_state "vendas.csv" "csv" 0) in
  out.1 = Ok tt
  /\ errors (report out.2)
     = [ "CSV excede limite de 10,000,000 linhas (10,000,001 encontradas)";
         "CSV excede limite de 500 colunas (501 encontradas)" ].
Proof.
  pose proof (csv_limits_checked_independently (lib_with_csv frame_over_both) []
                "utf-8" frame_over_both frame_over_both
                (fresh_state "vendas.csv" "csv" 0)) as H.
  destruct H as (H1 & _ & H3); [reflexivity | reflexivity |].
  split; [exact H1|]. apply H3; reflexivity.
Defined.

Example csv_a_a_b_bytes :
  csv_a_a_b = [x61; x2c; x61; x2c; x62; x0a; x31; x2c; x32; x2c; x33; x0a].
Proof. reflexivity. Qed.

(** The duplicate-name warning is added exactly when the column index of
    the parsed frame has a repeated label. *)
Lemma csv_duplicate_warning_iff (lib : Libs) (content : bytes) (enc : string)
    (df5 df : DataFrame) (s : St) :
  (detect_encoding lib content (required_encoding (rules_csv VALIDATION_RULES)) s).1
    = Ok (Some (enc, df5)) ->
  pd_read_csv lib content enc None = Ok df ->
  csv_duplicates_warning (duplicated (df_columns df))
    ∈ drop (length (warnings (report s)))
        (warnings (report (validate_csv lib content s).2))
  <-> duplicated (df_columns df) <> [].
Proof.
  intros Hdetect Hfull.
  destruct (validate_csv_parsed lib content enc df5 df s Hdetect Hfull)
    as (_ & _ & Hw & _).
  rewrite Hw, drop_app_length.
  case_bool_decide as Hdup; simpl.
  - split; [|congruence]. intros Hin.
    destruct (0 <? df_empty_rows df); simpl in Hin.
    + apply list_elem_of_singleton in Hin. exfalso.
      unfold csv_duplicates_warning, csv_empty_rows_warning in Hin.
      rewrite Hdup in Hin. simpl in Hin.
      destruct (Fmt.str_N (df_empty_rows df)) as [|c rest] eqn:Hstr.
      * simpl in Hin. discriminate.
      * simpl in Hin. injection Hin as Hc _.
        unfold Fmt.str_N in Hstr.
        destruct (N.to_uint (df_empty_rows df)); simpl in Hstr;
          try discriminate; injection Hstr as Hc' _; subst c; discriminate.
    + by apply not_elem_of_nil in Hin.
  - split; [intros _; exact Hdup|]. intros _. apply list_elem_of_here.
Qed.

(** C8: the file [a,a,b / 1,2,3] is parsed by pandas into the columns a,
    a.1 and b.  On that frame the validator completes, with the row and
    column counts in the metadata, adds no error, and adds no warning: the
    repeated name is not reported. *)
Theorem duplicate_header_is_not_reported (lib : Libs) (s : St) :
  pd_read_csv lib csv_a_a_b "utf-8" (Some 5) = Ok frame_a_a1_b ->
  pd_read_csv lib csv_a_a_b "utf-8" None = Ok frame_a_a1_b ->
  let out := validate_csv lib csv_a_a_b s in
  out.1 = Ok tt
  /\ warnings (report out.2) = warnings (report s)
  /\ errors (report out.2) = errors (report s)
  /\ dict_get "rows" (metadata (report out.2)) = Some (VInt 1)
  /\ dict_get "columns" (metadata (report out.2)) = Some (VInt 3)
  /\ dict_get "column_names" (metadata (report out.2)) = Some (VStrs ["a"; "a.1"; "b"]).
Proof.
  intros H5 Hfull out.
  assert (Hdetect :
    (detect_encoding lib csv_a_a_b (required_encoding (rules_csv VALIDATION_RULES)) s).1
    = Ok (Some ("utf-8", frame_a_a1_b))).
  { simpl. unfold call_read_csv. run_monad. rewrite H5. reflexivity. }
  destruct (validate_csv_parsed lib csv_a_a_b "utf-8" frame_a_a1_b frame_a_a1_b s
              Hdetect Hfull) as (Hok & Herr & Hw & Hmeta).
  subst out. rewrite Hok, Herr, Hw, Hmeta. simpl. rewrite !app_nil_r. repeat split.
Qed.

Lemma duplicate_header_is_not_reported_witness :
  let out := validate_csv (lib_with_csv frame_a_a1_b) csv_a_a_b
               (fresh_state "dados.csv" "csv" 12) in
  out.1 = Ok tt
  /\ warnings (report out.2) = []
  /\ errors (report out.2) = [].
Proof.
  pose proof (duplicate_header_is_not_reported (lib_with_csv frame_a_a1_b)
                (fresh_state "dados.csv" "csv" 12)) as H.
  destruct H as (H1 & H2 & H3 & _); [reflexivity | reflexivity |].
  split; [exact H1|]. split; [exact H2 | exact H3].
Defined.

(** Had the reader kept the repeated name, the warning would be there. *)
Example unrenamed_header_is_reported :
  warnings (report (validate_csv (lib_with_csv frame_a_a_b_unrenamed) csv_a_a_b
                      (fresh_state "dados.csv" "csv" 12)).2)
  = ["Colunas duplicadas encontradas: ['a']"].
Proof. reflexivity. Qed.

(** ** The move *)

Lemma stored_blob_new_container (w : World) (c' c name : string) st :
  store w !! c' = None ->
  st = <[c' := ∅]> (store w) ->
  (st !! c ≫= fun blobs : gmap string Blob => blobs !! name) = stored_blob w c name.
Proof.
  intros Hnone ->. unfold stored_blob.
  destruct (decide (c' = c)) as [->|Hne].
  - rewrite lookup_insert_eq, Hnone. simpl. apply lookup_empty.
  - by rewrite lookup_insert_ne.
Qed.

(** C2 (as the code has it): when the store refuses the upload, [move_blob]
    catches the exception, logs it as an error and returns normally; no blob
    of any container is changed (the source is still there, nothing is
    written to the destination), and the report is not touched. *)
Theorem copy_failure_is_logged (env : Env) (content : bytes)
    (original_path destination_container : string) (r : Report) (s : St) (e : Exc) :
  demo_mode env = false ->
  fault env OpConnect = None ->
  fault env (OpUpload destination_container (relative_path original_path)) = Some e ->
  let out := move_blob env content original_path destination_container r s in
  out.1 = Ok tt
  /\ (forall c name, stored_blob (world out.2) c name = stored_blob (world s) c name)
  /\ log (world out.2) = log (world s) ++ [Log ERROR ("Erro ao mover blob: " +:+ exc_str e)]
  /\ report out.2 = report s.
Proof.
  intros Hdemo Hconn Hup out. subst out.
  unfold move_blob. rewrite Hdemo.
  unfold from_connection_string, create_container, upload_blob, injected.
  fold (relative_path original_path). rewrite Hconn, Hup.
  destruct s as [rep w].
  destruct (fault env (OpCreateContainer destination_container)) as [e1|] eqn:Hcc.
  - unfold utc_now. run_monad. repeat split.
  - unfold utc_now. run_monad.
    destruct (store w !! destination_container) as [blobs|] eqn:Hdest; simpl.
    + repeat split.
    + split; [reflexivity|]. split; [|split; reflexivity].
      intros c name. unfold stored_blob at 1; simpl.
      by apply (stored_blob_new_container w destination_container).
Qed.

Lemma copy_failure_is_logged_witness :
  let out := move_blob (env_connected uploads_fail) sample_content sample_path
               STAGING_CONTAINER (set_valid true (fresh_report "nota.txt" "txt" 3))
               (mkSt (set_valid true (fresh_report "nota.txt" "txt" 3)) world_with_sample) in
  out.1 = Ok tt
  /\ stored_blob (world out.2) UPLOADS_CONTAINER (relative_path sample_path)
     = Some (mkBlob (RawBytes sample_content) [])
  /\ stored_blob (world out.2) STAGING_CONTAINER (relative_path sample_path) = None
  /\ log (world out.2)
     = [Log ERROR "Erro ao mover blob: Server failed to authenticate the request."].
Proof.
  pose proof (copy_failure_is_logged (env_connected uploads_fail) sample_content
                sample_path STAGING_CONTAINER
                (set_valid true (fresh_report "nota.txt" "txt" 3))
                (mkSt (set_valid true (fresh_report "nota.txt" "txt" 3)) world_with_sample)
                (mkExc OtherException "Server failed to authenticate the request.")) as H.
  destruct H as (H1 & H2 & H3 & _); [reflexivity | reflexivity | reflexivity |].
  split; [exact H1|]. split; [rewrite H2; reflexivity|].
  split; [rewrite H2; reflexivity | exact H3].
Defined.

(** C2 as the specification states it fails on the sample blob: the upload
    to staging is refused, and [move_blob] returns instead of raising. *)
Lemma copy_failure_does_not_propagate :
  ~ copy_failure_propagates (env_connected uploads_fail) sample_content sample_path
      STAGING_CONTAINER (set_valid true (fresh_report "nota.txt" "txt" 3))
      (mkSt (set_valid true (fresh_report "nota.txt" "txt" 3)) world_with_sample).
Proof.
  intros H.
  specialize (H (mkExc OtherException "Server failed to authenticate the request.")
                eq_refl).
  vm_compute in H. discriminate.
Qed.

(** ** The decision *)

Lemma same_calls_refl s : same_calls s s.
Proof. reflexivity. Qed.

Lemma same_calls_trans s1 s2 s3 : same_calls s1 s2 -> same_calls s2 s3 -> same_calls s1 s3.
Proof. unfold same_calls. congruence. Qed.

Create HintDb same_calls.

Ltac same_calls_tac :=
  steps_structure same_calls_refl same_calls_trans ltac:(auto with same_calls).

Lemma logging_same_calls level msg : steps same_calls (logging level msg).
Proof. intros s. reflexivity. Qed.

Lemma logging_entry_same_calls e : steps same_calls (logging_entry e).
Proof. intros s. reflexivity. Qed.

Lemma set_store_same_calls st : steps same_calls (set_store st).
Proof. intros s. reflexivity. Qed.

Lemma utc_now_same_calls env : steps same_calls (utc_now env).
Proof. intros s. reflexivity. Qed.

Lemma modify_report_same_calls f : steps same_calls (modify_report f).
Proof. intros s. reflexivity. Qed.

#[local] Hint Resolve logging_same_calls logging_entry_same_calls set_store_same_calls
  utc_now_same_calls modify_report_same_calls : same_calls.

Lemma injected_same_calls env op : steps same_calls (injected env op).
Proof. unfold injected. same_calls_tac. Qed.

#[local] Hint Resolve injected_same_calls : same_calls.

Lemma create_container_same_calls env c : steps same_calls (create_container env c).
Proof. unfold create_container. same_calls_tac. Qed.

Lemma upload_blob_same_calls env c name data tags :
  steps same_calls (upload_blob env c name data tags).
Proof. unfold upload_blob. same_calls_tac. Qed.

Lemma delete_blob_same_calls env c name : steps same_calls (delete_blob env c name).
Proof. unfold delete_blob. same_calls_tac. Qed.

Lemma json_dumps_same_calls r : steps same_calls (json_dumps r).
Proof. unfold json_dumps. same_calls_tac. Qed.

Lemma encode_utf8_same_calls env r : steps same_calls (encode_utf8 env r).
Proof. unfold encode_utf8. same_calls_tac. Qed.

#[local] Hint Resolve create_container_same_calls upload_blob_same_calls
  delete_blob_same_calls json_dumps_same_calls encode_utf8_same_calls : same_calls.

(** A call of [move_blob] is recorded once, and no other call is made. *)
Lemma move_blob_calls env content path dest r s :
  calls (world (move_blob env content path dest r s).2)
  = calls (world s) ++ [CallMoveBlob dest].
Proof.
  unfold move_blob. unfold bind at 1. unfold record_call at 1, modify_world at 1.
  match goal with |- calls (world (?m ?s1).2) = _ =>
    assert (Hrest : steps same_calls m)
  end.
  { unfold from_connection_string. same_calls_tac. }
  rewrite Hrest. reflexivity.
Qed.



#[local] Hint Resolve dispatch_frame : frame.

Lemma validate_frame lib blob : steps validator_frame (validate lib blob).
Proof. unfold validate. validator_frame_tac. Qed.

(** The validators never write the [valid] key. *)
Lemma validate_keeps_valid lib blob s :
  valid (report (validate lib blob s).2) = valid (report s).
Proof.
  destruct (validate_frame lib blob s) as (Hid & _).
  unfold identity_of in Hid. congruence.
Qed.

(** What [decide_destination] does, in terms of the one call of [move_blob]
    it makes. *)
Lemma decide_destination_unfold env content name s :
  let r := if bool_decide (errors (report s) = [])
           then set_valid true (report s) else report s in
  let moved := move_blob env content name (destination_for (report s)) r
                 (mkSt r (world s)) in
  (decide_destination env content name s).1 = Ok tt
  /\ report (decide_destination env content name s).2 = r
  /\ calls (world (decide_destination env content name s).2) = calls (world moved.2)
  /\ store (world (decide_destination env content name s).2) = store (world moved.2).
Proof.
  intros r moved.
  assert (Heq : exists entry,
    decide_destination env content name s =
    (Ok tt, mkSt r (mkWorld (store (world moved.2)) (clock_reads (world moved.2))
                      (log (world moved.2) ++ [entry]) (calls (world moved.2))))).
  { subst r moved.
    pose proof (move_blob_returns env content name) as Hret.
    pose proof (move_blob_same_report env content name) as Hsame.
    unfold decide_destination, destination_for.
    unfold bind, get_report, modify_report, logging, modify_world. cbn [report world].
    destruct s as [rep w]. cbn [report world].
    destruct (bool_decide (errors rep = [])).
    - specialize (Hret STAGING_CONTAINER (set_valid true rep)
                    (mkSt (set_valid true rep) w)).
      specialize (Hsame STAGING_CONTAINER (set_valid true rep)
                    (mkSt (set_valid true rep) w)).
      unfold same_report in Hsame.
      destruct (move_blob _ _ _ _ _ _) as [res s3]. destruct Hret as [[] Hres].
      simpl in Hres, Hsame. subst res. simpl. rewrite Hsame. eauto.
    - specialize (Hret REJECTED_CONTAINER rep (mkSt rep w)).
      specialize (Hsame REJECTED_CONTAINER rep (mkSt rep w)).
      unfold same_report in Hsame.
      destruct (move_blob _ _ _ _ _ _) as [res s3]. destruct Hret as [[] Hres].
      simpl in Hres, Hsame. subst res. simpl. rewrite Hsame. eauto. }
  destruct Heq as [entry Heq]. rewrite Heq. simpl. auto.
Qed.




(** When the validator raises, the handler adds the internal error and
    saves the report, and [move_blob] is not called: the blob stays where
    it was uploaded. *)
Example validator_exception_skips_the_move :
  let out := process_uploaded_file lib_empty_csv (env_connected no_fault)
               empty_csv_stream world_with_empty_csv in
  out.1 = Ok tt
  /\ errors (report out.2) = ["Erro interno: No columns to parse from file"]
  /\ valid (report out.2) = false
  /\ stored_blob (world out.2) REJECTED_CONTAINER (relative_path empty_csv_path) = None
  /\ stored_blob (world out.2) UPLOADS_CONTAINER (relative_path empty_csv_path)
     = Some (mkBlob (RawBytes empty_csv_content) [])
  /\ length (saves (world out.2)) = 1%nat.
Proof. vm_compute. repeat split. Qed.

(** ** The emitter *)

(** C7 at the failing run: no connection string, and a workbook whose header
    row holds a date.  The report is not JSON-serialisable, so the call of
    [save_validation_report] that ends the [try] raises TypeError inside
    the logging of the demonstration branch; the handler adds the internal
    error and calls [save_validation_report] again, which raises again.
    The emitter has been invoked twice, nothing was emitted, and the
    exception leaves the function. *)
Theorem unserialisable_report_is_saved_twice :
  let out := process_uploaded_file (lib_with_workbook workbook_dated) env_demo
               xlsx_stream world_with_xlsx in
  out.1 = Raise (mkExc TypeError "Object of type datetime is not JSON serializable")
  /\ length (saves (world out.2)) = 2%nat
  /\ List.filter is_demo_report (log (world out.2)) = []
  /\ errors (report out.2)
     = ["Erro interno: Object of type datetime is not JSON serializable"]
  /\ valid (report out.2) = true.
Proof. vm_compute. repeat split. Qed.

Lemma process_uploaded_file_unfold lib env blob n w :
  stream_length blob = Some n ->
  process_uploaded_file lib env blob w = process_body lib env blob (trigger_state env blob n w).
Proof. intros Hlen. unfold process_uploaded_file, trigger_state, entry_state. by rewrite Hlen. Qed.

Lemma save_validation_report_calls env r s :
  calls (world (save_validation_report env r s).2) = calls (world s) ++ [CallSaveReport r].
Proof.
  unfold save_validation_report. unfold bind at 1. unfold record_call at 1, modify_world at 1.
  match goal with |- calls (world (?m ?s1).2) = _ =>
    assert (Hrest : steps same_calls m)
  end.
  { unfold from_connection_string. same_calls_tac. }
  rewrite Hrest. reflexivity.
Qed.

Lemma save_validation_report_saves env r s :
  saves (world (save_validation_report env r s).2) = saves (world s) ++ [CallSaveReport r].
Proof.
  unfold saves. rewrite save_validation_report_calls, List.filter_app. reflexivity.
Qed.

(** The emitter raises in one case only: no connection string and a report
    that [json.dumps] refuses. *)
Lemma save_validation_report_result env r s :
  (save_validation_report env r s).1
  = if demo_mode env
    then match Json.dumps_report_error r with
         | Some msg => Raise (mkExc TypeError msg)
         | None => Ok tt
         end
    else Ok tt.
Proof.
  unfold save_validation_report.
  destruct (demo_mode env).
  - unfold json_dumps. destruct (Json.dumps_report_error r); reflexivity.
  - assert (Hret : returns
      (try_except
         (from_connection_string env;;
          try_except (create_container env NOTIFICATIONS_CONTAINER) any_exception
            (fun _ => ret tt);;
          let* now := utc_now env in
          json_dumps r;;
          encode_utf8 env r;;
          upload_blob env NOTIFICATIONS_CONTAINER
            (client r +:+ "/" +:+ ymd now +:+ "/" +:+ filename r +:+ "_report.json")
            (ReportJson r) [];;
          logging INFO ("Relatório salvo: " +:+ client r +:+ "/" +:+ ymd now +:+ "/"
                        +:+ filename r +:+ "_report.json"))
         any_exception
         (fun e => logging ERROR ("Erro ao salvar relatório: " +:+ exc_str e)))).
    { apply returns_try_any. intros e. apply returns_logging. }
    unfold bind at 1. unfold record_call at 1, modify_world at 1.
    match goal with |- (?m ?s1).1 = _ => destruct (Hret s1) as [[] Ha] end.
    exact Ha.
Qed.

Lemma decide_destination_saves env content name s :
  saves (world (decide_destination env content name s).2) = saves (world s).
Proof.
  destruct (decide_destination_unfold env content name s) as (_ & _ & Hcalls & _).
  unfold saves. rewrite Hcalls, move_blob_calls, List.filter_app. simpl.
  apply app_nil_r.
Qed.

Lemma decide_destination_metadata env content name s :
  metadata (report (decide_destination env content name s).2) = metadata (report s).
Proof.
  destruct (decide_destination_unfold env content name s) as (_ & Hrep & _).
  rewrite Hrep. by destruct (bool_decide _).
Qed.

(** How often a run calls the emitter: once, except that a first call that
    raises is followed by the call of the handler. *)
Lemma emitter_call_count (lib : Libs) (env : Env) (blob : InputStream) (n : N)
    (w : World) (Hlen : stream_length blob = Some n) :
  length (saves (world (process_uploaded_file lib env blob w).2))
  = (length (saves w) + if first_save_raises lib env blob n w then 2 else 1)%nat.
Proof.
  rewrite (process_uploaded_file_unfold lib env blob n w Hlen). unfold first_save_raises, process_body.
  set (s0 := trigger_state env blob n w).
  assert (Hs0 : saves (world s0) = saves w) by reflexivity.
  pose proof (validate_frame lib blob s0) as (_ & _ & _ & _ & Hv).
  unfold try_except. unfold bind at 1.
  destruct (validate lib blob s0) as [[content|e] s1]; cbn [snd] in Hv.
  - unfold bind at 1.
    pose proof (decide_destination_unfold env content (stream_name blob) s1)
      as (Hdok & _).
    pose proof (decide_destination_saves env content (stream_name blob) s1) as Hds.
    pose proof (decide_destination_metadata env content (stream_name blob) s1) as Hdm.
    destruct (decide_destination env content (stream_name blob) s1) as [dres s2].
    cbn [fst snd] in *. subst dres.
    unfold bind at 1. unfold get_report at 1.
    pose proof (save_validation_report_result env (report s2) s2) as Hres.
    pose proof (save_validation_report_saves env (report s2) s2) as Hsv.
    assert (Hdump : Json.dumps_report_error (report s2) = Json.dumps_report_error (report s1)).
    { unfold Json.dumps_report_error. by rewrite Hdm. }
    destruct (save_validation_report env (report s2) s2) as [sres s3].
    cbn [fst snd] in *. rewrite Hdump in Hres.
    destruct (demo_mode env); cbn [andb].
    + destruct (Json.dumps_report_error (report s1)) as [msg|] eqn:Hd.
      * rewrite bool_decide_eq_true_2 by discriminate.
        subst sres. cbn [any_exception].
        unfold bind, logging, modify_world, modify_report, get_report. cbn [report world].
        rewrite save_validation_report_saves. unfold saves at 1. cbn [calls world].
        fold (saves (world s3)). rewrite Hsv, Hds, Hv, Hs0, !length_app. simpl. lia.
      * rewrite bool_decide_eq_false_2 by (intros H; by apply H).
        subst sres. cbn [snd]. rewrite Hsv, Hds, Hv, Hs0, length_app. simpl. lia.
    + subst sres. cbn [snd]. rewrite Hsv, Hds, Hv, Hs0, length_app. simpl. lia.
  - cbn [any_exception].
    unfold bind, logging, modify_world, modify_report, get_report. cbn [report world].
    rewrite save_validation_report_saves. unfold saves at 1. cbn [calls world].
    fold (saves (world s1)). rewrite Hv, Hs0, length_app. simpl. lia.
Qed.

(** With a connection string every run returns and calls the emitter once. *)
Lemma emitter_called_once_when_connected (lib : Libs) (env : Env) (blob : InputStream)
    (n : N) (w : World) (Hlen : stream_length blob = Some n) :
  demo_mode env = false ->
  length (saves (world (process_uploaded_file lib env blob w).2))
  = (length (saves w) + 1)%nat.
Proof.
  intros Hdemo. rewrite (emitter_call_count lib env blob n w Hlen). unfold first_save_raises.
  rewrite Hdemo. by destruct (validate lib blob _) as [[?|?] ?].
Qed.

Lemma exception_in_validation_is_reported (lib : Libs) (env : Env) (blob : InputStream)
    (n : N) (w : World) (e : Exc) (s1 : St) (Hlen : stream_length blob = Some n) :
  validate lib blob (trigger_state env blob n w) = (Raise e, s1) ->
  let out := process_uploaded_file lib env blob w in
  errors (report out.2) = errors (report s1) ++ ["Erro interno: " +:+ exc_str e]
  /\ metadata (report out.2) = metadata (report s1)
  /\ saves (world out.2) = saves w ++ [CallSaveReport (report out.2)].
Proof.
  intros Hval out.
  set (r := append_error ("Erro interno: " +:+ exc_str e) (report s1)).
  assert (Hout : exists w', saves w' = saves (world s1) /\
                   out = save_validation_report env r (mkSt r w')).
  { eexists. split; [|subst out].
    2:{ rewrite (process_uploaded_file_unfold lib env blob n w Hlen). unfold process_body, try_except.
        unfold bind at 1. rewrite Hval. cbn [any_exception].
        unfold bind, logging, modify_world, modify_report, get_report.
        cbn [report world]. reflexivity. }
    reflexivity. }
  destruct Hout as (w' & Hw' & ->).
  pose proof (validate_frame lib blob (trigger_state env blob n w)) as (_ & _ & _ & _ & Hv).
  rewrite Hval in Hv. cbn [snd] in Hv.
  rewrite save_validation_report_saves.
  rewrite (save_validation_report_same_report env r (mkSt r w')).
  cbn [report world]. rewrite Hw', Hv. repeat split.
Qed.

(** ** Two runs on the same bytes *)

Lemma deterministic_ret {A} (a : A) : deterministic (ret a).
Proof. intros s1 s2 H. by split. Qed.

Lemma deterministic_raise {A} (e : Exc) : deterministic (@raise A e).
Proof. intros s1 s2 H. by split. Qed.

Lemma deterministic_lift {A} (r : Res A) : deterministic (lift r).
Proof. intros s1 s2 H. by split. Qed.

Lemma deterministic_record_call c : deterministic (record_call c).
Proof. intros s1 s2 H. by split. Qed.

Lemma deterministic_modify_report f :
  ignores_timestamp f -> deterministic (modify_report f).
Proof. intros Hf s1 s2 H. split; [reflexivity|]. apply Hf, H. Qed.

Lemma deterministic_bind {A B} (m : M A) (k : A -> M B) :
  deterministic m -> (forall a, deterministic (k a)) -> deterministic (bind m k).
Proof.
  intros Hm Hk s1 s2 H. unfold bind. destruct (Hm s1 s2 H) as [Hres Hst].
  destruct (m s1) as [[a1|e1] t1], (m s2) as [[a2|e2] t2]; simpl in *;
    try discriminate.
  - injection Hres as ->. by apply Hk.
  - injection Hres as ->. by split.
Qed.

Lemma deterministic_try_except {A} (m : M A) handles (h : Exc -> M A) :
  deterministic m -> (forall e, deterministic (h e)) ->
  deterministic (try_except m handles h).
Proof.
  intros Hm Hh s1 s2 H. unfold try_except. destruct (Hm s1 s2 H) as [Hres Hst].
  destruct (m s1) as [[a1|e1] t1], (m s2) as [[a2|e2] t2]; simpl in *;
    try discriminate.
  - by split.
  - injection Hres as ->. destruct (handles e2); [by apply Hh | by split].
Qed.

Lemma deterministic_when (b : bool) (m : M unit) :
  deterministic m -> deterministic (when b m).
Proof. intros Hm. destruct b; [exact Hm | apply deterministic_ret]. Qed.

Lemma append_error_ignores_timestamp msg : ignores_timestamp (append_error msg).
Proof.
  intros [] []. unfold without_timestamp, set_timestamp, append_error; simpl.
  intros H. injection H as -> -> -> -> -> -> -> -> -> ->. reflexivity.
Qed.

Lemma append_warning_ignores_timestamp msg : ignores_timestamp (append_warning msg).
Proof.
  intros [] []. unfold without_timestamp, set_timestamp, append_warning; simpl.
  intros H. injection H as -> -> -> -> -> -> -> -> -> ->. reflexivity.
Qed.

Lemma set_metadata_ignores_timestamp d : ignores_timestamp (set_metadata d).
Proof.
  intros [] []. unfold without_timestamp, set_timestamp, set_metadata; simpl.
  intros H. injection H as -> -> -> -> -> -> -> -> -> ->. reflexivity.
Qed.

Create HintDb deterministic.

#[local] Hint Resolve deterministic_ret deterministic_raise deterministic_lift
  deterministic_record_call deterministic_modify_report append_error_ignores_timestamp
  append_warning_ignores_timestamp set_metadata_ignores_timestamp : deterministic.

(** Decomposes a goal [deterministic m] along the structure of [m]. *)
Ltac deterministic_tac :=
  repeat first
    [ solve [auto with deterministic]
    | apply deterministic_bind; [ | intros ?]
    | apply deterministic_try_except; [ | intros ?]
    | apply deterministic_when
    | progress cbv beta zeta
    | match goal with
      | |- deterministic (if ?b then _ else _) => destruct b
      | |- deterministic (match ?x with _ => _ end) => destruct x
      end ].

Lemma detect_encoding_deterministic lib content encs :
  deterministic (detect_encoding lib content encs).
Proof.
  induction encs as [|enc rest IH]; simpl.
  - deterministic_tac.
  - unfold call_read_csv. deterministic_tac.
Qed.

#[local] Hint Resolve detect_encoding_deterministic : deterministic.

Lemma validate_csv_deterministic lib content : deterministic (validate_csv lib content).
Proof. unfold validate_csv, call_read_csv. deterministic_tac. Qed.

Lemma read_sheets_deterministic xls sheets total info :
  deterministic (read_sheets xls sheets total info).
Proof.
  revert total info. induction sheets as [|sheet rest IH]; intros total info; simpl;
    deterministic_tac.
Qed.

#[local] Hint Resolve read_sheets_deterministic : deterministic.

Lemma validate_excel_deterministic lib content : deterministic (validate_excel lib content).
Proof. unfold validate_excel. deterministic_tac. Qed.

Lemma validate_json_deterministic lib content : deterministic (validate_json lib content).
Proof.
  unfold validate_json, call_decode_utf8, call_decode_latin1, call_json_loads.
  deterministic_tac.
Qed.

Lemma validate_parquet_deterministic lib content :
  deterministic (validate_parquet lib content).
Proof. unfold validate_parquet. deterministic_tac. Qed.

Lemma validate_txt_deterministic content : deterministic (validate_txt content).
Proof.
  unfold validate_txt, call_decode_utf8, call_decode_latin1. deterministic_tac.
Qed.

#[local] Hint Resolve validate_csv_deterministic validate_excel_deterministic
  validate_json_deterministic validate_parquet_deterministic
  validate_txt_deterministic : deterministic.

Lemma dispatch_deterministic lib ext content : deterministic (dispatch lib ext content).
Proof. unfold dispatch. deterministic_tac. Qed.

Lemma without_timestamp_extension r1 r2 :
  without_timestamp r1 = without_timestamp r2 -> extension r1 = extension r2.
Proof.
  unfold without_timestamp, set_timestamp. intros H. by injection H.
Qed.

(** Reading the report is the one step whose result shows the timestamp;
    what follows must not depend on it. *)
Lemma deterministic_bind_get_report {B} (k : Report -> M B) :
  (forall r1 r2 s1 s2,
     without_timestamp r1 = without_timestamp r2 -> same_but_timestamp s1 s2 ->
     (k r1 s1).1 = (k r2 s2).1 /\ same_but_timestamp (k r1 s1).2 (k r2 s2).2) ->
  deterministic (bind get_report k).
Proof. intros Hk s1 s2 H. unfold bind, get_report. by apply Hk. Qed.

Lemma validate_deterministic lib blob : deterministic (validate lib blob).
Proof.
  unfold validate.
  apply deterministic_bind; [deterministic_tac|]. intros content.
  apply deterministic_bind_get_report. intros r1 r2 s1 s2 Hr Hs.
  rewrite (without_timestamp_extension r1 r2 Hr).
  assert (Hk : deterministic (dispatch lib (extension r2) content;; ret content)).
  { apply deterministic_bind; [apply dispatch_deterministic|].
    intros _. apply deterministic_ret. }
  by apply Hk.
Qed.

Lemma initial_reports_agree blob n now1 now2 w1 w2 :
  same_but_timestamp (entry_state blob n now1 w1) (entry_state blob n now2 w2).
Proof. reflexivity. Qed.

(** C9: two runs of the validation stage (the creation of the report, the
    read and the validator for the extension) on the same blob, started at
    different times in different worlds, end alike, returning or raising
    the same, with reports equal in every key but [timestamp]. *)
Theorem validation_is_deterministic (lib : Libs) (blob : InputStream) (n : N)
    (now1 now2 : DateTime) (w1 w2 : World) :
  let run1 := validate lib blob (entry_state blob n now1 w1) in
  let run2 := validate lib blob (entry_state blob n now2 w2) in
  run1.1 = run2.1
  /\ without_timestamp (report run1.2) = without_timestamp (report run2.2)
  /\ timestamp (report run1.2) = isoformat now1
  /\ timestamp (report run2.2) = isoformat now2.
Proof.
  intros run1 run2. subst run1 run2.
  destruct (validate_deterministic lib blob _ _ (initial_reports_agree blob n now1 now2 w1 w2))
    as [Hres Hrep].
  split; [exact Hres|]. split; [exact Hrep|].
  pose proof (validate_frame lib blob (entry_state blob n now1 w1)) as (H1 & _).
  pose proof (validate_frame lib blob (entry_state blob n now2 w2)) as (H2 & _).
  unfold identity_of in H1, H2. split; [injection H1 | injection H2]; intros; assumption.
Qed.

(** ** The report at the end of a run *)

(** After the validation stage nothing writes the metadata or the warnings:
    the decision sets [valid], the handler adds an error, and the moves and
    saves leave the report alone. *)
Lemma process_keeps_metadata (lib : Libs) (env : Env) (blob : InputStream) (n : N)
    (w : World) (Hlen : stream_length blob = Some n) :
  let s1 := (validate lib blob (trigger_state env blob n w)).2 in
  let out := process_uploaded_file lib env blob w in
  metadata (report out.2) = metadata (report s1)
  /\ warnings (report out.2) = warnings (report s1).
Proof.
  intros s1 out.
  assert (Hout : exists r,
            metadata r = metadata (report s1) /\ warnings r = warnings (report s1)
            /\ report out.2 = r).
  { subst out s1. rewrite (process_uploaded_file_unfold lib env blob n w Hlen). unfold process_body, try_except.
    unfold bind at 1.
    destruct (validate lib blob (trigger_state env blob n w)) as [[content|e] s1];
      cbn [snd].
    - unfold bind at 1.
      pose proof (decide_destination_unfold env content (stream_name blob) s1)
        as (Hdok & Hdrep & _).
      destruct (decide_destination env content (stream_name blob) s1) as [dres s2].
      cbn [fst snd] in *. subst dres.
      assert (Hm2 : metadata (report s2) = metadata (report s1)
                    /\ warnings (report s2) = warnings (report s1)).
      { rewrite Hdrep. by destruct (bool_decide _). }
      destruct Hm2 as [Hm2 Hw2].
      unfold bind at 1. unfold get_report at 1.
      pose proof (save_validation_report_same_report env (report s2) s2) as Hsame.
      unfold same_report in Hsame.
      destruct (save_validation_report env (report s2) s2) as [[[]|e] s3];
        cbn [fst snd any_exception] in *.
      + exists (report s3). rewrite Hsame. split_and!; done.
      + unfold bind, logging, modify_world, modify_report, get_report.
        cbn [report world].
        match goal with |- context [save_validation_report env ?r ?s] =>
          pose proof (save_validation_report_same_report env r s) as Hsame2;
          destruct (save_validation_report env r s) as [sres s4]
        end.
        unfold same_report in Hsame2. cbn [snd report] in *.
        exists (report s4). rewrite Hsame2. simpl. rewrite Hsame. split_and!; done.
    - cbn [any_exception].
      unfold bind, logging, modify_world, modify_report, get_report.
      cbn [report world].
      match goal with |- context [save_validation_report env ?r ?s] =>
        pose proof (save_validation_report_same_report env r s) as Hsame2;
        destruct (save_validation_report env r s) as [sres s4]
      end.
      unfold same_report in Hsame2. cbn [snd report] in *.
      exists (report s4). rewrite Hsame2. simpl. split_and!; done. }
  destruct Hout as (r & Hm & Hw & Hr). rewrite Hr. auto.
Qed.

(** The validation stage on a blob whose read succeeds. *)
Lemma validate_unfold lib env blob n w content :
  stream_read blob = Ok content ->
  let s0 := trigger_state env blob n w in
  validate lib blob s0
  = (dispatch lib (extension (report s0)) content;; ret content)
      (mkSt (report s0) (extend_calls [CallBlobRead] (world s0))).
Proof. intros Hread s0. unfold validate. run_monad. rewrite Hread. reflexivity. Qed.

(** In the report of a run, a workbook over the sheet ceiling leaves the
    metadata empty: no sheet count, no [sheets_detail]. *)
Corollary too_many_sheets_leaves_no_metadata (lib : Libs) (env : Env)
    (blob : InputStream) (n : N) (w : World) (content : bytes) (xls : ExcelFile)
    (Hlen : stream_length blob = Some n) :
  stream_read blob = Ok content ->
  extension (initial_report blob n (clock env (clock_reads w))) = "xlsx" ->
  pd_ExcelFile lib content = Ok xls ->
  max_sheets (rules_xlsx VALIDATION_RULES) < sheet_count xls ->
  metadata (report (process_uploaded_file lib env blob w).2) = [].
Proof.
  intros Hread Hext Hopen Hmany.
  destruct (process_keeps_metadata lib env blob n w Hlen) as [Hm _]. rewrite Hm.
  rewrite (validate_unfold lib env blob n w content Hread). cbn [report trigger_state entry_state].
  rewrite Hext. unfold dispatch. simpl bool_decide. cbn [orb].
  unfold bind at 1.
  match goal with |- context [validate_excel lib content ?s] =>
    destruct (validate_excel_too_many_sheets lib content xls s Hopen Hmany) as [-> _]
  end.
  reflexivity.
Qed.

(** In the report of a run, a plain-text payload over the size ceiling
    leaves the metadata empty. *)
Corollary oversize_txt_leaves_no_metadata (lib : Libs) (env : Env)
    (blob : InputStream) (n : N) (w : World) (content : bytes)
    (Hlen : stream_length blob = Some n) :
  stream_read blob = Ok content ->
  extension (initial_report blob n (clock env (clock_reads w))) = "txt" ->
  max_size_mb (rules_txt VALIDATION_RULES) * Fmt.MiB < len_bytes content ->
  metadata (report (process_uploaded_file lib env blob w).2) = [].
Proof.
  intros Hread Hext Hbig.
  destruct (process_keeps_metadata lib env blob n w Hlen) as [Hm _]. rewrite Hm.
  rewrite (validate_unfold lib env blob n w content Hread). cbn [report trigger_state entry_state].
  rewrite Hext. unfold dispatch. simpl bool_decide. cbn [orb].
  unfold bind at 1.
  match goal with |- context [validate_txt content ?s] =>
    pose proof (sized_validator_oversize lib SizedTxt content s Hbig) as Hout;
    cbn [sized_validator] in Hout; rewrite Hout
  end.
  reflexivity.
Qed.

Lemma process_final_report (lib : Libs) (env : Env) (blob : InputStream) (n : N)
    (w : World) (Hlen : stream_length blob = Some n) :
  report (process_uploaded_file lib env blob w).2 = final_report lib env blob n w.
Proof.
  rewrite (process_uploaded_file_unfold lib env blob n w Hlen). unfold final_report, process_body, try_except.
  unfold bind at 1.
  destruct (validate lib blob (trigger_state env blob n w)) as [[content|e] s1].
  - unfold bind at 1.
    pose proof (decide_destination_unfold env content (stream_name blob) s1)
      as (Hdok & Hdrep & _).
    destruct (decide_destination env content (stream_name blob) s1) as [dres s2].
    cbn [fst snd] in *. subst dres. fold (decided (report s1)) in Hdrep.
    unfold bind at 1. unfold get_report at 1.
    pose proof (save_validation_report_same_report env (report s2) s2) as Hsame.
    pose proof (save_validation_report_result env (report s2) s2) as Hres.
    unfold same_report in Hsame.
    destruct (save_validation_report env (report s2) s2) as [sres s3].
    cbn [fst snd] in *. rewrite Hdrep in Hres. subst sres.
    destruct (demo_mode env).
    + destruct (Json.dumps_report_error (decided (report s1))) as [msg|].
      * cbn [any_exception].
        unfold bind, logging, modify_world, modify_report, get_report.
        cbn [report world].
        match goal with |- context [save_validation_report env ?r ?s] =>
          rewrite (save_validation_report_same_report env r s)
        end.
        cbn [report]. unfold internal_error. simpl. by rewrite Hsame, Hdrep.
      * cbn [snd]. by rewrite Hsame.
    + cbn [snd]. by rewrite Hsame.
  - cbn [any_exception].
    unfold bind, logging, modify_world, modify_report, get_report.
    cbn [report world].
    match goal with |- context [save_validation_report env ?r ?s] =>
      rewrite (save_validation_report_same_report env r s)
    end.
    reflexivity.
Qed.

Lemma decided_ignores_timestamp : ignores_timestamp decided.
Proof.
  intros [] []. unfold without_timestamp, set_timestamp, decided; simpl.
  intros H. injection H as -> -> -> -> -> -> -> -> -> ->.
  by destruct (bool_decide _).
Qed.

Lemma dumps_report_error_ignores_timestamp r1 r2 :
  without_timestamp r1 = without_timestamp r2 ->
  Json.dumps_report_error r1 = Json.dumps_report_error r2.
Proof.
  unfold without_timestamp, set_timestamp, Json.dumps_report_error.
  intros H. injection H as _ _ _ _ _ _ _ _ _ ->. reflexivity.
Qed.

(** Two whole runs on the same blob end with reports equal in every key but
    the timestamp, whatever the stores, their faults and the clocks, as long
    as both have a connection string or both have none. *)
Lemma runs_agree_on_the_report (lib : Libs) (blob : InputStream) (n : N)
    (env1 env2 : Env) (w1 w2 : World) (Hlen : stream_length blob = Some n) :
  demo_mode env1 = demo_mode env2 ->
  without_timestamp (report (process_uploaded_file lib env1 blob w1).2)
  = without_timestamp (report (process_uploaded_file lib env2 blob w2).2).
Proof.
  intros Hmode.
  rewrite (process_final_report lib env1 blob n w1 Hlen),
    (process_final_report lib env2 blob n w2 Hlen).
  unfold final_report.
  assert (Hs0 : same_but_timestamp (trigger_state env1 blob n w1) (trigger_state env2 blob n w2))
    by reflexivity.
  destruct (validate_deterministic lib blob _ _ Hs0) as [Hres Hrep].
  destruct (validate lib blob (trigger_state env1 blob n w1)) as [[c1|e1] s1],
           (validate lib blob (trigger_state env2 blob n w2)) as [[c2|e2] s2];
    cbn [fst snd] in *; try discriminate.
  - rewrite <- Hmode.
    pose proof (decided_ignores_timestamp _ _ Hrep) as Hdec.
    rewrite (dumps_report_error_ignores_timestamp _ _ Hdec).
    destruct (demo_mode env1); [|exact Hdec].
    destruct (Json.dumps_report_error (decided (report s2))); [|exact Hdec].
    by apply append_error_ignores_timestamp.
  - injection Hres as ->. by apply append_error_ignores_timestamp.
Qed.

(** * Further properties of the function *)

(** ** Lookups in a store that changes *)

Lemma stored_blob_blob_at w c n : stored_blob w c n = blob_at (store w) c n.
Proof. reflexivity. Qed.

Lemma blob_at_create st c c' n' :
  st !! c = None -> blob_at (<[c := ∅]> st) c' n' = blob_at st c' n'.
Proof.
  intros Hnone. unfold blob_at.
  destruct (decide (c = c')) as [->|Hne].
  - rewrite lookup_insert_eq, Hnone. simpl. apply lookup_empty.
  - by rewrite lookup_insert_ne.
Qed.

Lemma blob_at_put st c blobs n b c' n' :
  st !! c = Some blobs ->
  blob_at (<[c := <[n := b]> blobs]> st) c' n'
  = if bool_decide (c = c' /\ n = n') then Some b else blob_at st c' n'.
Proof.
  intros Hc. unfold blob_at.
  destruct (decide (c = c')) as [->|Hne].
  - rewrite lookup_insert_eq, Hc. simpl.
    destruct (decide (n = n')) as [->|Hn].
    + rewrite lookup_insert_eq. by rewrite bool_decide_eq_true_2.
    + rewrite lookup_insert_ne by done. rewrite bool_decide_eq_false_2; [done|].
      by intros [_ ?].
  - rewrite lookup_insert_ne by done. rewrite bool_decide_eq_false_2; [done|].
    by intros [? _].
Qed.

Lemma blob_at_remove st c blobs n c' n' :
  st !! c = Some blobs ->
  blob_at (<[c := delete n blobs]> st) c' n'
  = if bool_decide (c = c' /\ n = n') then None else blob_at st c' n'.
Proof.
  intros Hc. unfold blob_at.
  destruct (decide (c = c')) as [->|Hne].
  - rewrite lookup_insert_eq, Hc. simpl.
    destruct (decide (n = n')) as [->|Hn].
    + rewrite lookup_delete_eq. by rewrite bool_decide_eq_true_2.
    + rewrite lookup_delete_ne by done. rewrite bool_decide_eq_false_2; [done|].
      by intros [_ ?].
  - rewrite lookup_insert_ne by done. rewrite bool_decide_eq_false_2; [done|].
    by intros [? _].
Qed.

(** ** The move, step by step *)

(** The store after the attempt to create a container: the container is
    there if it was, or if nothing refused the creation; no blob changed. *)
Lemma create_attempt env c s :
  let out := try_except (create_container env c) any_exception (fun _ => ret tt) s in
  out.1 = Ok tt
  /\ report out.2 = report s
  /\ clock_reads (world out.2) = clock_reads (world s)
  /\ log (world out.2) = log (world s)
  /\ calls (world out.2) = calls (world s)
  /\ (forall c' n', blob_at (store (world out.2)) c' n' = blob_at (store (world s)) c' n')
  /\ (forall c', is_Some (store (world s) !! c') -> is_Some (store (world out.2) !! c'))
  /\ (fault env (OpCreateContainer c) = None -> is_Some (store (world out.2) !! c)).
Proof.
  destruct s as [r w]. unfold create_container, injected. run_monad.
  destruct (fault env (OpCreateContainer c)) as [e|]; simpl.
  - split_and!; done.
  - destruct (store w !! c) as [blobs|] eqn:Hc; simpl.
    + split_and!; try done. all: try (intros _; by rewrite Hc).
    + split_and!; try done.
      all: first
        [ intros c' n'; by apply blob_at_create
        | intros c' Hsome; destruct (decide (c = c')) as [->|Hne];
          [by rewrite lookup_insert_eq | by rewrite lookup_insert_ne]
        | intros _; by rewrite lookup_insert_eq ].
Qed.

(** With a connection string, a ready destination container and an accepted
    upload, [move_blob] comes down to the deletion of the source in a store
    that holds the copy, followed by one log line. *)
Lemma move_blob_after_upload env content path dest r s :
  demo_mode env = false ->
  container_ready env (world s) dest ->
  fault env (OpUpload dest (relative_path path)) = None ->
  exists st1 blobs,
    st1 !! dest = Some blobs
    /\ (forall c n, blob_at st1 c n = blob_at (store (world s)) c n)
    /\ (forall c, is_Some (store (world s) !! c) -> is_Some (st1 !! c))
    /\ move_blob env content path dest r s
       = match delete_blob env UPLOADS_CONTAINER (relative_path path)
                 (mkSt (report s)
                    (mkWorld (<[dest := <[relative_path path
                                          := moved_blob env (world s) content r path]> blobs]> st1)
                       (clock_reads (world s) + 1) (log (world s))
                       (calls (world s) ++ [CallMoveBlob dest]))) with
         | (Ok _, s3) =>
           logging INFO ("Blob movido: " +:+ path +:+ " → " +:+ dest +:+ "/"
                         +:+ relative_path path) s3
         | (Raise e, s3) => logging ERROR ("Erro ao mover blob: " +:+ exc_str e) s3
         end.
Proof.
  intros Hdemo (Hconn & Hready) Hup.
  destruct s as [rep w]. cbn [world report] in *.
  unfold move_blob. rewrite Hdemo.
  unfold from_connection_string, create_container, upload_blob, injected.
  fold (relative_path path). rewrite Hconn, Hup.
  unfold utc_now, moved_blob, move_tags, UPLOADS_CONTAINER. run_monad.
  destruct (fault env (OpCreateContainer dest)) as [e1|] eqn:Hcc; simpl.
  - destruct Hready as [?|[blobs Hblobs]]; [discriminate|].
    exists (store w), blobs. rewrite Hblobs; simpl.
    split_and!; try done.
    destruct (delete_blob env _ _ _) as [[[]|e] s3]; reflexivity.
  - destruct (store w !! dest) as [blobs|] eqn:Hblobs; simpl.
    + exists (store w), blobs. rewrite Hblobs; simpl.
      split_and!; try done.
      destruct (delete_blob env _ _ _) as [[[]|e] s3]; reflexivity.
    + exists (<[dest := ∅]> (store w)), ∅. rewrite lookup_insert_eq; simpl.
      split_and!; try done.
      * intros c n. by apply blob_at_create.
      * intros c Hsome. destruct (decide (dest = c)) as [->|Hne].
        -- by rewrite lookup_insert_eq.
        -- by rewrite lookup_insert_ne.
      * destruct (delete_blob env _ _ _) as [[[]|e] s3]; reflexivity.
Qed.

(** X1: [move_blob] cannot raise, whatever the store does, and it never
    writes to the report it is given. *)
Theorem move_blob_never_raises (env : Env) (content : bytes)
    (original_path destination_container : string) (metadata : Report) (s : St) :
  let out := move_blob env content original_path destination_container metadata s in
  out.1 = Ok tt /\ report out.2 = report s.
Proof.
  intros out. subst out. split.
  - destruct (move_blob_returns env content original_path destination_container
                metadata s) as [[] H]. exact H.
  - apply move_blob_same_report.
Qed.

(** X2: when the copy is written and the deletion of the source is refused,
    [move_blob] logs the error and returns: the copy stays in the
    destination (no rollback), the source stays where it was, and no other
    blob changes. *)
Theorem delete_failure_keeps_both (env : Env) (content : bytes)
    (path dest : string) (r : Report) (s : St) (e : Exc) :
  demo_mode env = false ->
  container_ready env (world s) dest ->
  fault env (OpUpload dest (relative_path path)) = None ->
  fault env (OpDelete UPLOADS_CONTAINER (relative_path path)) = Some e ->
  let out := move_blob env content path dest r s in
  out.1 = Ok tt
  /\ stored_blob (world out.2) dest (relative_path path)
     = Some (moved_blob env (world s) content r path)
  /\ (forall c n, (c, n) <> (dest, relative_path path) ->
      stored_blob (world out.2) c n = stored_blob (world s) c n)
  /\ log (world out.2) = log (world s) ++ [Log ERROR ("Erro ao mover blob: " +:+ exc_str e)].
Proof.
  intros Hdemo Hready Hup Hdel out. subst out.
  destruct (move_blob_after_upload env content path dest r s Hdemo Hready Hup)
    as (st1 & blobs & Hdest & Hsame & _ & ->).
  unfold delete_blob, injected. rewrite Hdel. run_monad.
  rewrite !stored_blob_blob_at. cbn [store world].
  split; [reflexivity|]. split.
  - rewrite (blob_at_put st1 dest blobs _ _ dest _ Hdest).
    by rewrite bool_decide_eq_true_2.
  - split; [|reflexivity]. intros c n Hne.
    rewrite !stored_blob_blob_at. cbn [store world].
    rewrite (blob_at_put st1 dest blobs _ _ c n Hdest).
    rewrite bool_decide_eq_false_2; [apply Hsame|].
    intros [<- <-]. by apply Hne.
Qed.

Lemma delete_failure_keeps_both_witness :
  let out := move_blob (env_connected deletes_fail) sample_content sample_path
               STAGING_CONTAINER sample_report (mkSt sample_report world_with_two) in
  out.1 = Ok tt
  /\ blob_data <$> stored_blob (world out.2) STAGING_CONTAINER "cli-00123/2024/05/17/nota.txt"
     = Some (RawBytes sample_content)
  /\ stored_blob (world out.2) UPLOADS_CONTAINER "cli-00123/2024/05/17/nota.txt"
     = Some (mkBlob (RawBytes sample_content) [])
  /\ stored_blob (world out.2) STAGING_CONTAINER "cli-00123/antigo.txt" = Some older_blob
  /\ log (world out.2) = [Log ERROR "Erro ao mover blob: The blob is leased."].
Proof.
  pose proof (delete_failure_keeps_both (env_connected deletes_fail) sample_content
                sample_path STAGING_CONTAINER sample_report
                (mkSt sample_report world_with_two)
                (mkExc OtherException "The blob is leased.")) as H.
  destruct H as (H1 & H2 & H3 & H4);
    [reflexivity | split; [reflexivity | left; reflexivity] | reflexivity | reflexivity |].
  change (relative_path sample_path) with "cli-00123/2024/05/17/nota.txt" in H2, H3.
  split; [exact H1|]. split; [by rewrite H2|].
  split; [by rewrite H3|]. split; [by rewrite H3 | exact H4].
Defined.

(** When the store accepts every step and a blob is stored under the name
    that [move_blob] derives from the path (the path with every
    [uploads-clientes/] removed), the move copies to that name in the
    destination and deletes that name from the uploads. *)
Lemma move_blob_on_derived_name (env : Env) (content : bytes)
    (path dest : string) (r : Report) (s : St) (source : Blob) :
  demo_mode env = false ->
  store_accepts_move env (world s) dest (relative_path path) ->
  dest <> UPLOADS_CONTAINER ->
  stored_blob (world s) UPLOADS_CONTAINER (relative_path path) = Some source ->
  let out := move_blob env content path dest r s in
  out.1 = Ok tt
  /\ stored_blob (world out.2) dest (relative_path path)
     = Some (moved_blob env (world s) content r path)
  /\ stored_blob (world out.2) UPLOADS_CONTAINER (relative_path path) = None
  /\ (forall c n, (c, n) <> (dest, relative_path path) ->
      (c, n) <> (UPLOADS_CONTAINER, relative_path path) ->
      stored_blob (world out.2) c n = stored_blob (world s) c n)
  /\ log (world out.2)
     = log (world s) ++ [Log INFO ("Blob movido: " +:+ path +:+ " → " +:+ dest +:+ "/"
                                   +:+ relative_path path)].
Proof.
  intros Hdemo (Hready & Hup & Hdel) Hne Hsrc out. subst out.
  destruct (move_blob_after_upload env content path dest r s Hdemo Hready Hup)
    as (st1 & blobs & Hdest & Hsame & _ & ->).
  rewrite stored_blob_blob_at, <- Hsame in Hsrc.
  unfold blob_at in Hsrc.
  destruct (st1 !! UPLOADS_CONTAINER) as [ub|] eqn:Hub; [|discriminate].
  simpl in Hsrc.
  unfold delete_blob, injected. rewrite Hdel. run_monad.
  rewrite lookup_insert_ne by done. rewrite Hub; simpl. rewrite Hsrc; simpl.
  rewrite !stored_blob_blob_at. cbn [store world].
  set (st2 := <[dest := _]> st1).
  assert (Hub2 : st2 !! UPLOADS_CONTAINER = Some ub).
  { subst st2. by rewrite lookup_insert_ne. }
  split; [reflexivity|]. split; [|split; [|split; [|reflexivity]]].
  - rewrite (blob_at_remove st2 _ ub _ dest _ Hub2).
    rewrite bool_decide_eq_false_2 by (intros [? _]; congruence).
    subst st2. rewrite (blob_at_put st1 dest blobs _ _ dest _ Hdest).
    by rewrite bool_decide_eq_true_2.
  - rewrite (blob_at_remove st2 _ ub _ UPLOADS_CONTAINER _ Hub2).
    by rewrite bool_decide_eq_true_2.
  - intros c n Hn1 Hn2.
    rewrite !stored_blob_blob_at. cbn [store world]. fold st2.
    rewrite (blob_at_remove st2 _ ub _ c n Hub2).
    rewrite bool_decide_eq_false_2 by (intros [<- <-]; by apply Hn2).
    subst st2. rewrite (blob_at_put st1 dest blobs _ _ c n Hdest).
    rewrite bool_decide_eq_false_2 by (intros [<- <-]; by apply Hn1).
    apply Hsame.
Qed.

(** X3: for a trigger name that holds [uploads-clientes/] as its prefix and
    nowhere else, when the store accepts every step and the upload is there,
    the move is complete: the destination holds the bytes with their tags
    under the name of the upload, the upload is gone from the uploads
    container, every other blob is as before, and the move is logged. *)
Theorem move_is_complete (env : Env) (content : bytes)
    (rest dest : string) (r : Report) (s : St) (source : Blob) :
  let path := "uploads-clientes/" +:+ rest in
  relative_path path = rest ->
  demo_mode env = false ->
  store_accepts_move env (world s) dest rest ->
  dest <> UPLOADS_CONTAINER ->
  stored_blob (world s) UPLOADS_CONTAINER rest = Some source ->
  let out := move_blob env content path dest r s in
  out.1 = Ok tt
  /\ stored_blob (world out.2) dest rest = Some (moved_blob env (world s) content r path)
  /\ stored_blob (world out.2) UPLOADS_CONTAINER rest = None
  /\ (forall c n, (c, n) <> (dest, rest) -> (c, n) <> (UPLOADS_CONTAINER, rest) ->
      stored_blob (world out.2) c n = stored_blob (world s) c n)
  /\ log (world out.2)
     = log (world s) ++ [Log INFO ("Blob movido: " +:+ path +:+ " → " +:+ dest +:+ "/"
                                   +:+ rest)].
Proof.
  intros path Hrel Hdemo Haccepts Hne Hsrc.
  pose proof (move_blob_on_derived_name env content path dest r s source) as H.
  rewrite Hrel in H. by apply H.
Qed.

Lemma move_is_complete_witness :
  let out := move_blob (env_connected no_fault) sample_content sample_path
               STAGING_CONTAINER sample_report (mkSt sample_report world_with_two) in
  out.1 = Ok tt
  /\ blob_data <$> stored_blob (world out.2) STAGING_CONTAINER "cli-00123/2024/05/17/nota.txt"
     = Some (RawBytes sample_content)
  /\ stored_blob (world out.2) UPLOADS_CONTAINER "cli-00123/2024/05/17/nota.txt" = None
  /\ stored_blob (world out.2) STAGING_CONTAINER "cli-00123/antigo.txt" = Some older_blob.
Proof.
  pose proof (move_is_complete (env_connected no_fault) sample_content
                "cli-00123/2024/05/17/nota.txt"
                STAGING_CONTAINER sample_report (mkSt sample_report world_with_two)
                (mkBlob (RawBytes sample_content) [])) as H.
  destruct H as (H1 & H2 & H3 & H4 & _).
  - reflexivity.
  - reflexivity.
  - split; [split; [reflexivity | left; reflexivity] | split; reflexivity].
  - discriminate.
  - reflexivity.
  - split; [exact H1|]. split; [exact (f_equal (fmap blob_data) H2)|].
    split; [exact H3|].
    refine (eq_trans (H4 STAGING_CONTAINER "cli-00123/antigo.txt" _ _) eq_refl);
      discriminate.
Defined.

(** ** The report artifact *)

(** With a connection string, a ready notifications container, a report
    that serialises, a text that encodes as UTF-8 and an accepted upload,
    the report is stored under its derived name and nothing else changes. *)
Lemma save_persists env r s :
  demo_mode env = false ->
  container_ready env (world s) NOTIFICATIONS_CONTAINER ->
  Json.dumps_report_error r = None ->
  encode_error env r = None ->
  let name := report_path r (ymd (clock env (clock_reads (world s)))) in
  fault env (OpUpload NOTIFICATIONS_CONTAINER name) = None ->
  let out := save_validation_report env r s in
  out.1 = Ok tt
  /\ stored_blob (world out.2) NOTIFICATIONS_CONTAINER name = Some (mkBlob (ReportJson r) [])
  /\ (forall c n, (c, n) <> (NOTIFICATIONS_CONTAINER, name) ->
      stored_blob (world out.2) c n = stored_blob (world s) c n)
  /\ is_Some (store (world out.2) !! NOTIFICATIONS_CONTAINER)
  /\ clock_reads (world out.2) = clock_reads (world s) + 1
  /\ log (world out.2) = log (world s) ++ [Log INFO ("Relatório salvo: " +:+ name)].
Proof.
  intros Hdemo (Hconn & Hready) Hdumps Henc name Hup out. subst out name.
  destruct s as [rep w]. cbn [world report] in *.
  unfold save_validation_report. rewrite Hdemo.
  unfold from_connection_string, create_container, upload_blob, json_dumps,
    encode_utf8, injected.
  unfold report_path in *. rewrite Hconn, Hdumps, Henc.
  unfold utc_now. run_monad. simpl in Hup.
  assert (Hput : forall st1 blobs,
    st1 !! NOTIFICATIONS_CONTAINER = Some blobs ->
    (forall c n, blob_at st1 c n = blob_at (store w) c n) ->
    forall b name',
    blob_at (<[NOTIFICATIONS_CONTAINER := <[name' := b]> blobs]> st1)
      NOTIFICATIONS_CONTAINER name' = Some b
    /\ (forall c n, (c, n) <> (NOTIFICATIONS_CONTAINER, name') ->
        blob_at (<[NOTIFICATIONS_CONTAINER := <[name' := b]> blobs]> st1) c n
        = blob_at (store w) c n)
    /\ is_Some (<[NOTIFICATIONS_CONTAINER := <[name' := b]> blobs]> st1
                  !! NOTIFICATIONS_CONTAINER)).
  { intros st1 blobs Hst Hsame b name'. split_and!.
    - rewrite (blob_at_put st1 _ blobs _ _ _ _ Hst). by rewrite bool_decide_eq_true_2.
    - intros c n Hne. rewrite (blob_at_put st1 _ blobs _ _ c n Hst).
      rewrite bool_decide_eq_false_2; [apply Hsame|].
      intros [<- <-]. by apply Hne.
    - by rewrite lookup_insert_eq. }
  destruct (fault env (OpCreateContainer NOTIFICATIONS_CONTAINER)) as [e1|] eqn:Hcc; simpl.
  - destruct Hready as [?|[blobs Hblobs]]; [discriminate|].
    rewrite Hup; simpl. rewrite Hblobs; simpl.
    destruct (Hput (store w) blobs Hblobs (fun _ _ => eq_refl) (mkBlob (ReportJson r) [])
                (client r +:+ "/" +:+ ymd (clock env (clock_reads w)) +:+ "/"
                 +:+ filename r +:+ "_report.json")) as (H1 & H2 & H3).
    split_and!; done.
  - destruct (store w !! NOTIFICATIONS_CONTAINER) as [blobs|] eqn:Hblobs; simpl.
    + rewrite Hup; simpl. rewrite Hblobs; simpl.
      destruct (Hput (store w) blobs Hblobs (fun _ _ => eq_refl) (mkBlob (ReportJson r) [])
                  (client r +:+ "/" +:+ ymd (clock env (clock_reads w)) +:+ "/"
                   +:+ filename r +:+ "_report.json")) as (H1 & H2 & H3).
      split_and!; done.
    + rewrite Hup; simpl. rewrite lookup_insert_eq; simpl.
      destruct (Hput (<[NOTIFICATIONS_CONTAINER := ∅]> (store w)) ∅
                  (lookup_insert_eq _ _ _)
                  (fun c n => blob_at_create (store w) NOTIFICATIONS_CONTAINER c n Hblobs)
                  (mkBlob (ReportJson r) [])
                  (client r +:+ "/" +:+ ymd (clock env (clock_reads w)) +:+ "/"
                   +:+ filename r +:+ "_report.json")) as (H1 & H2 & H3).
      split_and!; done.
Qed.

(** X4: with a connection string, a store that accepts the connection and
    the upload, a notifications container that exists or can be created, a
    report that [json.dumps] serialises and a JSON text that
    [.encode('utf-8')] encodes, [save_validation_report] stores the report
    under client/date/filename_report.json, with the date read from the
    clock at that moment, changes no other blob and logs the name. *)
Theorem report_is_stored_under_its_name (env : Env) (r : Report) (s : St) :
  demo_mode env = false ->
  container_ready env (world s) NOTIFICATIONS_CONTAINER ->
  Json.dumps_report_error r = None ->
  encode_error env r = None ->
  fault env (OpUpload NOTIFICATIONS_CONTAINER
               (report_path r (ymd (clock env (clock_reads (world s)))))) = None ->
  let name := report_path r (ymd (clock env (clock_reads (world s)))) in
  let out := save_validation_report env r s in
  out.1 = Ok tt
  /\ stored_blob (world out.2) NOTIFICATIONS_CONTAINER name = Some (mkBlob (ReportJson r) [])
  /\ (forall c n, (c, n) <> (NOTIFICATIONS_CONTAINER, name) ->
      stored_blob (world out.2) c n = stored_blob (world s) c n)
  /\ log (world out.2) = log (world s) ++ [Log INFO ("Relatório salvo: " +:+ name)].
Proof.
  intros Hdemo Hready Hdumps Henc Hup name out.
  destruct (save_persists env r s Hdemo Hready Hdumps Henc Hup)
    as (H1 & H2 & H3 & _ & _ & H6).
  split_and!; assumption.
Qed.

Lemma report_is_stored_under_its_name_witness :
  let out := save_validation_report (env_connected no_fault) sample_report
               (mkSt sample_report world_with_two) in
  out.1 = Ok tt
  /\ stored_blob (world out.2) NOTIFICATIONS_CONTAINER
       "cli-00123/2024/05/17/nota.txt_report.json"
     = Some (mkBlob (ReportJson sample_report) [])
  /\ stored_blob (world out.2) STAGING_CONTAINER "cli-00123/antigo.txt" = Some older_blob.
Proof.
  pose proof (report_is_stored_under_its_name (env_connected no_fault) sample_report
                (mkSt sample_report world_with_two)) as H.
  destruct H as (H1 & H2 & H3 & _);
    [reflexivity | split; [reflexivity | left; reflexivity] | reflexivity | reflexivity
    | reflexivity |].
  split; [exact H1|]. split; [exact H2|].
  rewrite H3; [reflexivity | discriminate].
Defined.

(** X5: the artifact is overwritten, not accumulated.  Two reports for the
    same client and file name, each of which [json.dumps] serialises to a
    text that [.encode('utf-8')] encodes, saved one after the other on the
    same day go to the same blob, which afterwards holds the second report;
    no other blob has changed. *)
Theorem last_report_wins (env : Env) (r1 r2 : Report) (s : St) :
  demo_mode env = false ->
  container_ready env (world s) NOTIFICATIONS_CONTAINER ->
  Json.dumps_report_error r1 = None ->
  Json.dumps_report_error r2 = None ->
  encode_error env r1 = None ->
  encode_error env r2 = None ->
  client r1 = client r2 ->
  filename r1 = filename r2 ->
  ymd (clock env (clock_reads (world s) + 1)) = ymd (clock env (clock_reads (world s))) ->
  fault env (OpUpload NOTIFICATIONS_CONTAINER
               (report_path r1 (ymd (clock env (clock_reads (world s)))))) = None ->
  let name := report_path r1 (ymd (clock env (clock_reads (world s)))) in
  let s1 := (save_validation_report env r1 s).2 in
  let out := save_validation_report env r2 s1 in
  out.1 = Ok tt
  /\ stored_blob (world out.2) NOTIFICATIONS_CONTAINER name = Some (mkBlob (ReportJson r2) [])
  /\ (forall c n, (c, n) <> (NOTIFICATIONS_CONTAINER, name) ->
      stored_blob (world out.2) c n = stored_blob (world s) c n).
Proof.
  intros Hdemo Hready Hd1 Hd2 He1 He2 Hclient Hfile Hday Hup name s1 out.
  destruct (save_persists env r1 s Hdemo Hready Hd1 He1 Hup)
    as (_ & _ & Hrest1 & Hcont & Hclock & _).
  fold s1 in Hrest1, Hcont, Hclock.
  assert (Hname : report_path r2 (ymd (clock env (clock_reads (world s1)))) = name).
  { subst name. unfold report_path. by rewrite Hclock, Hday, Hclient, Hfile. }
  assert (Hready2 : container_ready env (world s1) NOTIFICATIONS_CONTAINER).
  { destruct Hready as [Hconn _]. split; [exact Hconn | by right]. }
  assert (Hup2 : fault env (OpUpload NOTIFICATIONS_CONTAINER
                              (report_path r2 (ymd (clock env (clock_reads (world s1))))))
                 = None).
  { by rewrite Hname. }
  destruct (save_persists env r2 s1 Hdemo Hready2 Hd2 He2 Hup2) as (H1 & H2 & H3 & _).
  fold out in H1, H2, H3. rewrite Hname in H2, H3.
  split; [exact H1|]. split; [exact H2|].
  intros c n Hne. rewrite (H3 c n Hne). by apply Hrest1.
Qed.

Lemma last_report_wins_witness :
  let s1 := (save_validation_report (env_connected no_fault) sample_report
               (mkSt sample_report world_with_two)).2 in
  let out := save_validation_report (env_connected no_fault) sample_report_2 s1 in
  out.1 = Ok tt
  /\ stored_blob (world out.2) NOTIFICATIONS_CONTAINER
       "cli-00123/2024/05/17/nota.txt_report.json"
     = Some (mkBlob (ReportJson sample_report_2) []).
Proof.
  pose proof (last_report_wins (env_connected no_fault) sample_report sample_report_2
                (mkSt sample_report world_with_two)) as H.
  destruct H as (H1 & H2 & _);
    [reflexivity | split; [reflexivity | left; reflexivity] | reflexivity | reflexivity
    | reflexivity | reflexivity | reflexivity | reflexivity | reflexivity | reflexivity |].
  split; [exact H1 | exact H2].
Defined.

(** X6: [save_validation_report] raises in one situation only: there is no
    connection string and [json.dumps] refuses the report; the exception is
    then that TypeError.  With a connection string it always returns. *)
Theorem save_raises_only_without_connection (env : Env) (r : Report) (s : St) (e : Exc) :
  (save_validation_report env r s).1 = Raise e
  <-> demo_mode env = true
      /\ exists msg, Json.dumps_report_error r = Some msg /\ e = mkExc TypeError msg.
Proof.
  rewrite save_validation_report_result.
  destruct (demo_mode env).
  - destruct (Json.dumps_report_error r) as [msg|].
    + split.
      * intros H. injection H as <-. split; [reflexivity|]. by exists msg.
      * intros (_ & msg' & Hm & ->). by injection Hm as ->.
    + split; [discriminate|]. by intros (_ & msg & ? & _).
  - split; [discriminate|]. by intros [? _].
Qed.

(** X28: a report whose JSON text cannot be encoded as UTF-8 (a lone
    surrogate that [json.dumps] let through) is not stored: with a
    connection string, [.encode('utf-8')] raises inside the [try] of
    [save_validation_report], after the container was created and before
    the upload; the exception is caught and logged, the function returns,
    and no blob of any container has changed. *)
Theorem unencodable_report_is_not_stored (env : Env) (r : Report) (s : St) (e : Exc) :
  demo_mode env = false ->
  fault env OpConnect = None ->
  Json.dumps_report_error r = None ->
  encode_error env r = Some e ->
  let out := save_validation_report env r s in
  out.1 = Ok tt
  /\ (forall c n, stored_blob (world out.2) c n = stored_blob (world s) c n)
  /\ log (world out.2)
     = log (world s) ++ [Log ERROR ("Erro ao salvar relatório: " +:+ exc_str e)].
Proof.
  intros Hdemo Hconn Hdumps Henc out. subst out.
  destruct s as [rep w]. cbn [world report] in *.
  unfold save_validation_report. rewrite Hdemo.
  unfold from_connection_string, create_container, upload_blob, json_dumps,
    encode_utf8, injected.
  rewrite Hconn, Hdumps, Henc. unfold utc_now. run_monad.
  destruct (fault env (OpCreateContainer NOTIFICATIONS_CONTAINER)) as [e1|]; simpl.
  - by split_and!.
  - destruct (store w !! NOTIFICATIONS_CONTAINER) as [blobs|] eqn:Hblobs; simpl.
    + by split_and!.
    + split_and!; try done. intros c n. rewrite !stored_blob_blob_at.
      by apply blob_at_create.
Qed.

Lemma unencodable_report_is_not_stored_witness :
  let out := save_validation_report env_unencodable sample_report
               (mkSt sample_report world_with_two) in
  out.1 = Ok tt
  /\ stored_blob (world out.2) NOTIFICATIONS_CONTAINER
       "cli-00123/2024/05/17/nota.txt_report.json" = None
  /\ log (world out.2)
     = [Log ERROR "Erro ao salvar relatório: 'utf-8' codec can't encode character '\ud800' in position 214: surrogates not allowed"].
Proof.
  destruct (unencodable_report_is_not_stored env_unencodable sample_report
              (mkSt sample_report world_with_two)
              (mkExc OtherException
                 "'utf-8' codec can't encode character '\ud800' in position 214: surrogates not allowed"))
    as (H1 & H2 & H3); [reflexivity | reflexivity | reflexivity | reflexivity |].
  split; [exact H1|]. split; [by rewrite H2 | exact H3].
Defined.

(** ** A validator that raises has written no metadata *)

Lemma same_metadata_refl s : same_metadata s s.
Proof. reflexivity. Qed.

Lemma same_metadata_trans s1 s2 s3 :
  same_metadata s1 s2 -> same_metadata s2 s3 -> same_metadata s1 s3.
Proof. unfold same_metadata. congruence. Qed.

Lemma record_call_same_metadata c : steps same_metadata (record_call c).
Proof. intros s. reflexivity. Qed.

Lemma append_error_same_metadata msg : steps same_metadata (modify_report (append_error msg)).
Proof. intros s. reflexivity. Qed.

Lemma append_warning_same_metadata msg :
  steps same_metadata (modify_report (append_warning msg)).
Proof. intros s. reflexivity. Qed.

Create HintDb same_metadata.

#[local] Hint Resolve record_call_same_metadata append_error_same_metadata
  append_warning_same_metadata : same_metadata.

Ltac same_metadata_tac :=
  steps_structure same_metadata_refl same_metadata_trans ltac:(auto with same_metadata).

Lemma detect_encoding_same_metadata lib content encs :
  steps same_metadata (detect_encoding lib content encs).
Proof.
  induction encs as [|enc rest IH]; simpl.
  - same_metadata_tac.
  - unfold call_read_csv. same_metadata_tac.
Qed.

Lemma returns_lift_ok {A} (a : A) : returns (lift (Ok a)).
Proof. intros s. by exists a. Qed.

Lemma returns_when b m : returns m -> returns (when b m).
Proof. intros Hm. destruct b; [exact Hm | apply returns_ret]. Qed.

Lemma raises_before_metadata_returns {A} (m : M A) :
  returns m -> raises_before_metadata m.
Proof. intros Hm s. left. apply Hm. Qed.

Lemma raises_before_metadata_bind {A B} (m : M A) (k : A -> M B) :
  steps same_metadata m -> (forall a, raises_before_metadata (k a)) ->
  raises_before_metadata (bind m k).
Proof.
  intros Hm Hk s. unfold bind. specialize (Hm s). unfold same_metadata in Hm.
  destruct (m s) as [[a|e] s1]; simpl in *.
  - destruct (Hk a s1) as [Hok|Hmeta]; [by left | right; congruence].
  - by right.
Qed.

Lemma raises_before_metadata_then_ret {A B} (m : M A) (b : B) :
  raises_before_metadata m -> raises_before_metadata (m;; ret b).
Proof.
  intros Hm s. unfold bind, ret. specialize (Hm s).
  destruct (m s) as [[a|e] s1]; simpl in *.
  - left. by exists b.
  - destruct Hm as [[a Ha]|Hm]; [discriminate | by right].
Qed.

(** Once an encoding is found, the rest of [validate_csv] cannot raise. *)
Lemma validate_csv_rest_returns lib content (found : option (string * DataFrame)) :
  returns
    (match found with
     | None =>
       modify_report (append_error
         "Não foi possível ler o CSV com encodings suportados (UTF-8, Latin-1)")
     | Some (encoding_used, _) =>
       let* full :=
         try_except
           (let* df := call_read_csv lib content encoding_used None in ret (Some df))
           any_exception
           (fun e =>
              modify_report (append_error ("Erro ao parsear CSV: " +:+ exc_str e));;
              ret None) in
       match full with
       | None => ret tt
       | Some df_full =>
         when (csv_max_rows (rules_csv VALIDATION_RULES) <? df_rows df_full)
           (modify_report (append_error (csv_rows_error (df_rows df_full))));;
         when (csv_max_columns (rules_csv VALIDATION_RULES) <? df_cols df_full)
           (modify_report (append_error (csv_columns_error (df_cols df_full))));;
         when (negb (bool_decide (duplicated (df_columns df_full) = [])))
           (modify_report (append_warning
              (csv_duplicates_warning (duplicated (df_columns df_full)))));;
         when (0 <? df_empty_rows df_full)
           (modify_report (append_warning
              (csv_empty_rows_warning (df_empty_rows df_full))));;
         modify_report (set_metadata (csv_metadata encoding_used df_full))
       end
     end).
Proof.
  destruct found as [[enc df5]|]; [|apply returns_modify_report].
  apply returns_bind.
  - apply returns_try_any. intros e.
    apply returns_bind; [apply returns_modify_report | intros _; apply returns_ret].
  - intros [df|]; [|apply returns_ret].
    repeat (apply returns_bind;
            [apply returns_when, returns_modify_report | intros _]).
    apply returns_modify_report.
Qed.

Lemma validate_csv_raises_before_metadata lib content :
  raises_before_metadata (validate_csv lib content).
Proof.
  unfold validate_csv. cbv zeta.
  apply raises_before_metadata_bind; [apply detect_encoding_same_metadata|].
  intros found. apply raises_before_metadata_returns.
  apply (validate_csv_rest_returns lib content found).
Qed.

Lemma validate_json_raises_before_metadata lib content :
  raises_before_metadata (validate_json lib content).
Proof.
  unfold validate_json. cbv zeta.
  destruct (size_mb_exceeds content _).
  - apply raises_before_metadata_returns, returns_modify_report.
  - apply raises_before_metadata_bind.
    + unfold call_decode_utf8, call_decode_latin1, call_json_loads. same_metadata_tac.
    + intros [[items|keys|]|]; apply raises_before_metadata_returns;
        first [apply returns_modify_report | apply returns_ret].
Qed.

(** ** The validators that cannot raise *)

Lemma returns_try_handled {A} (m : M A) handles (h : Exc -> M A) :
  raises_only handles m -> (forall e, returns (h e)) -> returns (try_except m handles h).
Proof.
  intros Hm Hh s. unfold try_except. specialize (Hm s).
  destruct (m s) as [[a|e] s1]; simpl in *.
  - by exists a.
  - rewrite (Hm e eq_refl). apply Hh.
Qed.

Lemma decode_utf8_raises_only_unicode content :
  raises_only (is_class UnicodeDecodeError)
    (let* t := call_decode_utf8 content in ret (Some t)).
Proof.
  intros s e. unfold call_decode_utf8. run_monad.
  destruct (Codec.decode_utf8 content); simpl; [discriminate|].
  intros H. by injection H as <-.
Qed.

Lemma validate_txt_returns content : returns (validate_txt content).
Proof.
  unfold validate_txt. cbv zeta.
  destruct (size_mb_exceeds content _); [apply returns_modify_report|].
  apply returns_bind.
  - apply returns_try_handled; [apply decode_utf8_raises_only_unicode|].
    intros _. apply returns_try_any. intros _.
    apply returns_bind; [apply returns_modify_report | intros _; apply returns_ret].
  - intros [t|]; [apply returns_modify_report | apply returns_ret].
Qed.

Lemma validate_parquet_returns lib content : returns (validate_parquet lib content).
Proof.
  unfold validate_parquet. cbv zeta.
  destruct (size_mb_exceeds content _); [apply returns_modify_report|].
  apply returns_try_any. intros e. apply returns_modify_report.
Qed.

Lemma read_sheets_returns xls sheets total info :
  returns (read_sheets xls sheets total info).
Proof.
  revert total info. induction sheets as [|sheet rest IH]; intros total info; simpl.
  - apply returns_ret.
  - apply returns_bind; [|intros acc; apply IH].
    apply returns_try_any. intros e.
    apply returns_bind; [apply returns_modify_report | intros _; apply returns_ret].
Qed.

Lemma validate_excel_returns lib content : returns (validate_excel lib content).
Proof.
  unfold validate_excel. cbv zeta.
  apply returns_bind.
  - apply returns_try_any. intros e.
    apply returns_bind; [apply returns_modify_report | intros _; apply returns_ret].
  - intros [xls|]; [|apply returns_ret].
    destruct (_ <? _); [apply returns_modify_report|].
    apply returns_bind; [apply read_sheets_returns | intros acc].
    apply returns_bind; [apply returns_when, returns_modify_report | intros _].
    apply returns_modify_report.
Qed.

(** X7: the spreadsheet, Parquet and plain-text validators cannot raise,
    whatever the libraries do: every failure of theirs ends in the report.
    A run on such a blob whose read succeeds therefore always passes the
    validation stage (only the read, the CSV validator and the JSON
    validator can take a run into the handler). *)
Theorem only_csv_and_json_can_raise (lib : Libs) (blob : InputStream) (n : N)
    (now : DateTime) (w : World) (content : bytes) (s : St) :
  (validate_excel lib content s).1 = Ok tt
  /\ (validate_parquet lib content s).1 = Ok tt
  /\ (validate_txt content s).1 = Ok tt
  /\ (stream_read blob = Ok content ->
      extension (initial_report blob n now) <> "csv" ->
      extension (initial_report blob n now) <> "json" ->
      (validate lib blob (entry_state blob n now w)).1 = Ok content).
Proof.
  split_and!.
  - destruct (validate_excel_returns lib content s) as [[] H]; exact H.
  - destruct (validate_parquet_returns lib content s) as [[] H]; exact H.
  - destruct (validate_txt_returns content s) as [[] H]; exact H.
  - intros Hread Hcsv Hjson.
    assert (Hd : returns (dispatch lib (extension (initial_report blob n now)) content)).
    { unfold dispatch.
      rewrite (bool_decide_eq_false_2 _ Hcsv), (bool_decide_eq_false_2 _ Hjson).
      destruct (_ || _); [apply validate_excel_returns|].
      destruct (bool_decide _); [apply validate_parquet_returns|].
      destruct (bool_decide _); [apply validate_txt_returns|].
      apply returns_modify_report. }
    unfold validate, entry_state. run_monad. rewrite Hread. simpl.
    match goal with |- context [dispatch lib _ content ?s1] =>
      destruct (Hd s1) as [[] Hok]; destruct (dispatch lib _ content s1) as [res s2]
    end.
    simpl in Hok. by subst res.
Qed.

Lemma only_csv_and_json_can_raise_witness :
  (validate no_lib xlsx_stream (entry_state xlsx_stream 4 (noon 0) world_with_xlsx)).1
  = Ok xlsx_content.
Proof.
  pose proof (only_csv_and_json_can_raise no_lib xlsx_stream 4 (noon 0) world_with_xlsx
                xlsx_content (fresh_state "livro.xlsx" "xlsx" 4)) as (_ & _ & _ & H).
  apply H; [reflexivity | discriminate | discriminate].
Defined.

(** ** When a run raises *)

Lemma dispatch_raises_before_metadata lib ext content :
  raises_before_metadata (dispatch lib ext content).
Proof.
  unfold dispatch.
  destruct (bool_decide _); [apply validate_csv_raises_before_metadata|].
  destruct (_ || _); [apply raises_before_metadata_returns, validate_excel_returns|].
  destruct (bool_decide _); [apply validate_json_raises_before_metadata|].
  destruct (bool_decide _); [apply raises_before_metadata_returns, validate_parquet_returns|].
  destruct (bool_decide _); [apply raises_before_metadata_returns, validate_txt_returns|].
  apply raises_before_metadata_returns, returns_modify_report.
Qed.

Lemma validate_raises_before_metadata lib blob :
  raises_before_metadata (validate lib blob).
Proof.
  unfold validate.
  apply raises_before_metadata_bind; [same_metadata_tac|]. intros content.
  apply raises_before_metadata_bind; [same_metadata_tac|]. intros r.
  apply raises_before_metadata_then_ret, dispatch_raises_before_metadata.
Qed.

Lemma dumps_report_error_metadata r1 r2 :
  metadata r1 = metadata r2 -> Json.dumps_report_error r1 = Json.dumps_report_error r2.
Proof. unfold Json.dumps_report_error. by intros ->. Qed.

(** The result of a run. *)
Lemma process_result_eq (lib : Libs) (env : Env) (blob : InputStream) (len : N)
    (w : World) (Hlen : stream_length blob = Some len) :
  (process_uploaded_file lib env blob w).1
  = match first_save_error lib env blob len w with
    | Some msg => Raise (mkExc TypeError msg)
    | None => Ok tt
    end.
Proof.
  rewrite (process_uploaded_file_unfold lib env blob len w Hlen). unfold first_save_error, process_body, try_except.
  pose proof (validate_raises_before_metadata lib blob (trigger_state env blob len w)) as Hq.
  unfold bind at 1.
  destruct (validate lib blob (trigger_state env blob len w)) as [[content|e] s1];
    cbn [fst snd] in *.
  - unfold bind at 1.
    pose proof (decide_destination_unfold env content (stream_name blob) s1)
      as (Hdok & _).
    pose proof (decide_destination_metadata env content (stream_name blob) s1) as Hdm.
    destruct (decide_destination env content (stream_name blob) s1) as [dres s2].
    cbn [fst snd] in *. subst dres.
    unfold bind at 1. unfold get_report at 1.
    pose proof (save_validation_report_result env (report s2) s2) as Hres.
    pose proof (save_validation_report_same_report env (report s2) s2) as Hsame.
    unfold same_report in Hsame.
    rewrite (dumps_report_error_metadata _ _ Hdm) in Hres.
    destruct (save_validation_report env (report s2) s2) as [sres s3].
    cbn [fst snd] in *. subst sres.
    destruct (demo_mode env) eqn:Hdemo; [|reflexivity].
    destruct (Json.dumps_report_error (report s1)) as [msg|] eqn:Hd; [|reflexivity].
    cbn [any_exception].
    unfold bind, logging, modify_world, modify_report, get_report. cbn [report world].
    rewrite save_validation_report_result, Hdemo.
    assert (Hd3 : Json.dumps_report_error
                    (append_error ("Erro interno: " +:+ msg) (report s3)) = Some msg).
    { rewrite <- Hd. apply dumps_report_error_metadata. simpl. congruence. }
    simpl in Hd3. simpl. by rewrite Hd3.
  - cbn [any_exception].
    unfold bind, logging, modify_world, modify_report, get_report. cbn [report world].
    rewrite save_validation_report_result.
    destruct Hq as [[a Ha]|Hq]; [discriminate|].
    assert (Hd : Json.dumps_report_error
                   (append_error ("Erro interno: " +:+ exc_str e) (report s1)) = None).
    { transitivity (Json.dumps_report_error (report (trigger_state env blob len w)));
        [|reflexivity].
      apply dumps_report_error_metadata. simpl. exact Hq. }
    simpl in Hd. simpl. rewrite Hd. by destruct (demo_mode env).
Qed.

Lemma first_save_raises_error lib env blob len w :
  first_save_raises lib env blob len w = true <-> first_save_error lib env blob len w <> None.
Proof.
  unfold first_save_raises, first_save_error.
  destruct (validate lib blob _) as [[c|e] s1]; [|split; [discriminate | congruence]].
  destruct (demo_mode env); cbn [andb]; [|split; [discriminate | congruence]].
  destruct (Json.dumps_report_error (report s1)) as [msg|].
  - rewrite bool_decide_eq_true_2 by discriminate. split; [discriminate | reflexivity].
  - rewrite bool_decide_eq_false_2 by (intros H; by apply H). split; [discriminate | congruence].
Qed.

Lemma process_result (lib : Libs) (env : Env) (blob : InputStream) (len : N)
    (w : World) (Hlen : stream_length blob = Some len) :
  (first_save_raises lib env blob len w = false
   /\ (process_uploaded_file lib env blob w).1 = Ok tt)
  \/ (first_save_raises lib env blob len w = true
      /\ exists msg, (process_uploaded_file lib env blob w).1 = Raise (mkExc TypeError msg)).
Proof.
  rewrite (process_result_eq lib env blob len w Hlen).
  pose proof (first_save_raises_error lib env blob len w) as Hiff.
  destruct (first_save_error lib env blob len w) as [msg|].
  - right. split; [apply Hiff; discriminate | by exists msg].
  - left. split; [|reflexivity].
    destruct (first_save_raises lib env blob len w); [|reflexivity].
    exfalso. by apply Hiff.
Qed.

(** A run on a blob without a length stops at the division: the trigger
    line is logged and nothing else is done. *)
Lemma process_without_length (lib : Libs) (env : Env) (blob : InputStream) (w : World) :
  stream_length blob = None ->
  process_uploaded_file lib env blob w
  = (Raise (mkExc TypeError "unsupported operand type(s) for /: 'NoneType' and 'int'"),
     mkSt no_report
       (mkWorld (store w) (clock_reads w)
          (log w ++ [Log INFO ("[TRIGGER] Novo arquivo detectado: "
                               +:+ stream_name blob +:+ " (None bytes)")])
          (calls w))).
Proof. intros Hlen. unfold process_uploaded_file. by rewrite Hlen. Qed.

(** X8: [process_uploaded_file] lets an exception out in two situations
    only.  When [blob.length] is None, the division that computes
    [size_mb] raises a TypeError before the [try] is entered: the trigger
    line is logged, and the blob is not read, not moved and no report is
    saved, with or without a connection string.  When [blob.length] is a
    number, the run raises exactly when there is no connection string, the
    validation stage returned, and [json.dumps] refuses the report it left;
    the exception is that TypeError.  In particular a run on a blob with a
    length and a connection string always returns, and so does every run
    whose read or validator raised. *)
Theorem run_raises_in_two_situations (lib : Libs) (env : Env)
    (blob : InputStream) (w : World) :
  let out := process_uploaded_file lib env blob w in
  (stream_length blob = None ->
   out.1 = Raise (mkExc TypeError "unsupported operand type(s) for /: 'NoneType' and 'int'")
   /\ calls (world out.2) = calls w
   /\ store (world out.2) = store w
   /\ clock_reads (world out.2) = clock_reads w
   /\ log (world out.2)
      = log w ++ [Log INFO ("[TRIGGER] Novo arquivo detectado: "
                            +:+ stream_name blob +:+ " (None bytes)")])
  /\ (forall len, stream_length blob = Some len ->
      (out.1 = Ok tt <-> first_save_raises lib env blob len w = false)
      /\ (first_save_raises lib env blob len w = true ->
          exists msg, out.1 = Raise (mkExc TypeError msg))
      /\ (demo_mode env = false -> out.1 = Ok tt)
      /\ (forall e s1, validate lib blob (trigger_state env blob len w) = (Raise e, s1) ->
          out.1 = Ok tt)).
Proof.
  intros out. subst out. split.
  - intros Hlen. rewrite (process_without_length lib env blob w Hlen).
    split_and!; reflexivity.
  - intros len Hlen.
    destruct (process_result lib env blob len w Hlen) as [[Hf Hr]|[Hf [msg Hr]]].
    + split_and!.
      * by rewrite Hr, Hf.
      * rewrite Hf. discriminate.
      * intros _. exact Hr.
      * intros _ _ _. exact Hr.
    + split_and!.
      * rewrite Hr, Hf. split; discriminate.
      * intros _. by exists msg.
      * intros Hdemo. unfold first_save_raises in Hf. rewrite Hdemo in Hf.
        destruct (validate lib blob _) as [[?|?] ?]; discriminate.
      * intros e s1 Hv. unfold first_save_raises in Hf. rewrite Hv in Hf. discriminate.
Qed.

Lemma run_raises_in_two_situations_witness :
  (process_uploaded_file lib_empty_csv (env_connected no_fault) empty_csv_stream
     world_with_empty_csv).1 = Ok tt
  /\ (exists msg,
       (process_uploaded_file (lib_with_workbook workbook_dated) env_demo xlsx_stream
          world_with_xlsx).1 = Raise (mkExc TypeError msg))
  /\ (let out := process_uploaded_file no_lib (env_connected no_fault) zero_byte_stream
                   world_with_zero_byte in
      out.1 = Raise (mkExc TypeError "unsupported operand type(s) for /: 'NoneType' and 'int'")
      /\ calls (world out.2) = []
      /\ store (world out.2) = store world_with_zero_byte).
Proof.
  split; [|split].
  - apply (run_raises_in_two_situations lib_empty_csv (env_connected no_fault)
             empty_csv_stream world_with_empty_csv) with (len := 1); reflexivity.
  - apply (run_raises_in_two_situations (lib_with_workbook workbook_dated)
             env_demo xlsx_stream world_with_xlsx) with (len := 4); reflexivity.
  - pose proof (run_raises_in_two_situations no_lib (env_connected no_fault)
                  zero_byte_stream world_with_zero_byte) as [H _].
    destruct (H eq_refl) as (H1 & H2 & H3 & _). split_and!; assumption.
Defined.

(** ** The report handed to the emitter *)

(** When the first save returns, it is the only one, and it is given the
    report the run ends with. *)
Lemma single_save_is_final_report (lib : Libs) (env : Env) (blob : InputStream)
    (len : N)
    (w : World) (Hlen : stream_length blob = Some len) :
  first_save_raises lib env blob len w = false ->
  saves (world (process_uploaded_file lib env blob w).2)
  = saves w ++ [CallSaveReport (report (process_uploaded_file lib env blob w).2)].
Proof.
  intros Hfirst.
  assert (Hout : exists r w',
            saves w' = saves w
            /\ process_uploaded_file lib env blob w = save_validation_report env r (mkSt r w')).
  { revert Hfirst. rewrite (process_uploaded_file_unfold lib env blob len w Hlen).
    unfold first_save_raises, process_body, try_except.
    pose proof (validate_frame lib blob (trigger_state env blob len w)) as (_ & _ & _ & _ & Hv).
    unfold bind at 1.
    destruct (validate lib blob (trigger_state env blob len w)) as [[content|e] s1];
      cbn [fst snd] in *; intros Hfirst.
    - unfold bind at 1.
      pose proof (decide_destination_unfold env content (stream_name blob) s1)
        as (Hdok & _).
      pose proof (decide_destination_saves env content (stream_name blob) s1) as Hds.
      pose proof (decide_destination_metadata env content (stream_name blob) s1) as Hdm.
      destruct (decide_destination env content (stream_name blob) s1) as [dres s2].
      cbn [fst snd] in *. subst dres.
      unfold bind at 1. unfold get_report at 1.
      exists (report s2), (world s2). split; [by rewrite Hds, Hv|].
      pose proof (save_validation_report_result env (report s2) s2) as Hres.
      rewrite (dumps_report_error_metadata _ _ Hdm) in Hres.
      destruct s2 as [r2 w2]. cbn [report world] in *.
      destruct (save_validation_report env r2 _) as [sres s3].
      cbn [fst snd] in *. subst sres.
      destruct (demo_mode env); [|reflexivity].
      destruct (Json.dumps_report_error (report s1)); [|reflexivity].
      cbn [andb] in Hfirst. by rewrite bool_decide_eq_true_2 in Hfirst.
    - cbn [any_exception].
      unfold bind, logging, modify_world, modify_report, get_report. cbn [report world].
      eexists _, _. split; [|reflexivity]. exact Hv. }
  destruct Hout as (r & w' & Hs & ->).
  rewrite save_validation_report_saves.
  rewrite (save_validation_report_same_report env r (mkSt r w')).
  cbn [world report]. by rewrite Hs.
Qed.

(** X9: in every run on a blob whose [blob.length] is a number and whose
    first save returns (with such a blob: every run with a connection
    string, and every run whose report serialises), the emitter is called
    exactly once, with the report the run ends with, and that report is
    consistent: [valid] is true exactly when [errors] is empty.  (A blob
    whose length is None never reaches the emitter.) *)
Theorem emitted_report_is_consistent (lib : Libs) (env : Env) (blob : InputStream)
    (len : N) (w : World) :
  stream_length blob = Some len ->
  first_save_raises lib env blob len w = false ->
  let out := process_uploaded_file lib env blob w in
  let r := report out.2 in
  saves (world out.2) = saves w ++ [CallSaveReport r]
  /\ (valid r = true <-> errors r = []).
Proof.
  intros Hlen Hfirst out r.
  split; [by apply (single_save_is_final_report lib env blob len w Hlen)|].
  subst r out. rewrite (process_final_report lib env blob len w Hlen). revert Hfirst.
  unfold first_save_raises, final_report.
  pose proof (validate_keeps_valid lib blob (trigger_state env blob len w)) as Hvalid.
  destruct (validate lib blob (trigger_state env blob len w)) as [[content|e] s1];
    cbn [snd] in Hvalid; change (valid (report s1) = false) in Hvalid.
  - intros Hfirst.
    assert (Hdec : valid (decided (report s1)) = true <-> errors (decided (report s1)) = []).
    { unfold decided. destruct (decide (errors (report s1) = [])) as [He|He].
      - rewrite bool_decide_eq_true_2 by done. destruct (report s1); simpl in *. by split.
      - rewrite bool_decide_eq_false_2 by done. rewrite Hvalid.
        split; [discriminate | contradiction]. }
    destruct (demo_mode env); [|exact Hdec].
    destruct (Json.dumps_report_error (decided (report s1))) as [msg|] eqn:Hd;
      [|exact Hdec].
    exfalso. cbn [andb] in Hfirst.
    assert (Hd1 : Json.dumps_report_error (report s1) = Some msg).
    { rewrite <- Hd. apply dumps_report_error_metadata. unfold decided.
      destruct (bool_decide (errors (report s1) = [])); reflexivity. }
    rewrite Hd1 in Hfirst. by rewrite bool_decide_eq_true_2 in Hfirst.
  - intros _. unfold internal_error. simpl. rewrite Hvalid.
    split; [discriminate|]. intros H. by apply app_eq_nil in H as [_ ?].
Qed.

Lemma emitted_report_is_consistent_witness :
  let out := process_uploaded_file no_lib (env_connected no_fault) sample_stream
               world_with_sample in
  saves (world out.2) = [CallSaveReport (report out.2)]
  /\ (valid (report out.2) = true <-> errors (report out.2) = []).
Proof.
  apply (emitted_report_is_consistent no_lib (env_connected no_fault) sample_stream 3
           world_with_sample); reflexivity.
Defined.

(** ** A run, stage by stage *)

Lemma process_decomposed (lib : Libs) (env : Env) (blob : InputStream) (len : N)
    (w : World) (Hlen : stream_length blob = Some len) :
  process_uploaded_file lib env blob w
  = match validate lib blob (trigger_state env blob len w) with
    | (Ok content, s1) =>
      let s2 := (decide_destination env content (stream_name blob) s1).2 in
      match save_validation_report env (report s2) s2 with
      | (Ok u, s3) => (Ok u, s3)
      | (Raise e, s3) =>
        save_validation_report env (report (handler_state blob e s3))
          (handler_state blob e s3)
      end
    | (Raise e, s1) =>
      save_validation_report env (report (handler_state blob e s1))
        (handler_state blob e s1)
    end.
Proof.
  rewrite (process_uploaded_file_unfold lib env blob len w Hlen). unfold process_body, try_except.
  unfold bind at 1.
  destruct (validate lib blob (trigger_state env blob len w)) as [[content|e] s1].
  - unfold bind at 1.
    pose proof (decide_destination_unfold env content (stream_name blob) s1) as (Hdok & _).
    destruct (decide_destination env content (stream_name blob) s1) as [dres s2].
    cbn [fst snd] in *. subst dres.
    unfold bind at 1. unfold get_report at 1.
    destruct (save_validation_report env (report s2) s2) as [[[]|e] s3]; [reflexivity|].
    reflexivity.
  - reflexivity.
Qed.

(** ** The blobs a step may change *)

Lemma touches_refl T s : touches T s s.
Proof. intros c n. by left. Qed.

Lemma touches_trans T s1 s2 s3 : touches T s1 s2 -> touches T s2 s3 -> touches T s1 s3.
Proof.
  intros H12 H23 c n.
  destruct (H23 c n) as [->|?]; [|by right]. apply H12.
Qed.

Lemma touches_weaken (T T' : string -> string -> Prop) s s' :
  (forall c n, T c n -> T' c n) -> touches T s s' -> touches T' s s'.
Proof. intros HT H c n. destruct (H c n) as [?|?]; [by left | right; by apply HT]. Qed.

Lemma touches_same_store T s s' : store (world s') = store (world s) -> touches T s s'.
Proof. intros Hst c n. left. by rewrite Hst. Qed.

Lemma modify_report_touches T f : steps (touches T) (modify_report f).
Proof. intros s. by apply touches_same_store. Qed.

Lemma record_call_touches T c : steps (touches T) (record_call c).
Proof. intros s. by apply touches_same_store. Qed.

Lemma logging_touches T level msg : steps (touches T) (logging level msg).
Proof. intros s. by apply touches_same_store. Qed.

Lemma logging_entry_touches T e : steps (touches T) (logging_entry e).
Proof. intros s. by apply touches_same_store. Qed.

Lemma utc_now_touches T env : steps (touches T) (utc_now env).
Proof. intros s. by apply touches_same_store. Qed.

Create HintDb touches.

#[local] Hint Resolve modify_report_touches record_call_touches logging_touches
  logging_entry_touches utc_now_touches : touches.

Ltac touches_tac T :=
  steps_structure (touches_refl T) (touches_trans T) ltac:(auto with touches).

Lemma injected_touches T env op : steps (touches T) (injected env op).
Proof. unfold injected. touches_tac T. Qed.

Lemma json_dumps_touches T r : steps (touches T) (json_dumps r).
Proof. unfold json_dumps. touches_tac T. Qed.

Lemma encode_utf8_touches T env r : steps (touches T) (encode_utf8 env r).
Proof. unfold encode_utf8. touches_tac T. Qed.

Lemma create_container_touches T env c : steps (touches T) (create_container env c).
Proof.
  intros s c' n'. left. unfold create_container, injected.
  destruct (fault env (OpCreateContainer c)); run_monad; [done|].
  destruct (store (world s) !! c) eqn:Hc; simpl; [done|]. by apply blob_at_create.
Qed.

Lemma upload_blob_touches (T : string -> string -> Prop) env c name data tags :
  T c name -> steps (touches T) (upload_blob env c name data tags).
Proof.
  intros HT s c' n'. unfold upload_blob, injected.
  destruct (fault env (OpUpload c name)); run_monad; [by left|].
  destruct (store (world s) !! c) as [blobs|] eqn:Hc; simpl; [|by left].
  rewrite (blob_at_put _ _ _ _ _ c' n' Hc).
  case_bool_decide as Heq; [|by left]. destruct Heq as [<- <-]. by right.
Qed.

Lemma delete_blob_touches (T : string -> string -> Prop) env c name :
  T c name -> steps (touches T) (delete_blob env c name).
Proof.
  intros HT s c' n'. unfold delete_blob, injected.
  destruct (fault env (OpDelete c name)); run_monad; [by left|].
  destruct (store (world s) !! c) as [blobs|] eqn:Hc; simpl; [|by left].
  destruct (blobs !! name); simpl; [|by left].
  rewrite (blob_at_remove _ _ _ _ c' n' Hc).
  case_bool_decide as Heq; [|by left]. destruct Heq as [<- <-]. by right.
Qed.

#[local] Hint Resolve injected_touches json_dumps_touches encode_utf8_touches
  create_container_touches : touches.

(** [move_blob] changes no blob but the copy it writes and the source it
    deletes. *)
Lemma move_blob_touches env content path dest r :
  steps (touches (move_targets path dest)) (move_blob env content path dest r).
Proof.
  unfold move_blob, from_connection_string.
  assert (Hup : forall now,
    steps (touches (move_targets path dest))
      (upload_blob env dest (PyStr.replace "uploads-clientes/" "" path) (RawBytes content)
         [ ("validation_status", if valid r then "valid" else "rejected");
           ("validated_at", isoformat now);
           ("original_path", path) ])).
  { intros now. apply upload_blob_touches. split; [reflexivity | by left]. }
  assert (Hdel :
    steps (touches (move_targets path dest))
      (delete_blob env "uploads-clientes"
         (PyStr.replace ("uploads-clientes" +:+ "/") "" path))).
  { apply delete_blob_touches. split; [reflexivity | by right]. }
  touches_tac (move_targets path dest).
Qed.

(** [save_validation_report] changes no blob but a report of the client
    and file named in the report it is given. *)
Lemma save_validation_report_touches env r :
  steps (touches (report_targets r)) (save_validation_report env r).
Proof.
  unfold save_validation_report, from_connection_string.
  assert (Hup : forall now,
    steps (touches (report_targets r))
      (upload_blob env NOTIFICATIONS_CONTAINER
         (client r +:+ "/" +:+ ymd now +:+ "/" +:+ filename r +:+ "_report.json")
         (ReportJson r) [])).
  { intros now. apply upload_blob_touches. split; [reflexivity|]. by exists (ymd now). }
  touches_tac (report_targets r).
Qed.

Lemma report_targets_same r r' c n :
  client r = client r' -> filename r = filename r' ->
  report_targets r c n -> report_targets r' c n.
Proof.
  intros Hc Hf [-> [date ->]]. split; [reflexivity|]. exists date.
  unfold report_path. by rewrite Hc, Hf.
Qed.

Lemma validator_frame_names s s' :
  validator_frame s s' ->
  client (report s') = client (report s) /\ filename (report s') = filename (report s).
Proof. intros (H & _). unfold identity_of in H. split; congruence. Qed.

Lemma decide_destination_touches env content name s :
  touches (move_targets name (destination_for (report s))) s
    (decide_destination env content name s).2.
Proof.
  pose proof (decide_destination_unfold env content name s) as (_ & _ & _ & Hst).
  cbv zeta in Hst. intros c n. rewrite Hst.
  match goal with |- context [move_blob env content name ?d ?r ?s0] =>
    exact (move_blob_touches env content name d r s0 c n)
  end.
Qed.

Lemma destination_is_staging_or_rejected r :
  destination_for r = STAGING_CONTAINER \/ destination_for r = REJECTED_CONTAINER.
Proof. unfold destination_for. destruct (bool_decide _); [by left | by right]. Qed.

(** The blobs a run may change are those that [run_targets] names, for the
    report it ends with. *)
Lemma run_touches_run_targets (lib : Libs) (env : Env) (blob : InputStream) (len : N)
    (w : World) (Hlen : stream_length blob = Some len) :
  let out := process_uploaded_file lib env blob w in
  touches (run_targets blob (report out.2)) (trigger_state env blob len w) out.2.
Proof.
  intros out.
  pose proof (process_final_report lib env blob len w Hlen) as Hfinal. fold out in Hfinal.
  assert (Hid : client (report out.2) = client (report (trigger_state env blob len w))
                /\ filename (report out.2) = filename (report (trigger_state env blob len w))).
  { rewrite Hfinal. unfold final_report.
    pose proof (validator_frame_names _ _ (validate_frame lib blob (trigger_state env blob len w)))
      as [Hc Hf].
    destruct (validate lib blob (trigger_state env blob len w)) as [[content|e] s1];
      cbn [snd] in Hc, Hf; rewrite <- Hc, <- Hf.
    - unfold decided, internal_error.
      destruct (demo_mode env); [destruct (Json.dumps_report_error _)|];
        destruct (bool_decide _); by split.
    - by split. }
  destruct Hid as [Hclient Hfile].
  subst out. revert Hclient Hfile. rewrite (process_decomposed lib env blob len w Hlen).
  pose proof (validate_frame lib blob (trigger_state env blob len w)) as (_ & Hstore & _).
  pose proof (validator_frame_names _ _ (validate_frame lib blob (trigger_state env blob len w)))
    as [Hc Hf].
  destruct (validate lib blob (trigger_state env blob len w)) as [[content|e] s1];
    cbn [snd] in Hc, Hf, Hstore.
  - cbv zeta.
    pose proof (decide_destination_touches env content (stream_name blob) s1) as Hmove.
    pose proof (decide_destination_unfold env content (stream_name blob) s1)
      as (_ & Hrep & _).
    cbv zeta in Hrep. fold (decided (report s1)) in Hrep.
    set (s2 := (decide_destination env content (stream_name blob) s1).2) in *.
    pose proof (save_validation_report_touches env (report s2) s2) as Hsave.
    pose proof (save_validation_report_same_report env (report s2) s2) as Hsame.
    unfold same_report in Hsame.
    assert (Hc2 : client (report s2) = client (report s1)
                  /\ filename (report s2) = filename (report s1)).
    { rewrite Hrep. unfold decided. by destruct (bool_decide _). }
    destruct Hc2 as [Hc2 Hf2].
    assert (H02 : forall r, client r = client (report s1) -> filename r = filename (report s1) ->
              touches (run_targets blob r) (trigger_state env blob len w) s2).
    { intros r Hrc Hrf.
      apply (touches_trans _ _ s1); [by apply touches_same_store|].
      eapply touches_weaken; [|exact Hmove].
      intros c' n' [-> Hcase]. left. split; [reflexivity|].
      destruct Hcase as [->| ->]; [|by left].
      destruct (destination_is_staging_or_rejected (report s1)) as [-> | ->]; auto. }
    destruct (save_validation_report env (report s2) s2) as [[u|e] s3];
      cbn [snd] in Hsave, Hsame; intros Hclient Hfile; cbn [snd] in *.
    + apply (touches_trans _ _ s2); [apply H02; congruence|].
      eapply touches_weaken; [|exact Hsave].
      intros c' n' Ht. right.
      apply (report_targets_same (report s2)); [congruence | congruence | exact Ht].
    + match goal with |- context [save_validation_report env ?r ?s0] =>
        pose proof (save_validation_report_touches env r s0) as Hsave2;
        pose proof (save_validation_report_same_report env r s0) as Hsame2
      end.
      unfold same_report in Hsame2. rewrite Hsame2 in Hclient, Hfile |- *.
      apply (touches_trans _ _ s2).
      { apply H02; cbn [handler_state report internal_error]; simpl; congruence. }
      apply (touches_trans _ _ s3).
      { eapply touches_weaken; [|exact Hsave]. intros c' n' Ht. right.
        apply (report_targets_same (report s2)); [| | exact Ht];
          cbn [handler_state report]; simpl; congruence. }
      apply (touches_trans _ _ (handler_state blob e s3));
        [by apply touches_same_store|].
      eapply touches_weaken; [|exact Hsave2]. intros c' n' Ht. by right.
  - intros Hclient Hfile.
    match goal with |- context [save_validation_report env ?r ?s0] =>
      pose proof (save_validation_report_touches env r s0) as Hsave2;
      pose proof (save_validation_report_same_report env r s0) as Hsame2
    end.
    unfold same_report in Hsame2. rewrite Hsame2.
    apply (touches_trans _ _ s1); [by apply touches_same_store|].
    apply (touches_trans _ _ (handler_state blob e s1));
      [by apply touches_same_store|].
    eapply touches_weaken; [|exact Hsave2]. intros c' n' Ht. by right.
Qed.

Lemma run_changes_named_blobs_only (lib : Libs) (env : Env) (blob : InputStream)
    (w : World) (c n : string) :
  let out := process_uploaded_file lib env blob w in
  stored_blob (world out.2) c n = stored_blob w c n
  \/ run_targets blob (report out.2) c n.
Proof.
  intros out. destruct (stream_length blob) as [len|] eqn:Hlen.
  - rewrite !stored_blob_blob_at.
    exact (run_touches_run_targets lib env blob len w Hlen c n).
  - left. subst out. by rewrite (process_without_length lib env blob w Hlen).
Qed.

(** X10: for a trigger name that holds [uploads-clientes/] as its prefix and
    nowhere else, a run changes no blob other than the upload it was
    triggered for, the copy of it in staging or rejected, and a report of
    that client and file in notifications; every other blob of every
    container is left as it was, whatever the store refuses and whatever
    [blob.length] is. *)
Theorem run_touches_only_its_own_blobs (lib : Libs) (env : Env) (blob : InputStream)
    (w : World) (rest c n : string) :
  stream_name blob = "uploads-clientes/" +:+ rest ->
  relative_path (stream_name blob) = rest ->
  let out := process_uploaded_file lib env blob w in
  stored_blob (world out.2) c n = stored_blob w c n
  \/ (n = rest
      /\ (c = UPLOADS_CONTAINER \/ c = STAGING_CONTAINER \/ c = REJECTED_CONTAINER))
  \/ (c = NOTIFICATIONS_CONTAINER
      /\ exists date, n = report_path (report out.2) date).
Proof.
  intros Hname Hrel out.
  destruct (run_changes_named_blobs_only lib env blob w c n) as [Hsame|[Hup|Hrep]].
  - by left.
  - right. left. by rewrite <- Hrel.
  - right. right. exact Hrep.
Qed.

Lemma run_touches_only_its_own_blobs_witness :
  let out := process_uploaded_file no_lib (env_connected no_fault) sample_stream
               world_with_two in
  stored_blob (world out.2) STAGING_CONTAINER "cli-00123/antigo.txt" = Some older_blob.
Proof.
  intros out.
  destruct (run_touches_only_its_own_blobs no_lib (env_connected no_fault) sample_stream
              world_with_two "cli-00123/2024/05/17/nota.txt"
              STAGING_CONTAINER "cli-00123/antigo.txt" eq_refl eq_refl)
    as [H|[[H _]|[H _]]].
  - exact H.
  - discriminate H.
  - discriminate H.
Defined.

(** X26: a trigger name that holds [uploads-clientes/] again after its
    prefix is not the name the run works on: [move_blob] removes every
    occurrence, so the copy and the deletion go to another name, and the
    upload the run was triggered for is left in the uploads container as it
    was, whatever the outcome of the validation. *)
Theorem repeated_prefix_leaves_the_upload (lib : Libs) (env : Env) (blob : InputStream)
    (w : World) (rest : string) :
  stream_name blob = "uploads-clientes/" +:+ rest ->
  relative_path (stream_name blob) <> rest ->
  let out := process_uploaded_file lib env blob w in
  stored_blob (world out.2) UPLOADS_CONTAINER rest = stored_blob w UPLOADS_CONTAINER rest.
Proof.
  intros Hname Hrel out.
  destruct (run_changes_named_blobs_only lib env blob w UPLOADS_CONTAINER rest)
    as [Hsame|[[Hup _]|[Hrep _]]].
  - exact Hsame.
  - by destruct Hrel.
  - discriminate Hrep.
Qed.

Lemma repeated_prefix_leaves_the_upload_witness :
  let out := process_uploaded_file no_lib (env_connected no_fault) nested_stream
               world_with_nested in
  out.1 = Ok tt
  /\ stored_blob (world out.2) UPLOADS_CONTAINER "uploads-clientes/2024/05/17/f.txt"
     = Some (mkBlob (RawBytes sample_content) [])
  /\ stored_blob world_with_nested UPLOADS_CONTAINER "2024/05/17/f.txt" = Some older_blob
  /\ stored_blob (world out.2) UPLOADS_CONTAINER "2024/05/17/f.txt" = None
  /\ blob_data <$> stored_blob (world out.2) STAGING_CONTAINER "2024/05/17/f.txt"
     = Some (RawBytes sample_content).
Proof.
  intros out. split; [reflexivity|]. split; [|split_and!; reflexivity].
  subst out.
  rewrite (repeated_prefix_leaves_the_upload no_lib (env_connected no_fault) nested_stream
             world_with_nested "uploads-clientes/2024/05/17/f.txt" eq_refl).
  - reflexivity.
  - discriminate.
Defined.

(** ** The calls of [move_blob] *)

Lemma same_moves_refl s : same_moves s s.
Proof. reflexivity. Qed.

Lemma same_moves_trans s1 s2 s3 : same_moves s1 s2 -> same_moves s2 s3 -> same_moves s1 s3.
Proof. unfold same_moves. congruence. Qed.

Lemma modify_report_same_moves f : steps same_moves (modify_report f).
Proof. intros s. reflexivity. Qed.

Lemma record_call_same_moves c : is_move c = false -> steps same_moves (record_call c).
Proof.
  intros Hc s. unfold same_moves, moves; simpl.
  rewrite List.filter_app; simpl. rewrite Hc. apply app_nil_r.
Qed.

Create HintDb same_moves.

#[local] Hint Resolve modify_report_same_moves record_call_same_moves : same_moves.

Ltac same_moves_tac :=
  steps_structure same_moves_refl same_moves_trans ltac:(auto with same_moves).

Lemma detect_encoding_same_moves lib content encs :
  steps same_moves (detect_encoding lib content encs).
Proof.
  induction encs as [|enc rest IH]; simpl.
  - same_moves_tac.
  - unfold call_read_csv. same_moves_tac.
Qed.

Lemma read_sheets_same_moves xls sheets total info :
  steps same_moves (read_sheets xls sheets total info).
Proof.
  revert total info. induction sheets as [|sheet rest IH]; intros total info; simpl.
  - same_moves_tac.
  - same_moves_tac.
Qed.

#[local] Hint Resolve detect_encoding_same_moves read_sheets_same_moves : same_moves.

Lemma validate_same_moves lib blob : steps same_moves (validate lib blob).
Proof.
  unfold validate, dispatch, validate_csv, validate_excel, validate_json,
    validate_parquet, validate_txt, call_read_csv, call_decode_utf8,
    call_decode_latin1, call_json_loads.
  same_moves_tac.
Qed.

Lemma moves_app w l : List.filter is_move (calls w ++ l) = moves w ++ List.filter is_move l.
Proof. unfold moves. apply List.filter_app. Qed.

(** The calls of [move_blob] in a run: one, for the destination the errors
    decide, when the validation stage returns; none when it raises. *)
Lemma process_moves (lib : Libs) (env : Env) (blob : InputStream) (len : N)
    (w : World) (Hlen : stream_length blob = Some len) :
  moves (world (process_uploaded_file lib env blob w).2)
  = moves w
    ++ match validate lib blob (trigger_state env blob len w) with
       | (Ok _, s1) => [CallMoveBlob (destination_for (report s1))]
       | (Raise _, _) => []
       end.
Proof.
  rewrite (process_decomposed lib env blob len w Hlen).
  pose proof (validate_same_moves lib blob (trigger_state env blob len w)) as Hv.
  unfold same_moves in Hv.
  change (moves (world (trigger_state env blob len w))) with (moves w) in Hv.
  assert (Hsave : forall r s, moves (world (save_validation_report env r s).2)
                              = moves (world s)).
  { intros r s. unfold moves at 1. rewrite save_validation_report_calls.
    rewrite moves_app. simpl. apply app_nil_r. }
  destruct (validate lib blob (trigger_state env blob len w)) as [[content|e] s1];
    cbn [snd] in Hv.
  - cbv zeta.
    pose proof (decide_destination_unfold env content (stream_name blob) s1)
      as (_ & _ & Hcalls & _).
    cbv zeta in Hcalls. rewrite move_blob_calls in Hcalls. cbn [world] in Hcalls.
    set (s2 := (decide_destination env content (stream_name blob) s1).2) in *.
    assert (Hm2 : moves (world s2)
                  = moves w ++ [CallMoveBlob (destination_for (report s1))]).
    { unfold moves at 1. rewrite Hcalls, moves_app. simpl. by rewrite Hv. }
    pose proof (Hsave (report s2) s2) as Hs3.
    destruct (save_validation_report env (report s2) s2) as [[u|e] s3]; cbn [snd] in *.
    + by rewrite Hs3.
    + rewrite Hsave. cbn [handler_state world]. unfold moves in *. simpl. by rewrite Hs3.
  - rewrite Hsave. cbn [handler_state world]. unfold moves in *. simpl.
    rewrite Hv. by rewrite app_nil_r.
Qed.

(** X11: when the read of the blob or the validator raises (in a run on a
    blob whose [blob.length] is a number: no other run reaches the read),
    the run still returns; [move_blob] is not called, so the upload stays
    in uploads-clientes and nothing is written to staging or rejected (only
    the notifications container can change); the report keeps
    [valid = false] and ends with the internal error. *)
Theorem failed_validation_leaves_the_upload (lib : Libs) (env : Env)
    (blob : InputStream) (len : N) (w : World) (e : Exc) (s1 : St) :
  stream_length blob = Some len ->
  validate lib blob (trigger_state env blob len w) = (Raise e, s1) ->
  let out := process_uploaded_file lib env blob w in
  out.1 = Ok tt
  /\ moves (world out.2) = moves w
  /\ (forall c n, c <> NOTIFICATIONS_CONTAINER ->
      stored_blob (world out.2) c n = stored_blob w c n)
  /\ valid (report out.2) = false
  /\ errors (report out.2) = errors (report s1) ++ ["Erro interno: " +:+ exc_str e].
Proof.
  intros Hlen Hv out.
  assert (Hres : out.1 = Ok tt).
  { destruct (process_result lib env blob len w Hlen) as [[_ Hr]|[Hf _]]; [exact Hr|].
    unfold first_save_raises in Hf. rewrite Hv in Hf. discriminate. }
  assert (Hmoves : moves (world out.2) = moves w).
  { subst out. rewrite (process_moves lib env blob len w Hlen), Hv. apply app_nil_r. }
  assert (Hrep : report out.2 = internal_error (exc_str e) (report s1)).
  { subst out. rewrite (process_final_report lib env blob len w Hlen). unfold final_report. by rewrite Hv. }
  pose proof (validate_keeps_valid lib blob (trigger_state env blob len w)) as Hvalid.
  pose proof (validate_frame lib blob (trigger_state env blob len w)) as (_ & Hstore & _).
  rewrite Hv in Hvalid, Hstore. cbn [snd] in Hvalid, Hstore.
  split_and!; [exact Hres | exact Hmoves | | by rewrite Hrep | by rewrite Hrep].
  intros c n Hc. subst out. rewrite (process_decomposed lib env blob len w Hlen), Hv.
  match goal with |- context [save_validation_report env ?r ?s0] =>
    destruct (save_validation_report_touches env r s0 c n) as [Heq|[Hn _]]
  end; [|done].
  rewrite !stored_blob_blob_at, Heq. cbn [handler_state world store].
  by rewrite Hstore.
Qed.

Lemma failed_validation_leaves_the_upload_witness :
  let out := process_uploaded_file lib_empty_csv (env_connected no_fault)
               empty_csv_stream world_with_empty_csv in
  out.1 = Ok tt
  /\ moves (world out.2) = []
  /\ stored_blob (world out.2) UPLOADS_CONTAINER "cli-00123/2024/05/17/vazio.csv"
     = Some (mkBlob (RawBytes empty_csv_content) [])
  /\ stored_blob (world out.2) REJECTED_CONTAINER "cli-00123/2024/05/17/vazio.csv" = None
  /\ valid (report out.2) = false
  /\ errors (report out.2) = ["Erro interno: No columns to parse from file"].
Proof.
  pose proof (failed_validation_leaves_the_upload lib_empty_csv (env_connected no_fault)
                empty_csv_stream 1 world_with_empty_csv
                (mkExc OtherException "No columns to parse from file")
                (validate lib_empty_csv empty_csv_stream
                   (trigger_state (env_connected no_fault) empty_csv_stream 1
                      world_with_empty_csv)).2 eq_refl eq_refl)
    as (H1 & H2 & H3 & H4 & H5).
  split_and!; [exact H1 | exact H2 | | | exact H4 | exact H5].
  - by rewrite H3.
  - by rewrite H3.
Defined.

(** The trace of a run whose first save returns: the calls of the
    validation stage, the move when that stage returned, and one call of the
    emitter, with the report the run ends with. *)
Lemma process_calls (lib : Libs) (env : Env) (blob : InputStream) (len : N)
    (w : World) (Hlen : stream_length blob = Some len) :
  first_save_raises lib env blob len w = false ->
  calls (world (process_uploaded_file lib env blob w).2)
  = calls (world (validate lib blob (trigger_state env blob len w)).2)
    ++ match validate lib blob (trigger_state env blob len w) with
       | (Ok _, s1) => [CallMoveBlob (destination_for (report s1))]
       | (Raise _, _) => []
       end
    ++ [CallSaveReport (report (process_uploaded_file lib env blob w).2)].
Proof.
  intros Hfirst.
  pose proof (process_result lib env blob len w Hlen) as [[_ Hok]|[Hf _]]; [|congruence].
  revert Hok. rewrite (process_decomposed lib env blob len w Hlen). clear Hfirst.
  destruct (validate lib blob (trigger_state env blob len w)) as [[content|e] s1]; cbn [snd].
  - cbv zeta.
    pose proof (decide_destination_unfold env content (stream_name blob) s1)
      as (_ & _ & Hcalls & _).
    cbv zeta in Hcalls. rewrite move_blob_calls in Hcalls. cbn [world] in Hcalls.
    set (s2 := (decide_destination env content (stream_name blob) s1).2) in *.
    pose proof (save_validation_report_calls env (report s2) s2) as Hs.
    pose proof (save_validation_report_same_report env (report s2) s2) as Hr.
    pose proof (save_validation_report_result env (report s2) s2) as Hres.
    unfold same_report in Hr.
    destruct (save_validation_report env (report s2) s2) as [[u|e] s3]; cbn [fst snd] in *.
    + intros _. rewrite Hs, Hcalls, Hr. by rewrite <- app_assoc.
    + intros Hok. exfalso.
      rewrite (save_validation_report_result env
                 (report (handler_state blob e s3)) (handler_state blob e s3)) in Hok.
      assert (Hm : Json.dumps_report_error (report (handler_state blob e s3))
                   = Json.dumps_report_error (report s2)).
      { apply dumps_report_error_metadata. cbn [handler_state report]. simpl.
        by rewrite Hr. }
      rewrite Hm in Hok.
      destruct (demo_mode env); [|done].
      by destruct (Json.dumps_report_error (report s2)).
  - intros _. rewrite save_validation_report_calls.
    rewrite (save_validation_report_same_report env _ (handler_state blob e s1)).
    reflexivity.
Qed.

(** ** Extensions without a validator *)

Lemma dispatch_unsupported lib ext content :
  ext ∉ supported_extensions ->
  dispatch lib ext content
  = modify_report (append_error ("Extensão não suportada: ." +:+ ext)).
Proof.
  intros Hext. unfold supported_extensions in Hext.
  repeat (apply not_elem_of_cons in Hext as [? Hext]).
  unfold dispatch. by rewrite !bool_decide_eq_false_2 by done.
Qed.

Lemma trigger_state_extension env blob len w :
  extension (report (trigger_state env blob len w)) = blob_extension blob.
Proof. reflexivity. Qed.

(** X12: a blob with an ASCII name, a [blob.length] that is a number and
    no extension, or an extension the function has no validator for, is
    read and rejected without being parsed: the report holds the single
    error naming the extension in lower case and no metadata, the only
    calls are the read, the move to rejected and one save, and the run
    returns. *)
Theorem unsupported_extension_is_rejected (lib : Libs) (env : Env)
    (blob : InputStream) (len : N) (w : World) (content : bytes) :
  isascii (stream_name blob) = true ->
  stream_length blob = Some len ->
  stream_read blob = Ok content ->
  blob_extension blob ∉ supported_extensions ->
  let out := process_uploaded_file lib env blob w in
  out.1 = Ok tt
  /\ errors (report out.2) = ["Extensão não suportada: ." +:+ blob_extension blob]
  /\ valid (report out.2) = false
  /\ metadata (report out.2) = []
  /\ calls (world out.2)
     = calls w ++ [CallBlobRead; CallMoveBlob REJECTED_CONTAINER;
                   CallSaveReport (report out.2)].
Proof.
  intros _ Hlen Hread Hext out.
  pose proof (validate_unfold lib env blob len w content Hread) as Hval. cbv zeta in Hval.
  rewrite trigger_state_extension, (dispatch_unsupported lib _ content Hext) in Hval.
  assert (Hfirst : first_save_raises lib env blob len w = false).
  { unfold first_save_raises. rewrite Hval. run_monad. apply andb_false_r. }
  pose proof (process_calls lib env blob len w Hlen Hfirst) as Hcalls.
  pose proof (process_final_report lib env blob len w Hlen) as Hrep.
  fold out in Hcalls, Hrep.
  assert (Hfinal : final_report lib env blob len w
                   = append_error ("Extensão não suportada: ." +:+ blob_extension blob)
                       (report (trigger_state env blob len w))).
  { unfold final_report. rewrite Hval. run_monad. unfold decided. simpl.
    by destruct (demo_mode env). }
  rewrite Hfinal in Hrep.
  split_and!.
  - destruct (process_result lib env blob len w Hlen) as [[_ Hr]|[Hf _]]; [exact Hr | congruence].
  - by rewrite Hrep.
  - by rewrite Hrep.
  - by rewrite Hrep.
  - rewrite Hcalls, Hval. run_monad. by rewrite <- app_assoc.
Qed.

Lemma unsupported_extension_is_rejected_witness :
  let out := process_uploaded_file no_lib env_demo zip_stream empty_world in
  out.1 = Ok tt
  /\ errors (report out.2) = ["Extensão não suportada: .zip"]
  /\ valid (report out.2) = false
  /\ metadata (report out.2) = []
  /\ calls (world out.2)
     = [CallBlobRead; CallMoveBlob REJECTED_CONTAINER; CallSaveReport (report out.2)].
Proof.
  apply (unsupported_extension_is_rejected no_lib env_demo zip_stream 4 empty_world
           xlsx_content); [reflexivity | reflexivity | reflexivity |].
  vm_compute. intros H. repeat (apply elem_of_cons in H as [H|H]; [discriminate|]).
  by apply elem_of_nil in H.
Defined.

(** ** Reports that [json.dumps] accepts *)

Lemma keeps_serialisable_refl s : keeps_serialisable s s.
Proof. by intros H. Qed.

Lemma keeps_serialisable_trans s1 s2 s3 :
  keeps_serialisable s1 s2 -> keeps_serialisable s2 s3 -> keeps_serialisable s1 s3.
Proof. unfold keeps_serialisable. auto. Qed.

Lemma dumps_error_strs l : Json.dumps_error (VStrs l) = None.
Proof. unfold VStrs. induction l as [|x l IH]; [reflexivity | exact IH]. Qed.

Lemma same_metadata_keeps_serialisable {A} (m : M A) :
  steps same_metadata m -> steps keeps_serialisable m.
Proof.
  intros Hm s Hs. unfold serialisable in *.
  by rewrite (dumps_report_error_metadata _ (report s)) by apply Hm.
Qed.

Lemma set_metadata_keeps_serialisable d :
  Json.dumps_error (VDict (map (fun kv => (VStr kv.1, kv.2)) d)) = None ->
  steps keeps_serialisable (modify_report (set_metadata d)).
Proof. intros Hd s _. exact Hd. Qed.

Create HintDb serialisable.

#[local] Hint Extern 1 (steps keeps_serialisable (modify_report (append_error _))) =>
  apply same_metadata_keeps_serialisable, append_error_same_metadata : serialisable.
#[local] Hint Extern 1 (steps keeps_serialisable (record_call _)) =>
  apply same_metadata_keeps_serialisable, record_call_same_metadata : serialisable.
#[local] Hint Extern 1 (steps keeps_serialisable (modify_report (set_metadata _))) =>
  apply set_metadata_keeps_serialisable; cbn -[VStrs]; rewrite ?dumps_error_strs;
  reflexivity : serialisable.

Ltac keeps_serialisable_tac :=
  steps_structure keeps_serialisable_refl keeps_serialisable_trans
    ltac:(auto with serialisable).

Lemma validate_json_keeps_serialisable lib content :
  steps keeps_serialisable (validate_json lib content).
Proof.
  unfold validate_json, call_decode_utf8, call_decode_latin1, call_json_loads.
  keeps_serialisable_tac.
Qed.

Lemma validate_txt_keeps_serialisable content :
  steps keeps_serialisable (validate_txt content).
Proof.
  unfold validate_txt, call_decode_utf8, call_decode_latin1. keeps_serialisable_tac.
Qed.

Lemma dispatch_keeps_serialisable lib ext content :
  ext ∉ tabular_extensions -> steps keeps_serialisable (dispatch lib ext content).
Proof.
  intros Hext. unfold tabular_extensions in Hext.
  repeat (apply not_elem_of_cons in Hext as [? Hext]).
  unfold dispatch.
  rewrite (bool_decide_eq_false_2 (ext = "csv")), (bool_decide_eq_false_2 (ext = "xlsx")),
    (bool_decide_eq_false_2 (ext = "xls")), (bool_decide_eq_false_2 (ext = "parquet"))
    by done.
  cbn [orb].
  pose proof (validate_json_keeps_serialisable lib content).
  pose proof (validate_txt_keeps_serialisable content).
  keeps_serialisable_tac.
Qed.

(** A blob whose extension is not one of the tabular ones leaves a report
    that serialises, and the run returns. *)
Lemma non_tabular_run_returns (lib : Libs) (env : Env) (blob : InputStream)
    (len : N)
    (w : World) (Hlen : stream_length blob = Some len) :
  blob_extension blob ∉ tabular_extensions ->
  let out := process_uploaded_file lib env blob w in
  out.1 = Ok tt /\ serialisable (report out.2).
Proof.
  intros Hext out.
  assert (Hs1 : serialisable (report (validate lib blob (trigger_state env blob len w)).2)).
  { destruct (stream_read blob) as [content|e] eqn:Hread.
    - rewrite (validate_unfold lib env blob len w content Hread). cbv zeta.
      rewrite trigger_state_extension. unfold bind at 1.
      match goal with |- context [dispatch lib ?x content ?s0] =>
        pose proof (dispatch_keeps_serialisable lib x content Hext s0) as Hd;
        destruct (dispatch lib x content s0) as [[u|e] s1]
      end; by apply Hd.
    - unfold validate. run_monad. by rewrite Hread. }
  assert (Hfirst : first_save_raises lib env blob len w = false).
  { unfold first_save_raises.
    destruct (validate lib blob (trigger_state env blob len w)) as [[content|e] s1];
      [|reflexivity].
    rewrite bool_decide_eq_false_2; [apply andb_false_r|].
    intros Hne. by apply Hne. }
  split.
  - destruct (process_result lib env blob len w Hlen) as [[_ Hr]|[Hf _]]; [exact Hr | congruence].
  - subst out. unfold serialisable.
    pose proof (process_keeps_metadata lib env blob len w Hlen) as [Hm _]. cbv zeta in Hm.
    by rewrite (dumps_report_error_metadata _ _ Hm).
Qed.

(** X13: the TypeError of [json.dumps] can only come from a delimited,
    spreadsheet or Parquet file: for a blob whose [blob.length] is a number
    and whose extension is any other (plain text, JSON, and the ones
    without a validator) the report always serialises, and the run returns,
    with or without a connection string. *)
Theorem text_and_json_runs_never_raise (lib : Libs) (env : Env) (blob : InputStream)
    (len : N) (w : World) :
  stream_length blob = Some len ->
  blob_extension blob ∉ tabular_extensions ->
  let out := process_uploaded_file lib env blob w in
  out.1 = Ok tt /\ serialisable (report out.2).
Proof. intros Hlen. exact (non_tabular_run_returns lib env blob len w Hlen). Qed.

Lemma text_and_json_runs_never_raise_witness :
  (process_uploaded_file no_lib env_demo sample_stream world_with_sample).1 = Ok tt.
Proof.
  apply (text_and_json_runs_never_raise no_lib env_demo sample_stream 3 world_with_sample);
    [reflexivity|].
  vm_compute. intros H. repeat (apply elem_of_cons in H as [H|H]; [discriminate|]).
  by apply elem_of_nil in H.
Defined.

(** ** Plain text within the ceiling *)

Lemma validate_txt_within (content : bytes) (s : St) :
  len_bytes content <= max_size_mb (rules_txt VALIDATION_RULES) * Fmt.MiB ->
  validate_txt content s
  = (Ok tt,
     mkSt (set_metadata (txt_metadata content) (report s))
       (extend_calls
          (CallDecode "utf-8"
           :: match Codec.decode_utf8 content with
              | Some _ => []
              | None => [CallDecode "latin-1"]
              end) (world s))).
Proof.
  intros Hsize. unfold validate_txt, txt_metadata, text_of.
  rewrite (size_mb_exceeds_false _ _ Hsize).
  unfold call_decode_utf8, call_decode_latin1. run_monad.
  destruct (Codec.decode_utf8 content) as [t|]; simpl; [reflexivity|].
  unfold extend_calls. simpl. by rewrite <- app_assoc.
Qed.

(** *** The counts, on the bytes

    A line feed is the byte 0x0A in UTF-8 as in latin-1, and a character of
    a well-formed UTF-8 text starts at every byte that is not a
    continuation byte. *)

Lemma count_newlines_other (c : N) (t : text) :
  c <> 10 -> count_newlines (c :: t) = count_newlines t.
Proof. intros Hc. rewrite count_newlines_cons. by rewrite bool_decide_eq_false_2. Qed.

Lemma lf_count_cons b bs : lf_count (b :: bs) = (if b =? 10 then 1 else 0) + lf_count bs.
Proof. unfold lf_count. simpl. destruct (b =? 10); simpl; lia. Qed.

Lemma leading_count_cons b bs :
  leading_count (b :: bs) = (if Codec.is_cont b then 0 else 1) + leading_count bs.
Proof. unfold leading_count. simpl. destruct (Codec.is_cont b); simpl; lia. Qed.

Lemma len_text_cons (c : N) (t : text) : len_text (c :: t) = 1 + len_text t.
Proof. unfold len_text. simpl length. lia. Qed.

(** A continuation byte counts neither as a line feed nor as a character. *)
Lemma continuation_counts b bs :
  Codec.is_cont b = true ->
  lf_count (b :: bs) = lf_count bs /\ leading_count (b :: bs) = leading_count bs.
Proof.
  intros Hc. rewrite lf_count_cons, leading_count_cons, Hc.
  unfold Codec.is_cont in Hc. apply andb_true_iff in Hc as [Hc _]. apply N.leb_le in Hc.
  assert (H10 : (b =? 10) = false) by (apply N.eqb_neq; lia).
  by rewrite H10.
Qed.

(** A byte from 128 on that is not a continuation byte counts as one
    character and is no line feed. *)
Lemma leading_counts b bs :
  192 <= b ->
  lf_count (b :: bs) = lf_count bs /\ leading_count (b :: bs) = 1 + leading_count bs.
Proof.
  intros Hb. rewrite lf_count_cons, leading_count_cons.
  assert (H10 : (b =? 10) = false) by (apply N.eqb_neq; lia).
  assert (Hc : Codec.is_cont b = false).
  { unfold Codec.is_cont. apply andb_false_iff. right. apply N.leb_gt. lia. }
  by rewrite H10, Hc.
Qed.

Lemma range_cont lo hi b :
  128 <= lo -> hi <= 191 -> (lo <=? b) && (b <=? hi) = true -> Codec.is_cont b = true.
Proof.
  intros Hlo Hhi H. apply andb_true_iff in H as [H1 H2]. apply N.leb_le in H1, H2.
  unfold Codec.is_cont. apply andb_true_iff. split; apply N.leb_le; lia.
Qed.

Lemma decode_utf8_N_counts (k : nat) (bs : list N) (t : text) :
  (length bs <= k)%nat ->
  Codec.decode_utf8_N bs = Some t ->
  count_newlines t = lf_count bs /\ len_text t = leading_count bs.
Proof.
  revert bs t. induction k as [|k IH]; intros bs t Hk Hdec.
  - destruct bs; [|simpl in Hk; lia]. simpl in Hdec. injection Hdec as <-. by split.
  - destruct bs as [|b0 r0]; [simpl in Hdec; injection Hdec as <-; by split|].
    simpl in Hk. cbn [Codec.decode_utf8_N] in Hdec.
    destruct (b0 <? 128) eqn:H0.
    { apply N.ltb_lt in H0.
      destruct (Codec.decode_utf8_N r0) as [t0|] eqn:Hr; [|discriminate].
      injection Hdec as <-.
      destruct (IH r0 t0 ltac:(lia) Hr) as [Hn Hc].
      rewrite count_newlines_cons, len_text_cons, lf_count_cons, leading_count_cons, Hn, Hc.
      assert (Hcont : Codec.is_cont b0 = false).
      { unfold Codec.is_cont. apply andb_false_iff. left. apply N.leb_gt. lia. }
      rewrite Hcont. split; [|reflexivity].
      destruct (decide (b0 = 10)) as [->|Hne].
      - by rewrite bool_decide_eq_true_2.
      - rewrite bool_decide_eq_false_2 by done.
        apply N.eqb_neq in Hne. by rewrite Hne. }
    apply N.ltb_ge in H0.
    destruct ((194 <=? b0) && (b0 <=? 223)) eqn:H2.
    { apply andb_true_iff in H2 as [H2 _]. apply N.leb_le in H2.
      destruct r0 as [|b1 r1]; [discriminate|].
      destruct (Codec.is_cont b1) eqn:Hc1; [|discriminate].
      destruct (Codec.decode_utf8_N r1) as [t1|] eqn:Hr; [|discriminate].
      injection Hdec as <-. simpl in Hk.
      destruct (IH r1 t1 ltac:(lia) Hr) as [Hn Hc].
      destruct (leading_counts b0 (b1 :: r1) ltac:(lia)) as [-> ->].
      destruct (continuation_counts b1 r1 Hc1) as [-> ->].
      rewrite count_newlines_other, len_text_cons by lia. by rewrite Hn, Hc. }
    destruct ((224 <=? b0) && (b0 <=? 239)) eqn:H3.
    { apply andb_true_iff in H3 as [H3 _]. apply N.leb_le in H3.
      destruct r0 as [|b1 [|b2 r2]]; [discriminate | discriminate |].
      cbv zeta in Hdec.
      match type of Hdec with (if ?c then _ else _) = _ =>
        destruct c eqn:Hc12; [|discriminate] end.
      apply andb_true_iff in Hc12 as [Hc1 Hc2].
      destruct (Codec.decode_utf8_N r2) as [t2|] eqn:Hr; [|discriminate].
      injection Hdec as <-. simpl in Hk.
      destruct (IH r2 t2 ltac:(lia) Hr) as [Hn Hc].
      assert (Hlow : b0 = 224 -> 160 <= b1).
      { intros ->. simpl in Hc1. apply andb_true_iff in Hc1 as [Hc1 _].
        by apply N.leb_le in Hc1. }
      apply range_cont in Hc1;
        [|destruct (b0 =? 224); lia | destruct (b0 =? 237); lia].
      destruct (leading_counts b0 (b1 :: b2 :: r2) ltac:(lia)) as [-> ->].
      destruct (continuation_counts b1 (b2 :: r2) Hc1) as [-> ->].
      destruct (continuation_counts b2 r2 Hc2) as [-> ->].
      rewrite count_newlines_other, len_text_cons; [by rewrite Hn, Hc|].
      unfold Codec.cont. destruct (decide (b0 = 224)) as [Hb|Hb].
      - specialize (Hlow Hb). lia.
      - lia. }
    destruct ((240 <=? b0) && (b0 <=? 244)) eqn:H4; [|discriminate].
    apply andb_true_iff in H4 as [H4 _]. apply N.leb_le in H4.
    destruct r0 as [|b1 [|b2 [|b3 r3]]]; [discriminate | discriminate | discriminate |].
    cbv zeta in Hdec.
    match type of Hdec with (if ?c then _ else _) = _ =>
      destruct c eqn:Hc123; [|discriminate] end.
    apply andb_true_iff in Hc123 as [Hc12 Hc3].
    apply andb_true_iff in Hc12 as [Hc1 Hc2].
    destruct (Codec.decode_utf8_N r3) as [t3|] eqn:Hr; [|discriminate].
    injection Hdec as <-. simpl in Hk.
    destruct (IH r3 t3 ltac:(lia) Hr) as [Hn Hc].
    assert (Hlow : b0 = 240 -> 144 <= b1).
    { intros ->. simpl in Hc1. apply andb_true_iff in Hc1 as [Hc1 _].
      by apply N.leb_le in Hc1. }
    apply range_cont in Hc1;
      [|destruct (b0 =? 240); lia | destruct (b0 =? 244); lia].
    destruct (leading_counts b0 (b1 :: b2 :: b3 :: r3) ltac:(lia)) as [-> ->].
    destruct (continuation_counts b1 (b2 :: b3 :: r3) Hc1) as [-> ->].
    destruct (continuation_counts b2 (b3 :: r3) Hc2) as [-> ->].
    destruct (continuation_counts b3 r3 Hc3) as [-> ->].
    rewrite count_newlines_other, len_text_cons; [by rewrite Hn, Hc|].
    unfold Codec.cont. destruct (decide (b0 = 240)) as [Hb|Hb].
    + specialize (Hlow Hb). lia.
    + lia.
Qed.

Lemma lf_count_bytes (content : bytes) : lf_count (map Byte.to_N content) = lf_bytes content.
Proof.
  unfold lf_count, lf_bytes. induction content as [|b content IH]; [reflexivity|].
  cbn [map List.filter]. rewrite <- to_N_line_feed.
  destruct (decide (Byte.to_N b = 10)) as [Hb|Hb].
  - rewrite bool_decide_eq_true_2 by done. rewrite Hb. simpl. lia.
  - rewrite bool_decide_eq_false_2 by done. apply N.eqb_neq in Hb. rewrite Hb. exact IH.
Qed.

Lemma leading_count_bytes (content : bytes) :
  leading_count (map Byte.to_N content) = leading_bytes content.
Proof.
  unfold leading_count, leading_bytes. induction content as [|b content IH]; [reflexivity|].
  cbn [map List.filter]. destruct (Codec.is_cont (Byte.to_N b)); simpl; lia.
Qed.

(** The counts of [validate_txt], on the bytes. *)
Lemma txt_metadata_on_bytes (content : bytes) :
  txt_metadata content
  = [ ("lines", VCount (lf_bytes content + 1));
      ("characters", VCount (characters_of content));
      ("encoding", VStr "utf-8") ].
Proof.
  unfold txt_metadata, text_of, characters_of, Codec.decode_utf8.
  destruct (Codec.decode_utf8_N (map Byte.to_N content)) as [t|] eqn:Hdec.
  - destruct (decode_utf8_N_counts _ _ t (le_n _) Hdec) as [-> ->].
    by rewrite lf_count_bytes, leading_count_bytes.
  - by rewrite count_newlines_latin1, decode_latin1_length.
Qed.

(** X14: a .txt blob whose [blob.length] is a number and whose content is
    within the 100 MB ceiling is accepted whatever its bytes are: latin-1
    decodes every byte sequence, so the branch that would record an
    unsupported encoding is never taken; the run ends with no error,
    [valid = True], and one move, to staging.  The metadata holds the
    counts of the decoded text: [lines] is one more than the number of 0x0A
    bytes, [characters] is the number of bytes that are not UTF-8
    continuation bytes when the content is UTF-8, and the number of bytes
    when it is not. *)
Theorem any_text_within_the_ceiling_is_accepted (lib : Libs) (env : Env)
    (blob : InputStream) (len : N) (w : World) (content : bytes) :
  stream_length blob = Some len ->
  stream_read blob = Ok content ->
  blob_extension blob = "txt" ->
  len_bytes content <= max_size_mb (rules_txt VALIDATION_RULES) * Fmt.MiB ->
  let out := process_uploaded_file lib env blob w in
  out.1 = Ok tt
  /\ errors (report out.2) = []
  /\ valid (report out.2) = true
  /\ metadata (report out.2) = txt_metadata content
  /\ metadata (report out.2)
     = [ ("lines", VCount (lf_bytes content + 1));
         ("characters", VCount (characters_of content));
         ("encoding", VStr "utf-8") ]
  /\ moves (world out.2) = moves w ++ [CallMoveBlob STAGING_CONTAINER].
Proof.
  intros Hlen Hread Hext Hsize out.
  pose proof (validate_unfold lib env blob len w content Hread) as Hval. cbv zeta in Hval.
  rewrite trigger_state_extension, Hext in Hval.
  unfold dispatch in Hval. simpl bool_decide in Hval. cbn [orb] in Hval.
  unfold bind at 1 in Hval. rewrite (validate_txt_within content _ Hsize) in Hval.
  unfold ret in Hval.
  assert (Hnot : blob_extension blob ∉ tabular_extensions).
  { rewrite Hext. unfold tabular_extensions. intros H.
    repeat (apply elem_of_cons in H as [H|H]; [discriminate|]). by apply elem_of_nil in H. }
  destruct (non_tabular_run_returns lib env blob len w Hlen Hnot) as [Hok Hser].
  pose proof (process_final_report lib env blob len w Hlen) as Hrep. fold out in Hrep.
  assert (Hfinal : final_report lib env blob len w
                   = set_valid true (set_metadata (txt_metadata content)
                                       (report (trigger_state env blob len w)))).
  { unfold final_report. rewrite Hval. cbn [report]. unfold decided.
    rewrite bool_decide_eq_true_2 by reflexivity.
    destruct (demo_mode env); [|reflexivity].
    unfold txt_metadata. cbn. reflexivity. }
  rewrite Hfinal in Hrep.
  split_and!; [exact Hok | by rewrite Hrep | by rewrite Hrep | by rewrite Hrep | |].
  - rewrite Hrep. apply txt_metadata_on_bytes.
  - subst out. rewrite (process_moves lib env blob len w Hlen), Hval. cbn [report].
    unfold destination_for. by rewrite bool_decide_eq_true_2 by reflexivity.
Qed.

Lemma any_text_within_the_ceiling_is_accepted_witness :
  (let out := process_uploaded_file no_lib (env_connected no_fault)
                (mkInputStream sample_path (Some 3) (Ok latin1_two_lines))
                world_with_sample in
   out.1 = Ok tt
   /\ errors (report out.2) = []
   /\ valid (report out.2) = true
   /\ metadata (report out.2)
      = [ ("lines", VCount 2); ("characters", VCount 3); ("encoding", VStr "utf-8") ]
   /\ moves (world out.2) = [CallMoveBlob STAGING_CONTAINER])
  /\ (let out := process_uploaded_file no_lib (env_connected no_fault)
                   (mkInputStream sample_path (Some 4) (Ok utf8_two_lines))
                   world_with_sample in
      metadata (report out.2)
      = [ ("lines", VCount 2); ("characters", VCount 3); ("encoding", VStr "utf-8") ]).
Proof.
  split.
  - destruct (any_text_within_the_ceiling_is_accepted no_lib (env_connected no_fault)
                (mkInputStream sample_path (Some 3) (Ok latin1_two_lines)) 3
                world_with_sample latin1_two_lines)
      as (H1 & H2 & H3 & _ & H5 & H6);
      [reflexivity | reflexivity | reflexivity | by vm_compute |].
    split_and!; assumption.
  - destruct (any_text_within_the_ceiling_is_accepted no_lib (env_connected no_fault)
                (mkInputStream sample_path (Some 4) (Ok utf8_two_lines)) 4
                world_with_sample utf8_two_lines)
      as (_ & _ & _ & _ & H5 & _);
      [reflexivity | reflexivity | reflexivity | by vm_compute |].
    exact H5.
Defined.

(** ** JSON that cannot be loaded *)

(** X15: when the bytes are not UTF-8, [validate_json] decodes them as
    latin-1 and loads that text; whatever [json.loads] then raises, of any
    class, is caught and recorded as an unsupported encoding, with the
    message of the JSON error; the validator returns and the metadata is
    not written. *)
Theorem json_fallback_failure_blames_the_encoding (lib : Libs) (content : bytes)
    (s : St) (e : Exc) :
  len_bytes content <= max_size_mb (rules_json VALIDATION_RULES) * Fmt.MiB ->
  Codec.decode_utf8 content = None ->
  json_loads lib (Codec.decode_latin1 content) = Raise e ->
  let out := validate_json lib content s in
  out.1 = Ok tt
  /\ errors (report out.2) = errors (report s) ++ ["Encoding não suportado: " +:+ exc_str e]
  /\ metadata (report out.2) = metadata (report s)
  /\ calls (world out.2)
     = calls (world s) ++ [CallDecode "utf-8"; CallDecode "latin-1"; CallJsonLoads].
Proof.
  intros Hsize Hutf Hloads out. subst out.
  unfold validate_json. rewrite (size_mb_exceeds_false _ _ Hsize).
  unfold call_decode_utf8, call_decode_latin1, call_json_loads. run_monad.
  rewrite Hutf. simpl. rewrite Hloads. simpl.
  split_and!; try reflexivity. by rewrite <- !app_assoc.
Qed.

Lemma json_fallback_failure_blames_the_encoding_witness :
  let out := validate_json lib_not_json latin1_only (fresh_state "dados.json" "json" 1) in
  out.1 = Ok tt
  /\ errors (report out.2)
     = ["Encoding não suportado: Expecting value: line 1 column 1 (char 0)"]
  /\ metadata (report out.2) = [].
Proof.
  pose proof (json_fallback_failure_blames_the_encoding lib_not_json latin1_only
                (fresh_state "dados.json" "json" 1)
                (mkExc JSONDecodeError "Expecting value: line 1 column 1 (char 0)"))
    as H.
  destruct H as (H1 & H2 & H3 & _); [by vm_compute | reflexivity | reflexivity |].
  split_and!; [exact H1 | exact H2 | exact H3].
Defined.

(** X16: for UTF-8 bytes, only a JSONDecodeError of [json.loads] is
    recorded in the report ("JSON inválido").  An exception of any other
    class (the RecursionError of a deeply nested document, a MemoryError)
    leaves [validate_json] with the report untouched, and is left to the
    handler of the caller. *)
Theorem only_json_decode_errors_are_recorded (lib : Libs) (content : bytes) (t : text)
    (s : St) (e : Exc) :
  len_bytes content <= max_size_mb (rules_json VALIDATION_RULES) * Fmt.MiB ->
  Codec.decode_utf8 content = Some t ->
  json_loads lib t = Raise e ->
  is_class UnicodeDecodeError e = false ->
  let out := validate_json lib content s in
  (is_class JSONDecodeError e = true ->
   out.1 = Ok tt
   /\ errors (report out.2) = errors (report s) ++ ["JSON inválido: " +:+ exc_str e]
   /\ metadata (report out.2) = metadata (report s))
  /\ (is_class JSONDecodeError e = false ->
      out.1 = Raise e /\ report out.2 = report s).
Proof.
  intros Hsize Hutf Hloads Hnot out. subst out.
  unfold validate_json. rewrite (size_mb_exceeds_false _ _ Hsize).
  unfold call_decode_utf8, call_json_loads. run_monad.
  rewrite Hutf. simpl. rewrite Hloads. simpl. rewrite Hnot. simpl.
  split; intros Hclass; rewrite Hclass; simpl; by split_and!.
Qed.

Lemma only_json_decode_errors_are_recorded_witness :
  let out := validate_json lib_deep_json json_brackets (fresh_state "dados.json" "json" 2) in
  out.1 = Raise (mkExc OtherException
                   "maximum recursion depth exceeded while decoding a JSON array")
  /\ errors (report out.2) = [].
Proof.
  pose proof (only_json_decode_errors_are_recorded lib_deep_json json_brackets [91; 93]
                (fresh_state "dados.json" "json" 2)
                (mkExc OtherException
                   "maximum recursion depth exceeded while decoding a JSON array"))
    as H.
  destruct H as [_ H]; [by vm_compute | reflexivity | reflexivity | reflexivity |].
  destruct H as [H1 H2]; [reflexivity|].
  split; [exact H1 | by rewrite H2].
Defined.

(** ** The encoding loop of delimited text *)

(** The loop passes over the encodings whose five-row parse fails with a
    decoding or tokenizing error and stops at the first one that parses. *)
Lemma detect_encoding_stops_at_first lib content before enc after df5 s :
  Forall (sample_unreadable lib content) before ->
  pd_read_csv lib content enc (Some 5) = Ok df5 ->
  detect_encoding lib content (before ++ enc :: after) s
  = (Ok (Some (enc, df5)),
     mkSt (report s) (extend_calls (sample_reads (before ++ [enc])) (world s))).
Proof.
  intros Hbefore Henc. revert s.
  induction Hbefore as [|enc0 before (e & He & Hclass) _ IH]; intros s; simpl.
  - unfold call_read_csv. run_monad. rewrite Henc. by destruct s as [r []].
  - unfold call_read_csv at 1. run_monad. rewrite He. simpl.
    unfold moves_on in Hclass. rewrite Hclass. rewrite IH. cbn [report world].
    unfold extend_calls. simpl. by rewrite <- app_assoc.
Qed.

(** When every five-row parse fails that way, the loop ends without an
    encoding. *)
Lemma detect_encoding_finds_none lib content encs s :
  Forall (sample_unreadable lib content) encs ->
  detect_encoding lib content encs s
  = (Ok None, mkSt (report s) (extend_calls (sample_reads encs) (world s))).
Proof.
  intros Hencs. revert s.
  induction Hencs as [|enc0 encs (e & He & Hclass) _ IH]; intros s; simpl.
  - run_monad. unfold extend_calls. simpl. rewrite app_nil_r. by destruct s as [r []].
  - unfold call_read_csv at 1. run_monad. rewrite He. simpl.
    unfold moves_on in Hclass. rewrite Hclass. rewrite IH. cbn [report world].
    unfold extend_calls. simpl. by rewrite <- app_assoc.
Qed.

(** X17: the encoding that [validate_csv] names in the metadata is the first
    of utf-8, latin-1, iso-8859-1 under which the first five rows parse:
    the encodings before it were tried and failed with a decoding or
    tokenizing error, the ones after it are never tried, and the full parse
    is made once, under that encoding. *)
Theorem csv_encoding_is_the_first_readable (lib : Libs) (content : bytes)
    (before after : list string) (enc : string) (df5 df : DataFrame) (s : St) :
  required_encoding (rules_csv VALIDATION_RULES) = before ++ enc :: after ->
  Forall (sample_unreadable lib content) before ->
  pd_read_csv lib content enc (Some 5) = Ok df5 ->
  pd_read_csv lib content enc None = Ok df ->
  let out := validate_csv lib content s in
  out.1 = Ok tt
  /\ dict_get "encoding" (metadata (report out.2)) = Some (VStr enc)
  /\ metadata (report out.2) = csv_metadata enc df
  /\ calls (world out.2)
     = calls (world s) ++ sample_reads (before ++ [enc]) ++ [CallReadCsv enc None].
Proof.
  intros Hreq Hbefore Hsample Hfull out.
  pose proof (detect_encoding_stops_at_first lib content before enc after df5 s
                Hbefore Hsample) as Hdetect.
  rewrite <- Hreq in Hdetect.
  assert (Hfound : (detect_encoding lib content
                      (required_encoding (rules_csv VALIDATION_RULES)) s).1
                   = Ok (Some (enc, df5))) by by rewrite Hdetect.
  destruct (validate_csv_parsed lib content enc df5 df s Hfound Hfull)
    as (Hok & _ & _ & Hmeta).
  fold out in Hok, Hmeta.
  split_and!; [exact Hok | by rewrite Hmeta | exact Hmeta |].
  subst out. unfold validate_csv. unfold bind at 1. rewrite Hdetect.
  unfold call_read_csv. run_monad. rewrite Hfull. simpl.
  repeat match goal with |- context [if ?b then _ else _] => destruct b; simpl end;
    by rewrite <- app_assoc.
Qed.

Lemma csv_encoding_is_the_first_readable_witness :
  let out := validate_csv (lib_latin1_csv (plain_frame 2 3)) [xe9]
               (fresh_state "dados.csv" "csv" 1) in
  out.1 = Ok tt
  /\ dict_get "encoding" (metadata (report out.2)) = Some (VStr "latin-1")
  /\ calls (world out.2)
     = [CallReadCsv "utf-8" (Some 5); CallReadCsv "latin-1" (Some 5);
        CallReadCsv "latin-1" None].
Proof.
  pose proof (csv_encoding_is_the_first_readable (lib_latin1_csv (plain_frame 2 3)) [xe9]
                ["utf-8"] ["iso-8859-1"] "latin-1" (plain_frame 2 3) (plain_frame 2 3)
                (fresh_state "dados.csv" "csv" 1)) as H.
  destruct H as (H1 & H2 & _ & H4);
    [ reflexivity
    | apply List.Forall_cons; [eexists; split; reflexivity | apply List.Forall_nil]
    | reflexivity | reflexivity | ].
  split_and!; [exact H1 | exact H2 | exact H4].
Defined.

(** X18: when the five-row parse fails with a decoding or tokenizing error
    under each of the three encodings, [validate_csv] records the single
    error that the file cannot be read and returns: the full parse is never
    attempted and the metadata is not written. *)
Theorem unreadable_csv_is_rejected_without_a_full_parse (lib : Libs) (content : bytes)
    (s : St) :
  Forall (sample_unreadable lib content) (required_encoding (rules_csv VALIDATION_RULES)) ->
  let out := validate_csv lib content s in
  out.1 = Ok tt
  /\ errors (report out.2) = errors (report s) ++ [csv_unreadable_message]
  /\ warnings (report out.2) = warnings (report s)
  /\ metadata (report out.2) = metadata (report s)
  /\ calls (world out.2)
     = calls (world s) ++ sample_reads ["utf-8"; "latin-1"; "iso-8859-1"].
Proof.
  intros Hall out.
  assert (Hout : out = (Ok tt,
                        mkSt (append_error csv_unreadable_message (report s))
                          (extend_calls
                             (sample_reads (required_encoding (rules_csv VALIDATION_RULES)))
                             (world s)))).
  { subst out. unfold validate_csv. unfold bind at 1.
    by rewrite (detect_encoding_finds_none lib content _ s Hall). }
  rewrite Hout. by split_and!.
Qed.

Lemma unreadable_csv_is_rejected_without_a_full_parse_witness :
  let out := validate_csv lib_ragged_csv [] (fresh_state "dados.csv" "csv" 0) in
  out.1 = Ok tt
  /\ errors (report out.2) = [csv_unreadable_message]
  /\ metadata (report out.2) = []
  /\ calls (world out.2)
     = [CallReadCsv "utf-8" (Some 5); CallReadCsv "latin-1" (Some 5);
        CallReadCsv "iso-8859-1" (Some 5)].
Proof.
  pose proof (unreadable_csv_is_rejected_without_a_full_parse lib_ragged_csv []
                (fresh_state "dados.csv" "csv" 0)) as H.
  destruct H as (H1 & H2 & _ & H4 & H5).
  { repeat (apply List.Forall_cons; [eexists; split; reflexivity|]). apply List.Forall_nil. }
  split_and!; [exact H1 | exact H2 | exact H4 | exact H5].
Defined.

(** X19: a failure of the full parse, of any class, after the five-row
    parse succeeded is caught: one error with the message of the exception
    is recorded, the limits are not checked, the metadata is not written,
    and [validate_csv] returns. *)
Theorem full_parse_failure_is_recorded (lib : Libs) (content : bytes)
    (enc : string) (df5 : DataFrame) (e : Exc) (s : St) :
  (detect_encoding lib content (required_encoding (rules_csv VALIDATION_RULES)) s).1
    = Ok (Some (enc, df5)) ->
  pd_read_csv lib content enc None = Raise e ->
  let out := validate_csv lib content s in
  out.1 = Ok tt
  /\ errors (report out.2) = errors (report s) ++ ["Erro ao parsear CSV: " +:+ exc_str e]
  /\ warnings (report out.2) = warnings (report s)
  /\ metadata (report out.2) = metadata (report s).
Proof.
  intros Hfound Hfull out.
  assert (Hout : exists w', out = (Ok tt,
                   mkSt (append_error ("Erro ao parsear CSV: " +:+ exc_str e) (report s)) w')).
  { subst out. unfold validate_csv. unfold bind at 1.
    pose proof (detect_encoding_same_report lib content
                  (required_encoding (rules_csv VALIDATION_RULES)) s) as Hsame.
    unfold same_report in Hsame.
    destruct (detect_encoding lib content _ s) as [found s1].
    cbn [fst snd] in *. subst found.
    unfold call_read_csv. run_monad. rewrite Hfull. simpl. rewrite Hsame.
    by eexists. }
  destruct Hout as [w' ->]. by split_and!.
Qed.

Lemma full_parse_failure_is_recorded_witness :
  let out := validate_csv (lib_ragged_later (plain_frame 5 2)) []
               (fresh_state "dados.csv" "csv" 0) in
  out.1 = Ok tt
  /\ errors (report out.2)
     = ["Erro ao parsear CSV: Error tokenizing data. C error: Expected 2 fields in line 7, saw 3"]
  /\ metadata (report out.2) = [].
Proof.
  pose proof (full_parse_failure_is_recorded (lib_ragged_later (plain_frame 5 2)) []
                "utf-8" (plain_frame 5 2)
                (mkExc ParserError
                   "Error tokenizing data. C error: Expected 2 fields in line 7, saw 3")
                (fresh_state "dados.csv" "csv" 0)) as H.
  destruct H as (H1 & H2 & _ & H4); [reflexivity | reflexivity |].
  split_and!; [exact H1 | exact H2 | exact H4].
Defined.

(** ** Workbooks within the sheet limit *)

Lemma validate_excel_within (lib : Libs) (content : bytes) (xls : ExcelFile) (s : St) :
  pd_ExcelFile lib content = Ok xls ->
  sheet_count xls <= max_sheets (rules_xlsx VALIDATION_RULES) ->
  let read := readable_sheets xls (sheet_names xls) in
  validate_excel lib content s
  = (Ok tt,
     mkSt (set_metadata
             [ ("sheet_count", VCount (sheet_count xls));
               ("sheet_names", VStrs (sheet_names xls));
               ("total_rows", VCount (total_rows_of read));
               ("sheets_detail",
                VDict (map (fun kv => (VStr kv.1, kv.2)) (sheets_detail_of read []))) ]
             (extend_errors
                (if xlsx_max_rows (rules_xlsx VALIDATION_RULES) <? total_rows_of read
                 then [total_rows_error (total_rows_of read)] else [])
                (extend_warnings (read_warnings xls (sheet_names xls))
                   (extend_errors (column_errors read) (report s)))))
          (extend_calls (CallExcelFile :: map CallReadExcel (sheet_names xls))
             (world s))).
Proof.
  intros Hopen Hfew read. subst read.
  apply N.ltb_ge in Hfew. unfold sheet_count in *.
  unfold validate_excel.
  unfold try_except at 1. unfold bind at 1. unfold bind at 1.
  unfold record_call, modify_world, lift, ret; simpl.
  rewrite Hopen; simpl. simpl in Hfew. rewrite Hfew.
  unfold bind at 1. rewrite read_sheets_spec. simpl. rewrite N.add_0_l.
  destruct (1048576 <? total_rows_of (readable_sheets xls (sheet_names xls)));
    run_monad; report_ops; rewrite ?app_nil_r, <- ?app_assoc; reflexivity.
Qed.

Lemma nothing_readable xls sheets :
  (forall sheet, sheet ∈ sheets -> exists e, parse xls sheet = Raise e) ->
  readable_sheets xls sheets = []
  /\ length (read_warnings xls sheets) = length sheets.
Proof.
  induction sheets as [|sheet rest IH]; intros Hall; [done|]. simpl.
  destruct (Hall sheet) as [e He]; [by left|]. rewrite He.
  destruct IH as [IH1 IH2]; [intros x Hx; apply Hall; by right|].
  simpl. by rewrite IH1, IH2.
Qed.

(** X20: a sheet that cannot be read costs a warning, never an error: a
    workbook within the sheet limit none of whose sheets can be read leaves
    [validate_excel] with no error added, one warning for each sheet, and
    metadata that count zero rows and no sheet detail. *)
Theorem unreadable_sheets_do_not_reject (lib : Libs) (content : bytes)
    (xls : ExcelFile) (s : St) :
  pd_ExcelFile lib content = Ok xls ->
  sheet_count xls <= max_sheets (rules_xlsx VALIDATION_RULES) ->
  (forall sheet, sheet ∈ sheet_names xls -> exists e, parse xls sheet = Raise e) ->
  let out := validate_excel lib content s in
  out.1 = Ok tt
  /\ errors (report out.2) = errors (report s)
  /\ length (warnings (report out.2))
     = (length (warnings (report s)) + length (sheet_names xls))%nat
  /\ dict_get "total_rows" (metadata (report out.2)) = Some (VInt 0)
  /\ dict_get "sheets_detail" (metadata (report out.2)) = Some (VDict []).
Proof.
  intros Hopen Hfew Hall out. subst out.
  rewrite (validate_excel_within lib content xls s Hopen Hfew). cbv zeta.
  destruct (nothing_readable xls (sheet_names xls) Hall) as [-> Hlen].
  simpl. rewrite !app_nil_r.
  split_and!; try reflexivity. by rewrite length_app, Hlen.
Qed.

Lemma unreadable_sheets_do_not_reject_witness :
  let out := validate_excel (lib_with_workbook workbook_unreadable) xlsx_content
               (fresh_state "livro.xlsx" "xlsx" 4) in
  out.1 = Ok tt
  /\ errors (report out.2) = []
  /\ length (warnings (report out.2)) = 2%nat
  /\ dict_get "total_rows" (metadata (report out.2)) = Some (VInt 0).
Proof.
  pose proof (unreadable_sheets_do_not_reject (lib_with_workbook workbook_unreadable)
                xlsx_content workbook_unreadable (fresh_state "livro.xlsx" "xlsx" 4))
    as H.
  destruct H as (H1 & H2 & H3 & H4 & _); [reflexivity | by vm_compute | |].
  - intros sheet Hin.
    apply elem_of_cons in Hin as [->|Hin]; [by eexists|].
    apply elem_of_cons in Hin as [->|Hin]; [by eexists|].
    by apply elem_of_nil in Hin.
  - split_and!; [exact H1 | exact H2 | exact H3 | exact H4].
Defined.

(** ** The second copy reads one sheet *)

(** X21: the spreadsheet validator of the second copy
    (azure-function/function_app.py) opens the workbook and reads its first
    sheet only: the other sheets are never read, so their rows and columns
    are not checked; and a first sheet that cannot be read is an error
    there, not a warning. *)
Theorem second_copy_checks_the_first_sheet_only (lib : Libs) (content : bytes)
    (xls : ExcelFile) (first : string) (rest : list string) (s : St) :
  pd_ExcelFile lib content = Ok xls ->
  sheet_names xls = first :: rest ->
  sheet_count xls <= max_sheets (rules_xlsx VALIDATION_RULES) ->
  let out := AzureFunction.validate_excel lib content s in
  calls (world out.2) = calls (world s) ++ [CallExcelFile; CallReadExcel first]
  /\ warnings (report out.2) = warnings (report s)
  /\ (forall df, parse xls first = Ok df ->
      out.1 = Ok (Some df)
      /\ errors (report out.2)
         = errors (report s)
           ++ (if xlsx_max_rows (rules_xlsx VALIDATION_RULES) <? df_rows df
               then [first_sheet_rows_error (df_rows df)] else [])
           ++ (if xlsx_max_columns (rules_xlsx VALIDATION_RULES) <? df_cols df
               then [first_sheet_columns_error (df_cols df)] else []))
  /\ (forall e, parse xls first = Raise e ->
      out.1 = Ok None
      /\ errors (report out.2)
         = errors (report s) ++ ["Erro ao ler primeira aba: " +:+ exc_str e]
      /\ metadata (report out.2) = metadata (report s)).
Proof.
  intros Hopen Hnames Hfew out.
  apply N.ltb_ge in Hfew. unfold sheet_count in Hfew.
  assert (Hout : out
    = match parse xls first with
      | Ok df =>
        (Ok (Some df),
         mkSt (set_metadata
                 [ ("sheet_count", VCount (N.of_nat (length (sheet_names xls))));
                   ("sheet_names", VStrs (sheet_names xls));
                   ("rows", VCount (df_rows df));
                   ("columns", VCount (df_cols df));
                   ("column_names",
                    VList (map val_of_label (slice_to 50 (df_columns df)))) ]
                 (extend_errors
                    ((if xlsx_max_rows (rules_xlsx VALIDATION_RULES) <? df_rows df
                      then [first_sheet_rows_error (df_rows df)] else [])
                     ++ (if xlsx_max_columns (rules_xlsx VALIDATION_RULES) <? df_cols df
                         then [first_sheet_columns_error (df_cols df)] else []))
                    (report s)))
           (extend_calls [CallExcelFile; CallReadExcel first] (world s)))
      | Raise e =>
        (Ok None,
         mkSt (append_error ("Erro ao ler primeira aba: " +:+ exc_str e) (report s))
           (extend_calls [CallExcelFile; CallReadExcel first] (world s)))
      end).
  { subst out. unfold AzureFunction.validate_excel, AzureFunction.read_first_sheet.
    unfold try_except at 1. unfold bind at 1. unfold bind at 1.
    unfold record_call, modify_world, lift, ret; simpl.
    rewrite Hopen; simpl. simpl in Hfew. rewrite Hfew. rewrite Hnames.
    run_monad. unfold extend_calls; simpl. rewrite <- !app_assoc. simpl.
    destruct (parse xls first) as [df|e]; simpl; [|reflexivity].
    unfold first_sheet_rows_error, first_sheet_columns_error.
    destruct (1048576 <? df_rows df); destruct (500 <? df_cols df);
      report_ops; rewrite ?app_nil_r, <- ?app_assoc; reflexivity. }
  rewrite Hout. split_and!.
  - by destruct (parse xls first).
  - by destruct (parse xls first).
  - intros df ->. by split.
  - intros e ->. by split_and!.
Qed.

Lemma second_copy_checks_the_first_sheet_only_witness :
  let out := AzureFunction.validate_excel (lib_with_workbook workbook_mixed) xlsx_content
               (fresh_state "livro.xlsx" "xlsx" 4) in
  out.1 = Ok (Some (plain_frame 2 3))
  /\ calls (world out.2) = [CallExcelFile; CallReadExcel "Resumo"]
  /\ errors (report out.2) = [].
Proof.
  pose proof (second_copy_checks_the_first_sheet_only (lib_with_workbook workbook_mixed)
                xlsx_content workbook_mixed "Resumo" ["Quebrada"; "Larga"; "Larga2"]
                (fresh_state "livro.xlsx" "xlsx" 4)) as H.
  destruct H as (H1 & _ & H3 & _); [reflexivity | reflexivity | by vm_compute |].
  destruct (H3 (plain_frame 2 3) eq_refl) as [H4 H5].
  split_and!; [exact H4 | exact H1 | exact H5].
Defined.

(** ** Strings *)

Lemma append_cons x a b : String x a +:+ b = String x (a +:+ b).
Proof. reflexivity. Qed.

Lemma append_nil b : "" +:+ b = b.
Proof. reflexivity. Qed.

Ltac str_simpl := rewrite ?append_cons, ?append_nil; simpl.

Lemma append_assoc_str (a b c : string) : (a +:+ b) +:+ c = a +:+ (b +:+ c).
Proof. induction a as [|x a IH]; [reflexivity|]. rewrite !append_cons. by f_equal. Qed.

Lemma contains_char_app c a b :
  PyStr.contains_char c (a +:+ b) = PyStr.contains_char c a || PyStr.contains_char c b.
Proof.
  induction a as [|x a IH]; str_simpl; [reflexivity|].
  destruct (Ascii.eqb c x); [reflexivity | exact IH].
Qed.

Lemma split_not_nil sep s : PyStr.split sep s <> [].
Proof.
  destruct s as [|c s]; simpl; [done|].
  destruct (Ascii.eqb c sep); [done|]. by destruct (PyStr.split sep s).
Qed.

Lemma split_free sep s : free_of sep s -> PyStr.split sep s = [s].
Proof.
  unfold free_of. induction s as [|c s IH]; simpl; [done|].
  rewrite Ascii.eqb_sym. destruct (Ascii.eqb c sep); [done|].
  intros H. by rewrite (IH H).
Qed.

Lemma last_cons_not_nil {A} (x : A) l d : l <> [] -> List.last (x :: l) d = List.last l d.
Proof. by destruct l. Qed.

Lemma last_indep {A} (l : list A) d d' : l <> [] -> List.last l d = List.last l d'.
Proof.
  induction l as [|x l IH]; [done|]. intros _.
  destruct l as [|y l]; [done|]. apply IH. done.
Qed.

(** What follows the last separator does not depend on what precedes
    it. *)
Lemma last_split_after sep a b d :
  List.last (PyStr.split sep (a +:+ String sep b)) d = List.last (PyStr.split sep b) d.
Proof.
  induction a as [|c a IH]; str_simpl.
  - rewrite Ascii.eqb_refl. apply last_cons_not_nil, split_not_nil.
  - destruct (Ascii.eqb c sep).
    + rewrite last_cons_not_nil by apply split_not_nil. exact IH.
    + destruct (PyStr.split sep (a +:+ String sep b)) as [|p ps] eqn:Hs.
      { by apply split_not_nil in Hs. }
      destruct ps as [|p' ps]; [|exact IH].
      exfalso. clear IH. revert p Hs.
      induction a as [|c' a IHa]; intros p Hs; rewrite ?append_cons, ?append_nil in Hs;
        simpl in Hs.
      * rewrite Ascii.eqb_refl in Hs. injection Hs as _ Hs. by apply split_not_nil in Hs.
      * destruct (Ascii.eqb c' sep).
        -- injection Hs as _ Hs. by apply split_not_nil in Hs.
        -- destruct (PyStr.split sep (a +:+ String sep b)) as [|q qs] eqn:Hq;
             [by apply split_not_nil in Hq|].
           injection Hs as _ ->. by apply (IHa q).
Qed.

(** The last piece of a string that ends with a tail free of the separator
    ends with that tail. *)
Lemma last_split_tail sep q t d :
  free_of sep t -> exists h, List.last (PyStr.split sep (q +:+ t)) d = h +:+ t.
Proof.
  intros Ht. induction q as [|c q [h IH]]; str_simpl.
  - exists "". by rewrite (split_free _ _ Ht).
  - destruct (Ascii.eqb c sep).
    + exists h. rewrite last_cons_not_nil by apply split_not_nil. exact IH.
    + destruct (PyStr.split sep (q +:+ t)) as [|p ps] eqn:Hs;
        [by apply split_not_nil in Hs|].
      destruct ps as [|p' ps].
      * exists (String c h). simpl in *. by rewrite IH, append_cons.
      * exists h. exact IH.
Qed.

Lemma rsplit1_last_after sep a b :
  free_of sep b -> PyStr.rsplit1_last sep (a +:+ String sep b) = b.
Proof.
  intros Hb. unfold PyStr.rsplit1_last.
  rewrite last_split_after. by rewrite (split_free _ _ Hb).
Qed.

(** A string that holds the separator is cut by [rsplit] at its last
    occurrence. *)
Lemma rsplit1_last_decompose sep s :
  PyStr.contains_char sep s = true ->
  exists p, s = p +:+ String sep (PyStr.rsplit1_last sep s)
            /\ free_of sep (PyStr.rsplit1_last sep s).
Proof.
  induction s as [|c s IH]; simpl; [done|].
  assert (Hstep : forall x, PyStr.contains_char sep s = true ->
            exists p, String x s = p +:+ String sep (PyStr.rsplit1_last sep (String x s))
                      /\ free_of sep (PyStr.rsplit1_last sep (String x s))).
  { intros x Hs. destruct (IH Hs) as (p & Hp & Hfree).
    set (r := PyStr.rsplit1_last sep s) in *. clearbody r. subst s.
    exists (String x p). rewrite <- append_cons.
    rewrite (rsplit1_last_after sep (String x p) r Hfree). by split. }
  destruct (Ascii.eqb sep c) eqn:Hc.
  - apply Ascii.eqb_eq in Hc as <-. intros _.
    destruct (PyStr.contains_char sep s) eqn:Hs; [by apply Hstep|].
    exists "". pose proof (rsplit1_last_after sep "" s Hs) as Hr.
    rewrite append_nil in Hr. rewrite Hr. by split.
  - apply Hstep.
Qed.

(** ** Replacing in a name *)

Lemma prefix_contains c a s :
  String.prefix a s = true -> PyStr.contains_char c a = true ->
  PyStr.contains_char c s = true.
Proof.
  revert s. induction a as [|x a IH]; intros s; simpl; [done|].
  destruct s as [|y s]; [done|]. simpl.
  destruct (ascii_dec x y) as [->|]; [|done].
  intros Hp. destruct (Ascii.eqb c y); [done|]. by apply IH.
Qed.

Lemma prefix_within d a p e :
  String.prefix a (p +:+ String d e) = true -> PyStr.contains_char d a = false ->
  (String.length a <= String.length p)%nat.
Proof.
  revert p. induction a as [|x a IH]; intros p; simpl; [lia|].
  destruct p as [|y p]; str_simpl.
  - destruct (ascii_dec x d) as [->|]; [|done].
    by rewrite Ascii.eqb_refl.
  - destruct (ascii_dec x y) as [->|]; [|done].
    intros Hp Hd. destruct (Ascii.eqb d y); [done|].
    specialize (IH p Hp Hd). lia.
Qed.

(** A string free of a character of [old] holds no occurrence of [old]. *)
Lemma replace_free c old new s :
  PyStr.contains_char c old = true -> free_of c s ->
  PyStr.replace_from old new 0 s = s.
Proof.
  intros Hold. unfold free_of.
  induction s as [|x s IH]; [done|]. intros Hs.
  cbn [PyStr.replace_from].
  destruct (String.prefix old (String x s)) eqn:Hp.
  - by rewrite (prefix_contains c old _ Hp Hold) in Hs.
  - simpl in Hs. destruct (Ascii.eqb c x); [done|]. by rewrite (IH Hs).
Qed.

(** Occurrences of [old] cannot reach into a tail that starts with a
    character [old] does not hold and is free of one that it holds: the
    tail survives the replacement. *)
Lemma replace_keeps_tail c d old new p e skip :
  PyStr.contains_char c old = true -> PyStr.contains_char d old = false ->
  free_of c e -> (skip <= String.length p)%nat ->
  exists q, PyStr.replace_from old new skip (p +:+ String d e) = q +:+ String d e.
Proof.
  intros Hc Hd He. revert skip.
  induction p as [|x p IH]; intros skip Hskip.
  - simpl in Hskip. assert (skip = 0%nat) as -> by lia.
    rewrite append_nil. cbn [PyStr.replace_from].
    destruct (String.prefix old (String d e)) eqn:Hp.
    + exfalso. destruct old as [|y old]; [done|]. simpl in Hp, Hd.
      destruct (ascii_dec y d) as [->|]; [|done]. by rewrite Ascii.eqb_refl in Hd.
    + exists "". by rewrite (replace_free c old new e Hc He).
  - rewrite append_cons. cbn [PyStr.replace_from]. simpl in Hskip.
    destruct skip as [|k].
    + destruct (String.prefix old (String x (p +:+ String d e))) eqn:Hp.
      * rewrite <- append_cons in Hp.
        pose proof (prefix_within d old (String x p) e Hp Hd) as Hlen. simpl in Hlen.
        destruct (IH (String.length old - 1)%nat) as [q Hq]; [lia|].
        exists (new +:+ q). by rewrite Hq, append_assoc_str.
      * destruct (IH 0%nat) as [q Hq]; [lia|].
        exists (String x q). by rewrite Hq.
    + destruct (IH k) as [q Hq]; [lia|]. by exists q.
Qed.

(** ** Lower case *)

Lemma lower_char_keeps (c x : ascii) :
  c = "/"%char \/ c = " "%char ->
  Ascii.eqb c (PyStr.lower_char x) = Ascii.eqb c x.
Proof.
  intros [-> | ->]; destruct x as [[] [] [] [] [] [] [] []]; reflexivity.
Qed.

Lemma lower_contains (c : ascii) s :
  c = "/"%char \/ c = " "%char ->
  PyStr.contains_char c (PyStr.lower s) = PyStr.contains_char c s.
Proof.
  intros Hc. induction s as [|x s IH]; [done|]. simpl.
  by rewrite (lower_char_keeps c x Hc), IH.
Qed.

(** ** The extension of a blob *)

Lemma blob_extension_suffix (p e : string) (len : option N) (read : Res bytes) :
  free_of "." e -> free_of "/" e ->
  blob_extension (mkInputStream (p +:+ String "." e) len read) = PyStr.lower e.
Proof.
  intros Hdot Hslash. unfold blob_extension, initial_report. cbn [extension stream_name].
  destruct (replace_keeps_tail "/" "." "uploads-clientes/" "" p e 0)
    as [q Hq]; [reflexivity | reflexivity | exact Hslash | lia |].
  unfold PyStr.replace. rewrite Hq.
  destruct (last_split_tail "/" q (String "." e) "unknown") as [h Hh].
  { unfold free_of in *. simpl. exact Hslash. }
  rewrite Hh.
  rewrite contains_char_app. simpl. rewrite orb_true_r.
  by rewrite (rsplit1_last_after "." h e Hdot).
Qed.

(** X22: the extension that decides the validator is what follows the last
    dot of the blob name, in lower case, whenever that suffix holds no
    slash: the case of the extension does not matter, and neither does the
    rest of the name, the container prefix included. *)
Theorem extension_is_the_lowercased_suffix (p e : string) (len : option N)
    (read : Res bytes) :
  free_of "." e -> free_of "/" e ->
  let blob := mkInputStream (p +:+ "." +:+ e) len read in
  blob_extension blob = PyStr.lower e
  /\ forall n now, extension (initial_report blob n now) = PyStr.lower e.
Proof.
  intros Hdot Hslash blob.
  pose proof (blob_extension_suffix p e len read Hdot Hslash) as H.
  split; [exact H|]. intros n now. exact H.
Qed.

Lemma extension_is_the_lowercased_suffix_witness :
  blob_extension
    (mkInputStream "uploads-clientes/cli-00123/2024/05/17/vendas.tar.CSV" (Some 10)
       (Ok [x61; x0a]))
  = "csv".
Proof.
  apply (extension_is_the_lowercased_suffix
           "uploads-clientes/cli-00123/2024/05/17/vendas.tar" "CSV" (Some 10)
           (Ok [x61; x0a]));
    reflexivity.
Defined.

(** ** From the portal to the function *)

Lemma allowed_extension_is_plain e :
  PyStr.lower e ∈ Backend.ALLOWED_EXTENSIONS -> free_of "/" e /\ free_of " " e.
Proof.
  intros Hin. unfold free_of.
  rewrite <- (lower_contains "/" e) by by left.
  rewrite <- (lower_contains " " e) by by right.
  unfold Backend.ALLOWED_EXTENSIONS in Hin.
  repeat (apply elem_of_cons in Hin as [->|Hin]; [by split|]).
  by apply elem_of_nil in Hin.
Qed.

Lemma allowed_is_supported ext :
  ext ∈ Backend.ALLOWED_EXTENSIONS -> ext ∈ supported_extensions.
Proof.
  unfold Backend.ALLOWED_EXTENSIONS, supported_extensions.
  rewrite !elem_of_cons, !elem_of_nil. tauto.
Qed.

(** The path the portal generates for an accepted file ends with the dot
    and the extension that [allowed_file] looked at. *)
Lemma accepted_path_suffix now unique_id client_prefix original_filename :
  Backend.allowed_file original_filename = true ->
  exists p,
    trigger_name (Backend.generate_blob_path now unique_id client_prefix original_filename)
    = p +:+ String "." (PyStr.rsplit1_last "." original_filename)
    /\ free_of "." (PyStr.rsplit1_last "." original_filename)
    /\ free_of "/" (PyStr.rsplit1_last "." original_filename)
    /\ PyStr.lower (PyStr.rsplit1_last "." original_filename) ∈ Backend.ALLOWED_EXTENSIONS.
Proof.
  unfold Backend.allowed_file. intros Hallowed.
  apply andb_true_iff in Hallowed as [Hdot Hin]. apply bool_decide_eq_true in Hin.
  destruct (rsplit1_last_decompose "." original_filename Hdot) as (p & Hp & Hfree).
  set (e := PyStr.rsplit1_last "." original_filename) in *. clearbody e.
  destruct (allowed_extension_is_plain e Hin) as [Hslash Hspace].
  destruct (replace_keeps_tail " " "." " " "_" p e 0) as [q Hq];
    [reflexivity | reflexivity | exact Hspace | lia |].
  unfold trigger_name, Backend.generate_blob_path. cbv zeta.
  unfold PyStr.replace. rewrite Hp, Hq.
  eexists. split; [|by split_and!].
  rewrite <- !append_assoc_str. reflexivity.
Qed.

(** X23: every file name the portal accepts ([allowed_file]) is stored
    under a path whose blob the function sends to a validator: the
    extension the function computes from the trigger's blob name is the one
    the portal checked, whatever the client prefix, the date, the unique
    id and the rest of the file name are; the branch for unsupported
    extensions is never taken for a file that came through the portal. *)
Theorem accepted_upload_reaches_a_validator (now : Backend.Date)
    (unique_id client_prefix original_filename : string) (len : option N)
    (read : Res bytes) :
  Backend.allowed_file original_filename = true ->
  let blob_path :=
    Backend.generate_blob_path now unique_id client_prefix original_filename in
  let blob := mkInputStream (trigger_name blob_path) len read in
  blob_extension blob = PyStr.lower (PyStr.rsplit1_last "." original_filename)
  /\ blob_extension blob ∈ supported_extensions.
Proof.
  intros Hallowed blob_path blob. subst blob blob_path.
  destruct (accepted_path_suffix now unique_id client_prefix original_filename Hallowed)
    as (p & -> & Hdot & Hslash & Hin).
  rewrite (blob_extension_suffix p _ len read Hdot Hslash).
  split; [reflexivity | by apply allowed_is_supported].
Qed.

Lemma accepted_upload_reaches_a_validator_witness :
  blob_extension
    (mkInputStream
       (trigger_name (Backend.generate_blob_path a_date "3f2a9c1e" "cli-00123"
                        "Vendas Maio.XLSX")) (Some 4) (Ok xlsx_content))
  = "xlsx".
Proof.
  apply (accepted_upload_reaches_a_validator a_date "3f2a9c1e" "cli-00123"
           "Vendas Maio.XLSX" (Some 4) (Ok xlsx_content)).
  by vm_compute.
Defined.

(** ** The load into the database *)

Import AzureFunctionDb.

(** The loop, from a batch below the batch size: when it returns, the
    batches it sent are full ones, and together with the batch it leaves
    they are the batch it started with followed by the tuples of the rows,
    in order; the count is the number of rows sent.  When it raises, either
    [executemany] was refused or a row has no tuple ([to_json] or [idx + 1]
    raised).  It touches nothing but the list of batches. *)
Lemma load_rows_spec db_fault upload_file_id client_id rows batch total_rows db :
  (length batch < SQL_BATCH_SIZE)%nat ->
  let out := load_rows db_fault upload_file_id client_id rows batch total_rows db in
  rows_loaded out.2 = rows_loaded db
  /\ committed out.2 = committed db
  /\ closed out.2 = closed db
  /\ db_log out.2 = db_log db
  /\ (exists sent, inserted out.2 = inserted db ++ sent
                   /\ Forall (fun b => length b = SQL_BATCH_SIZE) sent
                   /\ match out.1 with
                      | Ok (left_over, total) =>
                        map Some (concat sent ++ left_over)
                        = map Some batch ++ map (staging_row upload_file_id client_id) rows
                        /\ total = total_rows + N.of_nat (length (concat sent))
                        /\ (length left_over < SQL_BATCH_SIZE)%nat
                      | Raise e =>
                        (exists n, db_fault (DbExecuteMany n) = Some e)
                        \/ Exists (fun row => staging_row upload_file_id client_id row = None)
                             rows
                      end).
Proof.
  revert batch total_rows db.
  induction rows as [|[idx row] rest IH]; intros batch total_rows db Hlen out.
  - subst out. simpl. split_and!; try reflexivity.
    exists []. rewrite !app_nil_r. simpl. split_and!; try done. lia.
  - subst out.
    assert (Hstep :
      load_rows db_fault upload_file_id client_id ((idx, row) :: rest) batch total_rows db
      = match row, plus_one idx with
        | Ok row_data, Ok row_number =>
          let batch' := batch ++ [mkStagingRow upload_file_id client_id row_number
                                    row_data] in
          if (SQL_BATCH_SIZE <=? length batch')%nat
          then match executemany db_fault batch' db with
               | (Ok _, db') =>
                 load_rows db_fault upload_file_id client_id rest []
                   (total_rows + N.of_nat (length batch')) db'
               | (Raise e, db') => (Raise e, db')
               end
          else load_rows db_fault upload_file_id client_id rest batch' total_rows db
        | Ok _, Raise e => (Raise e, db)
        | Raise e, _ => (Raise e, db)
        end).
    { cbn [load_rows]. unfold db_bind, db_lift. destruct row; [|reflexivity].
      destruct (plus_one idx); [|reflexivity]. cbv zeta.
      by destruct (SQL_BATCH_SIZE <=? _)%nat. }
    rewrite Hstep. clear Hstep.
    destruct row as [row_data|e].
    2:{ simpl. split_and!; try reflexivity.
        exists []. rewrite app_nil_r. split_and!; try done. right. by left. }
    destruct (plus_one idx) as [row_number|e] eqn:Hnum.
    2:{ simpl. split_and!; try reflexivity.
        exists []. rewrite app_nil_r. split_and!; try done. right. left.
        unfold staging_row. simpl. by rewrite Hnum. }
    assert (Hrow : staging_row upload_file_id client_id (idx, Ok row_data)
                   = Some (mkStagingRow upload_file_id client_id row_number row_data)).
    { unfold staging_row. simpl. by rewrite Hnum. }
    cbv zeta.
    set (batch' := batch ++ [mkStagingRow upload_file_id client_id row_number row_data]).
    assert (Hlen' : length batch' = S (length batch)).
    { subst batch'. rewrite length_app. simpl. lia. }
    assert (Hbatch' : map Some batch'
                      = map Some batch
                        ++ [staging_row upload_file_id client_id (idx, Ok row_data)]).
    { subst batch'. by rewrite map_app, Hrow. }
    destruct (SQL_BATCH_SIZE <=? length batch')%nat eqn:Hfull.
    + apply Nat.leb_le in Hfull.
      assert (Hexact : length batch' = SQL_BATCH_SIZE) by lia.
      unfold executemany.
      destruct (db_fault (DbExecuteMany (length (inserted db)))) as [e|] eqn:Hf.
      * simpl. split_and!; try reflexivity.
        exists []. rewrite app_nil_r. split_and!; try done. left. by eexists.
      * cbv beta iota.
        match goal with |- context [load_rows _ _ _ rest [] ?t ?d] =>
          specialize (IH [] t d); cbv zeta in IH;
          destruct IH as (H1 & H2 & H3 & H4 & (sent & Hi & Hall & Hres));
            [unfold SQL_BATCH_SIZE; simpl; lia|];
          destruct (load_rows db_fault upload_file_id client_id rest [] t d)
            as [res db'] eqn:Hrun
        end.
        cbn [fst snd inserted rows_loaded committed closed db_log] in *.
        split_and!; try done.
        exists (batch' :: sent). rewrite Hi, <- app_assoc. split; [done|].
        split; [by constructor|].
        destruct res as [[left_over total]|e].
        -- destruct Hres as (Hc & Ht & Hl). split_and!; [| |exact Hl].
           ++ cbn [concat map]. rewrite <- app_assoc, map_app, Hc, Hbatch'.
              cbn [map app]. by rewrite <- app_assoc.
           ++ rewrite Ht. simpl. rewrite length_app. lia.
        -- destruct Hres as [Hres|Hres]; [by left | right; by right].
    + apply Nat.leb_gt in Hfull.
      specialize (IH batch' total_rows db Hfull). cbv zeta in IH.
      destruct IH as (H1 & H2 & H3 & H4 & (sent & Hi & Hall & Hres)).
      split_and!; try done.
      exists sent. split; [done|]. split; [done|].
      destruct (load_rows db_fault upload_file_id client_id rest batch' total_rows db).1
        as [[left_over total]|e].
      * destruct Hres as (Hc & Ht & Hl). split_and!; try done.
        rewrite Hc, Hbatch'. cbn [map]. by rewrite <- app_assoc.
      * destruct Hres as [Hres|Hres]; [by left | right; by right].
Qed.

Lemma full_batches_are_batches (sent : list (list StagingRow)) :
  Forall (fun b => length b = SQL_BATCH_SIZE) sent ->
  Forall (fun b => (0 < length b <= SQL_BATCH_SIZE)%nat) sent.
Proof.
  intros H. eapply Forall_impl; [exact H|]. intros b ->. unfold SQL_BATCH_SIZE. lia.
Qed.

Lemma removelast_full (sent : list (list StagingRow)) b :
  Forall (fun b => length b = SQL_BATCH_SIZE) sent ->
  b ∈ removelast sent -> length b = SQL_BATCH_SIZE.
Proof.
  intros Hall Hin. rewrite Forall_forall in Hall. apply Hall.
  clear Hall. induction sent as [|x sent IH]; [by apply elem_of_nil in Hin|].
  destruct sent as [|y sent]; [by apply elem_of_nil in Hin|].
  change (removelast (x :: y :: sent)) with (x :: removelast (y :: sent)) in Hin.
  apply elem_of_cons in Hin as [->|Hin]; [by left | right; by apply IH].
Qed.

(** What a call of [load_dataframe_to_staging] leaves, whatever the
    database refuses: the batches sent are full but possibly the last;
    and either everything was done, or the connection failed to close after
    the commit, or something failed before the commit returned: an
    operation of the database, or a row that has no tuple. *)
Lemma load_outcome db_fault rows upload_file_id client_id db :
  let out := load_dataframe_to_staging db_fault rows upload_file_id client_id db in
  let all_rows := map (staging_row upload_file_id client_id) rows in
  let count := N.of_nat (length rows) in
  exists sent,
    inserted out.2 = inserted db ++ sent
    /\ Forall (fun b => (0 < length b <= SQL_BATCH_SIZE)%nat) sent
    /\ (forall b, b ∈ removelast sent -> length b = SQL_BATCH_SIZE)
    /\ ((out.1 = count /\ map Some (concat sent) = all_rows
         /\ rows_loaded out.2 = Some (upload_file_id, count)
         /\ committed out.2 = true /\ closed out.2 = true
         /\ db_fault DbClose = None)
        \/ (out.1 = 0 /\ map Some (concat sent) = all_rows
            /\ rows_loaded out.2 = Some (upload_file_id, count)
            /\ committed out.2 = true /\ closed out.2 = closed db
            /\ db_fault DbClose <> None)
        \/ (out.1 = 0 /\ committed out.2 = committed db /\ closed out.2 = closed db
            /\ ((exists op, db_fault op <> None)
                \/ Exists (fun row => staging_row upload_file_id client_id row = None)
                     rows))).
Proof.
  intros out all_rows count. subst out.
  destruct (load_dataframe_to_staging db_fault rows upload_file_id client_id db)
    as [result dbf] eqn:Hout.
  cbn [fst snd]. revert Hout.
  unfold load_dataframe_to_staging. cbv zeta.
  unfold db_bind at 1. unfold get_sql_connection, db_injected.
  destruct (db_fault DbConnect) as [e|] eqn:Hconn.
  { intros [= <- <-]. exists []. rewrite app_nil_r. simpl. split_and!; try done.
    - intros b Hb. by apply elem_of_nil in Hb.
    - right; right. split_and!; try done. left. exists DbConnect. by rewrite Hconn. }
  unfold db_bind at 1.
  pose proof (load_rows_spec db_fault upload_file_id client_id rows [] 0 db) as Hloop.
  cbv zeta in Hloop.
  destruct Hloop as (H1 & H2 & H3 & H4 & (sent & Hi & Hall & Hres));
    [unfold SQL_BATCH_SIZE; simpl; lia|].
  destruct (load_rows db_fault upload_file_id client_id rows [] 0 db) as [res db1].
  cbn [fst snd] in *.
  destruct res as [[left_over total]|e].
  2:{ intros [= <- <-]. exists sent. simpl. split_and!; try done.
      - by apply full_batches_are_batches.
      - intros b. by apply removelast_full.
      - right; right. split_and!; try done.
        destruct Hres as [[n Hn]|Hres]; [|by right].
        left. exists (DbExecuteMany n). by rewrite Hn. }
  destruct Hres as (Hc & Ht & Hl). simpl in Hc, Ht. cbn [fst snd].
  assert (Hcount : total + N.of_nat (length left_over) = count).
  { apply (f_equal length) in Hc. rewrite !length_map, length_app in Hc.
    subst count. lia. }
  assert (Hlast : exists sent' db2 res2,
            (match left_over with
             | [] => db_ret total
             | _ :: _ => db_bind (executemany db_fault left_over)
                           (fun _ => db_ret (total + N.of_nat (length left_over)))
             end) db1 = (res2, db2)
            /\ inserted db2 = inserted db ++ sent'
            /\ Forall (fun b => (0 < length b <= SQL_BATCH_SIZE)%nat) sent'
            /\ (forall b, b ∈ removelast sent' -> length b = SQL_BATCH_SIZE)
            /\ rows_loaded db2 = rows_loaded db /\ committed db2 = committed db
            /\ closed db2 = closed db
            /\ match res2 with
               | Ok t => t = count /\ map Some (concat sent') = all_rows
               | Raise _ => exists op, db_fault op <> None
               end).
  { destruct left_over as [|r0 left_over].
    - exists sent, db1, (Ok total). rewrite N.add_0_r in Hcount. rewrite app_nil_r in Hc.
      split_and!; try done.
      + by apply full_batches_are_batches.
      + intros b. by apply removelast_full.
    - unfold db_bind, executemany.
      destruct (db_fault (DbExecuteMany (length (inserted db1)))) as [e|] eqn:Hf.
      + exists sent, db1, (Raise e). split_and!; try done.
        * by apply full_batches_are_batches.
        * intros b. by apply removelast_full.
        * eexists. by rewrite Hf.
      + eexists (sent ++ [r0 :: left_over]), _, (Ok _). split; [reflexivity|].
        cbn [inserted rows_loaded committed closed].
        split_and!; try done.
        * by rewrite Hi, <- app_assoc.
        * apply Forall_app. split; [by apply full_batches_are_batches|].
          apply Forall_singleton. simpl in *. lia.
        * intros b. rewrite removelast_last. intros Hb.
          rewrite Forall_forall in Hall. by apply Hall.
        * rewrite concat_app. simpl concat. by rewrite app_nil_r. }
  destruct Hlast as (sent' & db2 & res2 & Hrun & Hi2 & Hb2 & Hr2 & Hl2 & Hc2 & Hcl2 & Hres2).
  unfold db_bind at 1. rewrite Hrun.
  destruct res2 as [t|e].
  2:{ intros [= <- <-]. exists sent'. simpl. split_and!; try done.
      right; right. split_and!; try done. by left. }
  destruct Hres2 as [-> Hall_rows].
  unfold db_bind, execute_update, commit, close, db_logging, db_ret.
  destruct (db_fault DbExecute) as [e|] eqn:Hexec.
  { intros [= <- <-]. exists sent'. simpl. split_and!; try done.
    right; right. split_and!; try done. left. exists DbExecute. by rewrite Hexec. }
  destruct (db_fault DbCommit) as [e|] eqn:Hcommit.
  { intros [= <- <-]. exists sent'. simpl. split_and!; try done.
    right; right. split_and!; try done. left. exists DbCommit. by rewrite Hcommit. }
  destruct (db_fault DbClose) as [e|] eqn:Hclose.
  { intros [= <- <-]. exists sent'. simpl. split_and!; try done.
    right; left. by split_and!. }
  intros [= <- <-]. exists sent'. simpl. split_and!; try done. left. by split_and!.
Qed.

Lemma no_row_without_tuple upload_file_id client_id rows (l : list StagingRow) :
  map Some l = map (staging_row upload_file_id client_id) rows ->
  ~ Exists (fun row => staging_row upload_file_id client_id row = None) rows.
Proof.
  revert l. induction rows as [|row rows IH]; intros l Hl Hex.
  - by apply Exists_nil in Hex.
  - destruct l as [|x l]; [discriminate|]. simpl in Hl. injection Hl as Hx Hl.
    apply Exists_cons in Hex as [Hex|Hex]; [congruence|]. by apply (IH l).
Qed.

Lemma int_rows_have_tuples upload_file_id client_id (rows : list (Z * string)) :
  map (staging_row upload_file_id client_id) (map int_row rows)
  = map Some (map (int_staging_row upload_file_id client_id) rows).
Proof. rewrite !map_map. apply map_ext. by intros [idx row_data]. Qed.

(** X24: when the database accepts everything and the frame has integer
    index labels and rows that serialise, [load_dataframe_to_staging]
    inserts every row of the frame exactly once and in order, numbered by
    its index label plus one, in batches that are full (1000 rows) except
    possibly the last, none of them empty; it records the number of rows in
    upload_files, commits, closes, and returns that number. *)
Theorem every_row_is_staged_once (db_fault : DbOp -> option Exc)
    (rows : list (Z * string)) (upload_file_id client_id : Z) (db : Db) :
  (forall op, db_fault op = None) ->
  let out := load_dataframe_to_staging db_fault (map int_row rows) upload_file_id
               client_id db in
  out.1 = N.of_nat (length rows)
  /\ concat (new_batches db out.2) = map (int_staging_row upload_file_id client_id) rows
  /\ Forall (fun b => (0 < length b <= SQL_BATCH_SIZE)%nat) (new_batches db out.2)
  /\ (forall b, b ∈ removelast (new_batches db out.2) -> length b = SQL_BATCH_SIZE)
  /\ rows_loaded out.2 = Some (upload_file_id, N.of_nat (length rows))
  /\ committed out.2 = true
  /\ closed out.2 = true.
Proof.
  intros Hnone out.
  destruct (load_outcome db_fault (map int_row rows) upload_file_id client_id db)
    as (sent & Hi & Hb & Hfull & Hcase).
  fold out in Hi, Hcase. rewrite length_map in Hcase.
  assert (Hnew : new_batches db out.2 = sent).
  { unfold new_batches. rewrite Hi. by rewrite drop_app_length. }
  rewrite Hnew.
  destruct Hcase as [(H1 & H2 & H3 & H4 & H5 & _)
                    | [(_ & _ & _ & _ & _ & Hf) | (_ & _ & _ & [[op Hf]|Hex])]].
  - rewrite int_rows_have_tuples in H2.
    apply (inj (map Some)) in H2. by split_and!.
  - by rewrite Hnone in Hf.
  - by rewrite Hnone in Hf.
  - exfalso. revert Hex.
    apply (no_row_without_tuple _ _ _ (map (int_staging_row upload_file_id client_id) rows)).
    by rewrite int_rows_have_tuples.
Qed.

Lemma every_row_is_staged_once_witness :
  let out := load_dataframe_to_staging db_accepts (map int_row (numbered_rows 2500)) 7 123
               fresh_db in
  out.1 = 2500
  /\ rows_loaded out.2 = Some (7%Z, 2500)
  /\ committed out.2 = true
  /\ map length (inserted out.2) = [1000; 1000; 500]%nat
  /\ map sr_row_number (take 2 (concat (inserted out.2))) = [RowInt 1; RowInt 2].
Proof.
  pose proof (every_row_is_staged_once db_accepts (numbered_rows 2500) 7 123 fresh_db
                (fun _ => eq_refl)) as (H1 & _ & _ & _ & H5 & H6 & _).
  assert (Hlen : length (numbered_rows 2500) = 2500%nat).
  { unfold numbered_rows. by rewrite length_map, length_seq. }
  rewrite Hlen in H1, H5.
  split_and!; [exact H1 | exact H5 | exact H6 | by vm_compute | by vm_compute].
Defined.

(** X25: whatever the database refuses and whatever the rows are, nothing
    is committed unless every row was inserted and the count recorded; the
    function returns either the number of rows or 0; and a result other
    than 0 means that the commit and the close both returned.  The converse
    does not hold: 0 is also what it returns when the close fails after the
    commit. *)
Theorem commit_comes_after_every_row (db_fault : DbOp -> option Exc)
    (rows : list (IndexLabel * Res string)) (upload_file_id client_id : Z) (db : Db) :
  committed db = false ->
  let out := load_dataframe_to_staging db_fault rows upload_file_id client_id db in
  (out.1 = N.of_nat (length rows) \/ out.1 = 0)
  /\ (committed out.2 = true ->
      map Some (concat (new_batches db out.2))
      = map (staging_row upload_file_id client_id) rows
      /\ rows_loaded out.2 = Some (upload_file_id, N.of_nat (length rows)))
  /\ (out.1 <> 0 -> committed out.2 = true /\ closed out.2 = true)
  /\ (db_fault DbClose <> None ->
      out.1 = 0 /\ closed out.2 = closed db).
Proof.
  intros Hfresh out.
  destruct (load_outcome db_fault rows upload_file_id client_id db)
    as (sent & Hi & Hb & Hfull & Hcase).
  fold out in Hi, Hcase.
  assert (Hnew : new_batches db out.2 = sent).
  { unfold new_batches. rewrite Hi. by rewrite drop_app_length. }
  rewrite Hnew.
  destruct Hcase as [(H1 & H2 & H3 & H4 & H5 & Hclose)
                    | [(H1 & H2 & H3 & H4 & H5 & Hf) | (H1 & H2 & H3 & Hwhy)]].
  - split_and!; [by left | done | done | done].
  - split_and!; [by right | done | done | done].
  - split_and!; [by right | | done | done].
    intros Hc. rewrite H2, Hfresh in Hc. discriminate.
Qed.

Lemma commit_comes_after_every_row_witness :
  let out := load_dataframe_to_staging close_fails (map int_row (numbered_rows 3)) 7 123
               fresh_db in
  out.1 = 0
  /\ committed out.2 = true
  /\ concat (inserted out.2) = map (int_staging_row 7 123) (numbered_rows 3)
  /\ rows_loaded out.2 = Some (7%Z, 3).
Proof.
  pose proof (commit_comes_after_every_row close_fails (map int_row (numbered_rows 3))
                7 123 fresh_db eq_refl) as (_ & H2 & _ & H4).
  destruct H4 as [H4 _]; [discriminate|].
  destruct H2 as [_ H3]; [reflexivity|].
  split_and!; [exact H4 | reflexivity | reflexivity | exact H3].
Defined.

(** X27: a row that has no tuple stops the load.  When [row.to_json]
    raises for a row, or its index label is not a number so that [idx + 1]
    raises (a frame read with a header shorter than its rows has text
    labels), [load_dataframe_to_staging] returns 0 whatever the database
    accepts: the exception is caught, nothing is committed and the
    connection is not closed. *)
Theorem a_row_without_a_number_stops_the_load (db_fault : DbOp -> option Exc)
    (rows : list (IndexLabel * Res string)) (upload_file_id client_id : Z) (db : Db) :
  Exists (fun row => staging_row upload_file_id client_id row = None) rows ->
  let out := load_dataframe_to_staging db_fault rows upload_file_id client_id db in
  out.1 = 0
  /\ committed out.2 = committed db
  /\ closed out.2 = closed db.
Proof.
  intros Hex out.
  destruct (load_outcome db_fault rows upload_file_id client_id db)
    as (sent & _ & _ & _ & Hcase).
  fold out in Hcase.
  destruct Hcase as [(_ & H2 & _) | [(_ & H2 & _) | (H1 & H2 & H3 & _)]].
  - exfalso. by apply (no_row_without_tuple _ _ _ _ H2).
  - exfalso. by apply (no_row_without_tuple _ _ _ _ H2).
  - by split_and!.
Qed.

Lemma a_row_without_a_number_stops_the_load_witness :
  let out := load_dataframe_to_staging db_accepts text_indexed_rows 7 123 fresh_db in
  out.1 = 0
  /\ committed out.2 = false
  /\ closed out.2 = false
  /\ inserted out.2 = []
  /\ db_log out.2
     = [Log ERROR ("Erro ao carregar staging: can only concatenate str (not " +:+ dq
                   +:+ "int" +:+ dq +:+ ") to str")].
Proof.
  pose proof (a_row_without_a_number_stops_the_load db_accepts text_indexed_rows 7 123
                fresh_db) as H.
  destruct H as (H1 & H2 & H3); [left; reflexivity|].
  split_and!; [exact H1 | exact H2 | exact H3 | reflexivity | reflexivity].
Defined.
